(** * AlephFi/avs: the two helper scripts, embedded and verified

    - [scripts/prepare_airdrop_csv.py]  (AirdropCsvPreparer)
    - [scripts/calculate_src_coverage.py] (CoverageSummarizer)

    The scripts are Python; the embedding is shallow.  Python [int] is [Z],
    [str] is [string] (characters below 256), a raised exception is the
    [Raise] branch of [result], and the variables a loop updates are
    threaded explicitly.  The library calls the scripts rely on
    ([decimal.Decimal] arithmetic, [str.strip], [str.split], [re.search]
    with the two fixed patterns) are modelled next to the code that uses
    them; the ones that only pass data through ([Decimal] of a string,
    [int(_, 16)], [bytes.fromhex], [decode], the HTTP exchange, [open]) are
    parameters of the script, and every property holds whatever they do.

    Python integers are unbounded; their conversion from and to decimal
    text raises ValueError above [sys.get_int_max_str_digits()] digits
    (4300, the default of CPython 3.11 and later).  What the embedding
    leaves out: memory and time, the rows of the input are the ones
    [csv.reader] yields, and writing to the standard output never fails. *)

From Stdlib Require Import ZArith NArith QArith Qpower Qround Lia List String Ascii Bool.
Import ListNotations.

Local Open Scope Z_scope.

(** ** Python exceptions and fallible results *)

Inductive exn : Type :=
| InvalidOperation      (* decimal.InvalidOperation (trapped signal) *)
| DivisionByZero        (* decimal.DivisionByZero (trapped signal) *)
| Overflow              (* decimal.Overflow (trapped signal) *)
| ValueError
| OverflowError
| TypeError
| KeyError
| AttributeError
| URLError              (* any error of urlopen / read / decode *)
| JSONDecodeError
| UnicodeDecodeError
| RpcError              (* Exception("RPC error: ...") *)
| OSError.              (* open() / subprocess.run failed *)

Inductive result (A : Type) : Type :=
| Ok (a : A)
| Raise (e : exn).
Arguments Ok {A} a.
Arguments Raise {A} e.

Definition rbind {A B} (r : result A) (k : A -> result B) : result B :=
  match r with
  | Ok a => k a
  | Raise e => Raise e
  end.

Declare Scope result_scope.
Delimit Scope result_scope with result.
Notation "x <- r ;; k" := (rbind r (fun x => k))
  (at level 61, r at next level, right associativity) : result_scope.

(** ** [decimal.Decimal] under the default context

    A finite decimal is sign, coefficient and exponent, as in CPython
    ([_sign], [_int], [_exp]): its value is (-1)^sign * coeff * 10^exp.
    The scripts never change the context, so every arithmetic operation
    runs with prec=28, rounding=ROUND_HALF_EVEN, Emin=-999999, Emax=999999
    and the traps InvalidOperation, DivisionByZero and Overflow. *)

Module PyDecimal.

Inductive Decimal : Type :=
| Fin (sign : bool) (coeff : N) (exp : Z)
| Inf (sign : bool)
| NaN (signaling : bool).

Definition prec : Z := 28.
Definition Emax : Z := 999999.
Definition Emin : Z := -999999.
Definition Etiny : Z := Emin - prec + 1.
Definition Etop : Z := Emax - prec + 1.

Inductive rounding : Type := ROUND_DOWN | ROUND_HALF_EVEN.

(** [len(self._int)]: the number of decimal digits of the coefficient
    (the coefficient 0 is the one-digit string "0"). *)
Fixpoint ndigits_fuel (fuel : nat) (n : N) : Z :=
  match fuel with
  | O => 1
  | S f => if (n <? 10)%N then 1 else 1 + ndigits_fuel f (n / 10)%N
  end.

Definition ndigits (n : N) : Z := ndigits_fuel (N.to_nat (N.size n)) n.

Definition pow10 (k : N) : N := (10 ^ k)%N.

(** [_round_down], [_round_half_up] and [_round_half_even] of [_pydecimal]:
    the decision (-1, 0 or 1) taken when the last [drop] digits of the
    coefficient [c] are discarded.  The digit-string tests of the source
    are written arithmetically: "all discarded digits are zero" is
    [c mod 10^drop = 0], "the first discarded digit is 5..9" is
    [10^drop <= 2 * (c mod 10^drop)], "exactly half" is equality there, and
    "the last kept digit is even" is [c / 10^drop] being even. *)
Definition round_down (c drop : N) : Z :=
  if (c mod pow10 drop =? 0)%N then 0 else -1.

Definition round_half_up (c drop : N) : Z :=
  if (pow10 drop <=? 2 * (c mod pow10 drop))%N then 1
  else if (c mod pow10 drop =? 0)%N then 0
  else -1.

Definition round_half_even (c drop : N) : Z :=
  if ((2 * (c mod pow10 drop) =? pow10 drop)%N && N.even (c / pow10 drop))%bool
  then -1
  else round_half_up c drop.

Definition pick_rounding_function (r : rounding) : N -> N -> Z :=
  match r with
  | ROUND_DOWN => round_down
  | ROUND_HALF_EVEN => round_half_even
  end.

(** [Decimal._fix(context)]: round to the context precision, check the
    exponent range.  Overflow is trapped, so it raises; Underflow,
    Subnormal, Inexact, Rounded and Clamped are not trapped and only set
    flags. *)
Definition fix_ (x : Decimal) : result Decimal :=
  match x with
  | Fin s c e =>
      if (c =? 0)%N then Ok (Fin s 0 (Z.min (Z.max e Etiny) Emax))
      else
        let exp_min := ndigits c + e - prec in
        if exp_min >? Etop then Raise Overflow
        else
          let exp_min := Z.max exp_min Etiny in
          if e <? exp_min then
            let digits := ndigits c + e - exp_min in
            let '(c1, e1) := if digits <? 0 then (1%N, exp_min - 1) else (c, e) in
            let drop := Z.to_N (exp_min - e1) in
            let changed := pick_rounding_function ROUND_HALF_EVEN c1 drop in
            let coeff := (c1 / pow10 drop)%N in
            let coeff := if changed >? 0 then (coeff + 1)%N else coeff in
            let '(coeff, exp_min) :=
              if ((changed >? 0) && (ndigits coeff >? prec))%bool
              then ((coeff / 10)%N, exp_min + 1)
              else (coeff, exp_min) in
            if exp_min >? Etop then Raise Overflow
            else Ok (Fin s coeff exp_min)
          else Ok x
  | _ => Ok x
  end.

(** [Decimal._check_nans]: a signaling NaN raises InvalidOperation, a
    quiet NaN is the answer; [None] when neither operand is a NaN. *)
Definition check_nans (x y : Decimal) : option (result Decimal) :=
  match x, y with
  | NaN true, _ | _, NaN true => Some (Raise InvalidOperation)
  | NaN false, _ | _, NaN false => Some (Ok (NaN false))
  | _, _ => None
  end.

Definition signed (s : bool) (c : N) : Z :=
  if s then - Z.of_N c else Z.of_N c.

(** [Decimal.__mul__]. *)
Definition mul (x y : Decimal) : result Decimal :=
  match check_nans x y with
  | Some r => r
  | None =>
      match x, y with
      | Fin s1 c1 e1, Fin s2 c2 e2 => fix_ (Fin (xorb s1 s2) (c1 * c2) (e1 + e2))
      | Inf s1, Inf s2 => Ok (Inf (xorb s1 s2))
      | Inf s1, Fin s2 c2 _ =>
          if (c2 =? 0)%N then Raise InvalidOperation else Ok (Inf (xorb s1 s2))
      | Fin s1 c1 _, Inf s2 =>
          if (c1 =? 0)%N then Raise InvalidOperation else Ok (Inf (xorb s1 s2))
      | _, _ => Ok (NaN false)
      end
  end.

(** [Decimal.__add__]: the exact sum at the smaller exponent, then [_fix].
    (The source first shortens an operand that is too small to matter,
    [_normalize]; that shortcut does not change the rounded result.)  A
    zero sum is negative only when both operands are negative zeros. *)
Definition add_exact (s1 : bool) (c1 : N) (e1 : Z) (s2 : bool) (c2 : N) (e2 : Z)
  : Decimal :=
  let exp := Z.min e1 e2 in
  let z := signed s1 (c1 * pow10 (Z.to_N (e1 - exp)))
           + signed s2 (c2 * pow10 (Z.to_N (e2 - exp))) in
  let sign :=
    if ((c1 =? 0)%N && (c2 =? 0)%N)%bool then (s1 && s2)%bool else z <? 0 in
  Fin sign (Z.abs_N z) exp.

Definition add (x y : Decimal) : result Decimal :=
  match check_nans x y with
  | Some r => r
  | None =>
      match x, y with
      | Fin s1 c1 e1, Fin s2 c2 e2 => fix_ (add_exact s1 c1 e1 s2 c2 e2)
      | Inf s1, Inf s2 =>
          if Bool.eqb s1 s2 then Ok (Inf s1) else Raise InvalidOperation
      | Inf s1, _ => Ok (Inf s1)
      | _, Inf s2 => Ok (Inf s2)
      | _, _ => Ok (NaN false)
      end
  end.

(** The loop of [Decimal.__truediv__] on an exact quotient:
    [while exp < ideal_exp and coeff % 10 == 0: coeff //= 10; exp += 1].
    It runs at most [ideal_exp - exp] times. *)
Fixpoint strip_zeros (fuel : nat) (coeff : N) (exp ideal_exp : Z) : N * Z :=
  match fuel with
  | O => (coeff, exp)
  | S f =>
      if ((exp <? ideal_exp) && (coeff mod 10 =? 0)%N)%bool
      then strip_zeros f (coeff / 10)%N (exp + 1) ideal_exp
      else (coeff, exp)
  end.

(** [Decimal.__truediv__].  DivisionUndefined (0 / 0) is an
    InvalidOperation; both it and DivisionByZero are trapped.  Division by
    an infinity gives a zero at [Etiny] (Clamped is not trapped). *)
Definition div (x y : Decimal) : result Decimal :=
  match check_nans x y with
  | Some r => r
  | None =>
      match x, y with
      | Inf _, Inf _ => Raise InvalidOperation
      | Inf s1, Fin s2 _ _ => Ok (Inf (xorb s1 s2))
      | Fin s1 _ _, Inf s2 => Ok (Fin (xorb s1 s2) 0 Etiny)
      | Fin s1 c1 e1, Fin s2 c2 e2 =>
          let sign := xorb s1 s2 in
          if (c2 =? 0)%N then
            if (c1 =? 0)%N then Raise InvalidOperation else Raise DivisionByZero
          else if (c1 =? 0)%N then fix_ (Fin sign 0 (e1 - e2))
          else
            let shift := ndigits c2 - ndigits c1 + prec + 1 in
            let exp := e1 - e2 - shift in
            let '(coeff, remainder) :=
              if shift >=? 0 then N.div_eucl (c1 * pow10 (Z.to_N shift)) c2
              else N.div_eucl c1 (c2 * pow10 (Z.to_N (- shift))) in
            if (remainder =? 0)%N then
              let ideal_exp := e1 - e2 in
              let '(coeff, exp) :=
                strip_zeros (Z.to_nat (ideal_exp - exp)) coeff exp ideal_exp in
              fix_ (Fin sign coeff exp)
            else
              fix_ (Fin sign (if (coeff mod 5 =? 0)%N then coeff + 1 else coeff)%N exp)
      | _, _ => Ok (NaN false)
      end
  end.

(** [Decimal._rescale(exp, rounding)] on a finite number. *)
Definition rescale (x : Decimal) (exp : Z) (r : rounding) : Decimal :=
  match x with
  | Fin s c e =>
      if (c =? 0)%N then Fin s 0 exp
      else if e >=? exp then Fin s (c * pow10 (Z.to_N (e - exp))) exp
      else
        let digits := ndigits c + e - exp in
        let '(c1, e1) := if digits <? 0 then (1%N, exp - 1) else (c, e) in
        let drop := Z.to_N (exp - e1) in
        let changed := pick_rounding_function r c1 drop in
        let coeff := (c1 / pow10 drop)%N in
        let coeff := if changed =? 1 then (coeff + 1)%N else coeff in
        Fin s coeff exp
  | _ => x
  end.

(** [Decimal.to_integral_value(rounding=...)]. *)
Definition to_integral_value (x : Decimal) (r : rounding) : result Decimal :=
  match x with
  | NaN true => Raise InvalidOperation
  | NaN false => Ok x
  | Inf _ => Ok x
  | Fin _ _ e => if e >=? 0 then Ok x else Ok (rescale x 0 r)
  end.

(** [Decimal.__int__]: truncates. *)
Definition to_int (x : Decimal) : result Z :=
  match x with
  | NaN _ => Raise ValueError
  | Inf _ => Raise OverflowError
  | Fin s c e =>
      Ok (if e >=? 0 then signed s (c * pow10 (Z.to_N e))
          else signed s (c / pow10 (Z.to_N (- e))))
  end.

(** [Decimal(n)] for a Python int [n]: exact. *)
Definition of_int (n : Z) : Decimal := Fin (n <? 0) (Z.abs_N n) 0.

(** The [:.Nf] format: [_rescale(-N, context.rounding)]; the text printed is
    the digits of the result with [N] of them after the point. *)
Definition format_f (places : Z) (x : Decimal) : Decimal :=
  rescale x (- places) ROUND_HALF_EVEN.

(** The number a finite decimal stands for. *)
Definition value (x : Decimal) : Q :=
  match x with
  | Fin s c e => inject_Z (signed s c) * Qpower (10 # 1) e
  | _ => 0
  end.

Definition is_finite (x : Decimal) : bool :=
  match x with
  | Fin _ _ _ => true
  | _ => false
  end.

End PyDecimal.

(** ** Python strings *)

Module PyStr.

Local Open Scope string_scope.

Definition code (c : ascii) : N := N_of_ascii c.

(** [str.isspace] on the characters below 256. *)
Definition is_space (c : ascii) : bool :=
  let n := code c in
  (((9 <=? n) && (n <=? 13)) || ((28 <=? n) && (n <=? 32))
   || (n =? 133) || (n =? 160))%N%bool.

Definition is_digit (c : ascii) : bool :=
  ((48 <=? code c) && (code c <=? 57))%N%bool.

Definition digit_val (c : ascii) : N := (code c - 48)%N.

Definition is_empty (s : string) : bool :=
  match s with
  | EmptyString => true
  | _ => false
  end.

Fixpoint lstrip_by (p : ascii -> bool) (s : string) : string :=
  match s with
  | String c s' => if p c then lstrip_by p s' else s
  | EmptyString => EmptyString
  end.

Fixpoint rstrip_by (p : ascii -> bool) (s : string) : string :=
  match s with
  | String c s' =>
      let r := rstrip_by p s' in
      if (is_empty r && p c)%bool then EmptyString else String c r
  | EmptyString => EmptyString
  end.

(** [s.strip()] and [s.strip('\x00')] *)
Definition strip (s : string) : string := lstrip_by is_space (rstrip_by is_space s).

Definition strip_nul (s : string) : string :=
  lstrip_by (Ascii.eqb zero) (rstrip_by (Ascii.eqb zero) s).

(** [s[i:j]] with Python's reading of negative and out-of-range bounds. *)
Definition clamp_index (len i : Z) : Z :=
  let i := if (i <? 0)%Z then (i + len)%Z else i in
  Z.max 0 (Z.min len i).

Definition py_slice (s : string) (i j : Z) : string :=
  let len := Z.of_nat (String.length s) in
  let i := clamp_index len i in
  let j := clamp_index len j in
  substring (Z.to_nat i) (Z.to_nat (j - i)) s.

(** [sub in s] for strings. *)
Fixpoint contains (sub s : string) : bool :=
  (prefix sub s
   || match s with
      | String _ s' => contains sub s'
      | EmptyString => false
      end)%bool.

(** The longest prefix of decimal digits, and the rest. *)
Fixpoint span_digits (s : string) : string * string :=
  match s with
  | String c s' =>
      if is_digit c then let '(d, r) := span_digits s' in (String c d, r)
      else (EmptyString, s)
  | EmptyString => (EmptyString, EmptyString)
  end.

(** [int(s)] for a string of decimal digits. *)
Definition N_of_digits (s : string) : N :=
  fold_left (fun acc c => (10 * acc + digit_val c)%N) (list_ascii_of_string s) 0%N.

(** Drop a literal prefix. *)
Fixpoint eat (lit s : string) : option string :=
  match lit, s with
  | EmptyString, _ => Some s
  | String a lit', String b s' => if Ascii.eqb a b then eat lit' s' else None
  | String _ _, EmptyString => None
  end.

(** The decimal numeral of an int: the text [str(n)] gives when it does
    not raise (see [py_str] below). *)
Definition digit_char (n : N) : ascii := ascii_of_N (48 + n).

Fixpoint str_of_N_fuel (fuel : nat) (n : N) (acc : string) : string :=
  match fuel with
  | O => acc
  | S f =>
      let acc' := String (digit_char (n mod 10)) acc in
      if (n <? 10)%N then acc' else str_of_N_fuel f (n / 10)%N acc'
  end.

Definition str_of_N (n : N) : string :=
  str_of_N_fuel (S (N.to_nat (N.size n))) n EmptyString.

Definition str_of_Z (z : Z) : string :=
  if (z <? 0)%Z then "-" ++ str_of_N (Z.abs_N z) else str_of_N (Z.abs_N z).

(** [sys.get_int_max_str_digits()]: the default limit on the digits of an
    int converted from or to decimal text. *)
Definition int_max_str_digits : Z := 4300.

Definition exceeds_int_max_str_digits (z : Z) : bool :=
  (10 ^ int_max_str_digits <=? Z.abs z)%Z.
Arguments exceeds_int_max_str_digits : simpl never.

(** [str(z)], also [f'{z}'], for a Python int: ValueError when [z] has
    more digits than the limit. *)
Definition py_str (z : Z) : result string :=
  if exceeds_int_max_str_digits z then Raise ValueError else Ok (str_of_Z z).

(** [int(s)] for a non-empty string of decimal digits: ValueError when [s]
    is longer than the limit (leading zeros count). *)
Definition py_int (s : string) : result Z :=
  if (int_max_str_digits <? Z.of_nat (String.length s))%Z then Raise ValueError
  else Ok (Z.of_N (N_of_digits s)).

(** [s.split('\n')] *)
Definition LF : ascii := ascii_of_N 10.

Fixpoint split_lines (s : string) : list string :=
  match s with
  | EmptyString => [EmptyString]
  | String c s' =>
      if Ascii.eqb c LF then EmptyString :: split_lines s'
      else match split_lines s' with
           | l :: ls => String c l :: ls
           | [] => [String c EmptyString]
           end
  end.

Fixpoint has_LF (s : string) : bool :=
  match s with
  | EmptyString => false
  | String c s' => (Ascii.eqb c LF || has_LF s')%bool
  end.

End PyStr.

(** ** The numeric strings [Decimal(str)] accepts, one-byte characters

    [Decimal(s)] strips white space, drops underscores and matches, case
    insensitively, a sign followed by digits with an optional fraction and
    exponent, or by Inf, Infinity, NaN or sNaN (with optional diagnostic
    digits).  [None] stands for the InvalidOperation it raises otherwise.
    The construction from a string is exact: the context is not used.
    An exponent is read as an unbounded integer: the limit that the C
    implementation of the module puts on the exponent of a literal (it
    refuses one beyond the range of a machine word) is not modelled. *)

Module DecimalParser.
Import PyDecimal PyStr.
Local Open Scope string_scope.

Definition lower (c : ascii) : ascii :=
  if ((65 <=? code c) && (code c <=? 90))%N%bool then ascii_of_N (code c + 32) else c.

Fixpoint normalise (s : string) : string :=
  match s with
  | String c s' =>
      if Ascii.eqb c "_" then normalise s' else String (lower c) (normalise s')
  | EmptyString => EmptyString
  end.

Definition all_digits (s : string) : bool :=
  forallb is_digit (list_ascii_of_string s).

Definition parse_sign (s : string) : bool * string :=
  match s with
  | String "-" r => (true, r)
  | String "+" r => (false, r)
  | _ => (false, s)
  end.

Definition parse_exponent (s : string) : option Z :=
  match s with
  | EmptyString => Some 0%Z
  | String "e" r =>
      let '(neg, ds) := parse_sign r in
      if (negb (is_empty ds) && all_digits ds)%bool
      then Some (if neg then (- Z.of_N (N_of_digits ds))%Z else Z.of_N (N_of_digits ds))
      else None
  | _ => None
  end.

Definition parse_number (sign : bool) (s : string) : option Decimal :=
  let '(intpart, r) := span_digits s in
  let '(fracpart, r) :=
    match r with
    | String "." r' => span_digits r'
    | _ => (EmptyString, r)
    end in
  if (is_empty intpart && is_empty fracpart)%bool then None
  else
    match parse_exponent r with
    | Some e =>
        Some (Fin sign (N_of_digits (intpart ++ fracpart))
                (e - Z.of_nat (String.length fracpart)))
    | None => None
    end.

Definition Decimal_of_str (s : string) : option Decimal :=
  let '(sign, r) := parse_sign (normalise (strip s)) in
  if (String.eqb r "inf" || String.eqb r "infinity")%bool then Some (Inf sign)
  else
    match eat "nan" r, eat "snan" r with
    | Some diag, _ => if all_digits diag then Some (NaN false) else None
    | _, Some diag => if all_digits diag then Some (NaN true) else None
    | None, None => parse_number sign r
    end.

End DecimalParser.

(** ** scripts/prepare_airdrop_csv.py *)

Module PrepareAirdropCsv.
Import PyDecimal PyStr.
Local Open Scope string_scope.

(** *** [prepare_csv] *)

(** The local variables the row loop updates, and the text written to
    [f_out] so far (one element per [write] call, oldest first). *)
Record state : Type := mkState {
  total : Decimal;
  total_original : Decimal;
  count : Z;
  dust_count : Z;
  dust_total : Decimal;
  f_out : list string
}.

(** Statements that update the locals and may raise: the state reached is
    kept when an exception leaves the loop, because what was written to
    the output file before stays written. *)
Definition M (A : Type) : Type := state -> state * result A.

Definition ret {A} (a : A) : M A := fun st => (st, Ok a).

Definition bind {A B} (m : M A) (k : A -> M B) : M B :=
  fun st =>
    match m st with
    | (st', Ok a) => k a st'
    | (st', Raise e) => (st', Raise e)
    end.

Definition get : M state := fun st => (st, Ok st).
Definition modify (f : state -> state) : M unit := fun st => (f st, Ok tt).
Definition lift {A} (r : result A) : M A := fun st => (st, r).

Declare Scope py_scope.
Delimit Scope py_scope with py.
Notation "x <- m ;; k" := (bind m (fun x => k))
  (at level 61, m at next level, right associativity) : py_scope.
Notation "m ;; k" := (bind m (fun _ => k))
  (at level 61, right associativity) : py_scope.

Definition set_total (v : Decimal) (st : state) : state :=
  mkState v (total_original st) (count st) (dust_count st) (dust_total st) (f_out st).
Definition set_total_original (v : Decimal) (st : state) : state :=
  mkState (total st) v (count st) (dust_count st) (dust_total st) (f_out st).
Definition set_count (v : Z) (st : state) : state :=
  mkState (total st) (total_original st) v (dust_count st) (dust_total st) (f_out st).
Definition set_dust_count (v : Z) (st : state) : state :=
  mkState (total st) (total_original st) (count st) v (dust_total st) (f_out st).
Definition set_dust_total (v : Decimal) (st : state) : state :=
  mkState (total st) (total_original st) (count st) (dust_count st) v (f_out st).
Definition write (s : string) (st : state) : state :=
  mkState (total st) (total_original st) (count st) (dust_count st) (dust_total st)
          (f_out st ++ [s]).

Definition newline : string := String LF EmptyString.

(** What the summary prints from the "Decimals" line on.  The totals are
    the accumulators after the [:.10f] and [:.6f] formats.  The "Final
    total" line divides [total] by [Decimal(10 ** decimals)] and can raise:
    [rep_final_total] is the amount it prints, or the exception raised
    there, after the lines before it were printed and before the "Dust
    loss" line, which is then not printed. *)
Record report : Type := mkReport {
  rep_decimals : Z;
  rep_min_amount : Decimal;
  rep_recipients : Z;
  rep_dust_removed : Z;
  rep_dust_tokens : Decimal;
  rep_original_total : Decimal;
  rep_dust_loss : Decimal;
  rep_final_total : result Decimal
}.

(** *** The JSON-RPC answers and what the script prints *)

(** [json.loads] values.  Of a number only its truth value is looked at. *)
Local Unset Elimination Schemes.
Inductive json : Type :=
| JNull
| JBool (b : bool)
| JNumber (nonzero : bool)
| JString (s : string)
| JArray (items : list json)
| JObject (members : list (string * json)).
Local Set Elimination Schemes.

(** What one HTTP POST comes to: [urlopen], [read] or [decode] raised, the
    body is not JSON, or the decoded body. *)
Inductive response : Type :=
| UrlError
| BadJson
| Json (body : json).

Inductive message : Type :=
| MUsage                       (* print(__doc__) *)
| MOptionalHint
| MExampleHint
| MRpcUrlRequired              (* "Error: RPC_URL environment variable is required" *)
| MFetching (token_address : string)
| MToken (symbol : string)
| MDecimals (decimals : Z)
| MBlank
| MFetchError (e : exn)        (* "Error fetching token info: {e}" *)
| MSummaryPaths (input_path output_path : string)
                               (* the "Input" and "Output" lines only *)
| MSummaryHead (input_path output_path : string) (r : report)
                               (* the summary up to the "Original total" line *)
| MSummary (input_path output_path : string) (r : report).
                               (* the whole summary of [prepare_csv] *)

(** Everything the process does that can be seen from outside, in order.
    [ETraceback] is an uncaught exception: the interpreter prints the
    traceback and the exit status is 1. *)
Inductive event : Type :=
| EPrint (m : message)
| ETraceback (e : exn)
| ERequest (rpc_url to data : string)
| EOpenRead (path : string)
| EOpenWrite (path : string)
| EWrite (path : string) (chunks : list string).

Definition is_rpc (e : event) : bool :=
  match e with
  | ERequest _ _ _ => true
  | _ => false
  end.


Definition lookup (k : string) (members : list (string * json)) : option json :=
  match find (fun kv => String.eqb (fst kv) k) members with
  | Some kv => Some (snd kv)
  | None => None
  end.

Definition is_string (k : string) (v : json) : bool :=
  match v with
  | JString s => String.eqb s k
  | _ => false
  end.

(** [k in v] *)
Definition py_in (k : string) (v : json) : result bool :=
  match v with
  | JObject members => Ok (match lookup k members with Some _ => true | None => false end)
  | JArray items => Ok (existsb (is_string k) items)
  | JString s => Ok (contains k s)
  | _ => Raise TypeError
  end.

(** [v[k]] *)
Definition py_getitem (v : json) (k : string) : result json :=
  match v with
  | JObject members =>
      match lookup k members with
      | Some x => Ok x
      | None => Raise KeyError
      end
  | _ => Raise TypeError
  end.

(** [v.get(k)] *)
Definition py_get (v : json) (k : string) : result json :=
  match v with
  | JObject members =>
      match lookup k members with
      | Some x => Ok x
      | None => Ok JNull
      end
  | _ => Raise AttributeError
  end.

Definition truthy (v : json) : bool :=
  match v with
  | JNull => false
  | JBool b => b
  | JNumber nonzero => nonzero
  | JString s => negb (is_empty s)
  | JArray items => match items with [] => false | _ => true end
  | JObject members => match members with [] => false | _ => true end
  end.

Definition UNKNOWN : string := "UNKNOWN".

(** The scaled amount of a row (the two statements under "Scale to integer
    with target decimals"), [factor] being [Decimal(10 ** decimals)]:
    [scaled = amount * factor] and
    [amount_int = int(scaled.to_integral_value(rounding=ROUND_DOWN))]. *)
Definition scale_amount (factor amount : Decimal) : result Z :=
  (scaled <- mul amount factor ;;
   iv <- to_integral_value scaled ROUND_DOWN ;;
   to_int iv)%result.

Section WithLibrary.

(** Library calls the script makes, taken as they are:
    - [Decimal(s)] for a string, [None] when it raises InvalidOperation;
    - [Decimal(10 ** d)] for a negative int [d]: [10 ** d] is then a float
      (or raises OverflowError) and [Decimal] of a float is exact;
    - [int(s, 16)], [None] when it raises ValueError;
    - [bytes.fromhex(s)] and [bytes.decode('utf-8')], [None] when they raise;
    - whether [urllib.request.Request(url, ...)] raises ValueError
      (unknown url type), and what a POST to the endpoint comes to;
    - opening the input for reading (the rows [csv.reader] yields, [None]
      when [open] raises) and the output for writing. *)
Variable Decimal_of_str : string -> option Decimal.
Variable Decimal_of_float_pow10 : Z -> result Decimal.
Variable int16 : string -> option Z.
Variable bytes_fromhex : string -> option string.
Variable decode_utf8 : string -> option string.
Variable Request_raises : string -> bool.
Variable urlopen : string -> string -> string -> response.
Variable open_read : string -> option (list (list string)).
Variable open_write : string -> bool.

Section Loop.

(** [Decimal(10 ** decimals)] and [min_scaled], fixed during the loop. *)
Variable factor : Decimal.
Variable min_scaled : Z.

(** The body of [for row in reader]; [ret tt] is [continue]. *)
Definition loop_body (row : list string) : M unit :=
  (if (List.length row <? 2)%nat then ret tt
   else
     let addr := strip (nth 0 row "") in
     match Decimal_of_str (strip (nth 1 row "")) with
     | None => ret tt
     | Some amount =>
         st <- get ;;
         t <- lift (add (total_original st) amount) ;;
         modify (set_total_original t) ;;
         amount_int <- lift (scale_amount factor amount) ;;
         if amount_int >=? min_scaled then
           text <- lift (py_str amount_int) ;;
           modify (write (addr ++ "," ++ text ++ newline)) ;;
           st <- get ;;
           t <- lift (add (total st) (of_int amount_int)) ;;
           modify (set_total t) ;;
           st <- get ;;
           modify (set_count (count st + 1))
         else
           st <- get ;;
           modify (set_dust_count (dust_count st + 1)) ;;
           st <- get ;;
           t <- lift (add (dust_total st) amount) ;;
           modify (set_dust_total t)
     end)%py.

Fixpoint for_rows (reader : list (list string)) : M unit :=
  match reader with
  | [] => ret tt
  | row :: rest => (loop_body row ;; for_rows rest)%py
  end.

End Loop.

Definition initial : state :=
  mkState (Fin false 0 0) (Fin false 0 0) 0 0 (Fin false 0 0) [].

(** [Decimal(10 ** decimals)] *)
Definition ten_pow (decimals : Z) : result Decimal :=
  if decimals >=? 0 then Ok (of_int (10 ^ decimals))
  else Decimal_of_float_pow10 decimals.

Definition default_min_amount : Decimal := Fin false 1 (-5).   (* Decimal('0.00001') *)

Definition min_amount_or_default (min_amount : option Decimal) : Decimal :=
  match min_amount with
  | None => default_min_amount
  | Some m => m
  end.

(** [min_scaled = int(min_amount * Decimal(10 ** decimals))], together with
    the factor, which every row is multiplied by again. *)
Definition scaling (decimals : Z) (min_amount : Decimal) : result (Decimal * Z) :=
  (factor <- ten_pow decimals ;;
   m <- mul min_amount factor ;;
   min_scaled <- to_int m ;;
   Ok (factor, min_scaled))%result.

(** The "Final total" line:
    [{total / Decimal(10 ** decimals):.6f}]. *)
Definition final_total (decimals : Z) (total : Decimal) : result Decimal :=
  (factor <- ten_pow decimals ;;
   q <- div total factor ;;
   Ok (format_f 6 q))%result.

(** The prints after the loop, [st] being the variables the loop left.
    The "Input" and "Output" lines print two strings; the "Decimals" line
    raises when [decimals] has too many digits to be printed, and nothing
    of the report is printed then.  The two counts are at most the number
    of rows gone through and the formats of the amounts take any
    [Decimal]: these lines are printed as they are. *)
Definition summary (decimals : Z) (min_amount : Decimal) (st : state) : result report :=
  (_ <- py_str decimals ;;
   Ok (mkReport decimals min_amount (count st) (dust_count st)
         (format_f 10 (dust_total st))
         (format_f 6 (total_original st))
         (format_f 10 (dust_total st))
         (final_total decimals (total st))))%result.

(** [prepare_csv(input_path, decimals, output_path, min_amount)], with
    [reader] the rows [csv.reader] yields for the input file.  The result
    is the text written to the output file, if the call got as far as the
    loop, and either the report printed after the loop or the exception
    that ended the call before any of the report was printed.  The call
    returns when the report has a final total; it raises the exception
    that stands there otherwise. *)
Definition prepare_csv (reader : list (list string)) (decimals : Z)
    (min_amount : option Decimal) : option (list string) * result report :=
  let min_amount := min_amount_or_default min_amount in
  match scaling decimals min_amount with
  | Raise e => (None, Raise e)
  | Ok (factor, min_scaled) =>
      match for_rows factor min_scaled reader initial with
      | (st, Raise e) => (Some (f_out st), Raise e)
      | (st, Ok _) => (Some (f_out st), summary decimals min_amount st)
      end
  end.

(** The same call with its files and prints, as the last statement of
    the script: the two [open]s of the [with] statement come after
    [min_scaled] is computed, the output file is closed with what was
    written to it when the loop ends or raises, and the summary is printed
    after that, as far as it gets. *)
Definition prepare_csv_files (input_path : string) (decimals : Z)
    (output_path : option string) (min_amount : option Decimal) : list event * Z :=
  let output_path :=
    match output_path with
    | None => "airdrop_prepared.csv"
    | Some p => p
    end in
  let min_amount := min_amount_or_default min_amount in
  match scaling decimals min_amount with
  | Raise e => ([ETraceback e], 1)
  | Ok (factor, min_scaled) =>
      match open_read input_path with
      | None => ([EOpenRead input_path; ETraceback OSError], 1)
      | Some reader =>
          if open_write output_path then
            match for_rows factor min_scaled reader initial with
            | (st, Raise e) =>
                ([EOpenRead input_path; EOpenWrite output_path;
                  EWrite output_path (f_out st); ETraceback e], 1)
            | (st, Ok _) =>
                match summary decimals min_amount st with
                | Raise e =>
                    ([EOpenRead input_path; EOpenWrite output_path;
                      EWrite output_path (f_out st);
                      EPrint (MSummaryPaths input_path output_path); ETraceback e], 1)
                | Ok r =>
                    match rep_final_total r with
                    | Raise e =>
                        ([EOpenRead input_path; EOpenWrite output_path;
                          EWrite output_path (f_out st);
                          EPrint (MSummaryHead input_path output_path r);
                          ETraceback e], 1)
                    | Ok _ =>
                        ([EOpenRead input_path; EOpenWrite output_path;
                          EWrite output_path (f_out st);
                          EPrint (MSummary input_path output_path r)], 0)
                    end
                end
            end
          else ([EOpenRead input_path; EOpenWrite output_path; ETraceback OSError], 1)
      end
  end.

(** *** [get_token_decimals] and [get_token_symbol] *)

Definition decimals_selector : string := "0x313ce567".
Definition symbol_selector : string := "0x95d89b41".

Definition py_int16 (v : json) : result Z :=
  match v with
  | JString s =>
      match int16 s with
      | Some z => Ok z
      | None => Raise ValueError
      end
  | _ => Raise TypeError
  end.

(** The body of the [with urlopen(...)] block of [get_token_decimals]. *)
Definition decimals_of_response (resp : response) : result Z :=
  match resp with
  | UrlError => Raise URLError
  | BadJson => Raise JSONDecodeError
  | Json result =>
      (has_error <- py_in "error" result ;;
       if has_error : bool then (_ <- py_getitem result "error" ;; Raise RpcError)
       else (r <- py_getitem result "result" ;; py_int16 r))%result
  end.

Definition get_token_decimals (rpc_url token_address : string)
  : list event * result Z :=
  if Request_raises rpc_url then ([], Raise ValueError)
  else ([ERequest rpc_url token_address decimals_selector],
        decimals_of_response (urlopen rpc_url token_address decimals_selector)).

Definition of_option {A} (e : exn) (o : option A) : result A :=
  match o with
  | Some a => Ok a
  | None => Raise e
  end.

(** The [try] block of [get_token_symbol]. *)
Definition symbol_try (resp : response) : result string :=
  match resp with
  | UrlError => Raise URLError
  | BadJson => Raise JSONDecodeError
  | Json result =>
      (has_error <- py_in "error" result ;;
       if has_error : bool then Ok UNKNOWN
       else
         r <- py_get result "result" ;;
         if negb (truthy r) then Ok UNKNOWN
         else
           r <- py_getitem result "result" ;;
           match r with
           | JString s =>
               let hex_data := py_slice s 2 (Z.of_nat (String.length s)) in
               if (String.length hex_data <? 128)%nat then Ok UNKNOWN
               else
                 length <- of_option ValueError (int16 (py_slice hex_data 64 128)) ;;
                 let symbol_hex := py_slice hex_data 128 (128 + length * 2) in
                 raw <- of_option ValueError (bytes_fromhex symbol_hex) ;;
                 text <- of_option UnicodeDecodeError (decode_utf8 raw) ;;
                 Ok (strip_nul text)
           | JArray items =>
               if (List.length (skipn 2 items) <? 128)%nat then Ok UNKNOWN
               else Raise TypeError
           | _ => Raise TypeError
           end)%result
  end.

(** [try: ... except: return "UNKNOWN"] *)
Definition symbol_of_response (resp : response) : string :=
  match symbol_try resp with
  | Ok s => s
  | Raise _ => UNKNOWN
  end.

Definition get_token_symbol (rpc_url token_address : string)
  : list event * result string :=
  if Request_raises rpc_url then ([], Raise ValueError)
  else ([ERequest rpc_url token_address symbol_selector],
        Ok (symbol_of_response (urlopen rpc_url token_address symbol_selector))).

(** *** The script body ([if __name__ == '__main__':]) *)

(** The [while i < len(sys.argv)] loop over the arguments from index 3. *)
Fixpoint parse_options (args : list string) (output_csv : option string)
    (min_amount : option Decimal) : result (option string * option Decimal) :=
  match args with
  | [] => Ok (output_csv, min_amount)
  | a :: rest =>
      match rest with
      | v :: rest' =>
          if String.eqb a "--min-amount" then
            match Decimal_of_str v with
            | Some m => parse_options rest' output_csv (Some m)
            | None => Raise InvalidOperation
            end
          else parse_options rest (Some a) min_amount
      | [] => parse_options rest (Some a) min_amount
      end
  end.

Definition falsy (s : option string) : bool :=
  match s with
  | None => true
  | Some u => is_empty u
  end.

(** The whole run: what it does, and the exit status of the process. *)
Definition main (argv : list string) (RPC_URL : option string) : list event * Z :=
  if (List.length argv <? 3)%nat then
    ([EPrint MUsage; EPrint MOptionalHint; EPrint MExampleHint], 1)
  else
    let input_csv := nth 1 argv "" in
    let token_address := nth 2 argv "" in
    match parse_options (skipn 3 argv) None None with
    | Raise e => ([ETraceback e], 1)
    | Ok (output_csv, min_amount) =>
        if falsy RPC_URL then ([EPrint MRpcUrlRequired], 1)
        else
          let rpc_url := match RPC_URL with Some u => u | None => "" end in
          let fetching := EPrint (MFetching token_address) in
          let '(ev1, rd) := get_token_decimals rpc_url token_address in
          match rd with
          | Raise e => (fetching :: ev1 ++ [EPrint (MFetchError e)], 1)
          | Ok decimals =>
              let '(ev2, rs) := get_token_symbol rpc_url token_address in
              match rs with
              | Raise e => (fetching :: ev1 ++ ev2 ++ [EPrint (MFetchError e)], 1)
              | Ok symbol =>
                  (* print(f"Decimals: {decimals}") is inside the [try] *)
                  match py_str decimals with
                  | Raise e =>
                      (fetching :: ev1 ++ ev2
                         ++ [EPrint (MToken symbol); EPrint (MFetchError e)], 1)
                  | Ok _ =>
                      let '(ev3, status) :=
                        prepare_csv_files input_csv decimals output_csv min_amount in
                      (fetching :: ev1 ++ ev2
                         ++ [EPrint (MToken symbol); EPrint (MDecimals decimals);
                             EPrint MBlank]
                         ++ ev3, status)
                  end
              end
          end
    end.

End WithLibrary.

End PrepareAirdropCsv.

(** ** scripts/calculate_src_coverage.py *)

Module CalculateSrcCoverage.
Import PyStr.
Local Open Scope string_scope.
Local Open Scope Z_scope.

(** [re.search(r'(\d+\.\d+)% \((\d+)/(\d+)\)', line)]: the groups of the
    leftmost match.  Every [\d+] of the pattern is followed by a character
    that is not a digit, so a match takes each run of digits whole and
    backtracking finds nothing else. *)
Definition match_here (s : string) : option (string * string * string) :=
  let '(whole, r) := span_digits s in
  if is_empty whole then None
  else
    match eat "." r with
    | None => None
    | Some r =>
        let '(frac, r) := span_digits r in
        if is_empty frac then None
        else
          match eat "% (" r with
          | None => None
          | Some r =>
              let '(c, r) := span_digits r in
              if is_empty c then None
              else
                match eat "/" r with
                | None => None
                | Some r =>
                    let '(t, r) := span_digits r in
                    if is_empty t then None
                    else
                      match eat ")" r with
                      | None => None
                      | Some _ => Some (whole ++ "." ++ frac, c, t)
                      end
                end
          end
    end.

Fixpoint re_search (line : string) : option (string * string * string) :=
  match match_here line with
  | Some groups => Some groups
  | None =>
      match line with
      | String _ rest => re_search rest
      | EmptyString => None
      end
  end.

(** [re.search(r'src/[^|]+', f)]: group 0 of the leftmost match. *)
Fixpoint take_until_bar (s : string) : string :=
  match s with
  | String c s' => if Ascii.eqb c "|" then EmptyString else String c (take_until_bar s')
  | EmptyString => EmptyString
  end.

Fixpoint filename_search (f : string) : option string :=
  match
    match eat "src/" f with
    | Some r => if is_empty (take_until_bar r) then None else Some ("src/" ++ take_until_bar r)
    | None => None
    end
  with
  | Some name => Some name
  | None =>
      match f with
      | String _ rest => filename_search rest
      | EmptyString => None
      end
  end.

(** The number a group of the match stands for: what [int(s)] returns
    when it does not raise. *)
Definition int_of_group (s : string) : Z := Z.of_N (N_of_digits s).

(** The variables of the line loop: [covered], [total], [files]. *)
Record acc : Type := mkAcc {
  covered : Z;
  total : Z;
  files : list (string * Z * Z * Z)
}.

(** The body of [for line in result.stdout.split('\n')]: the two [int]
    conversions raise ValueError on a group longer than the limit, before
    any variable is updated. *)
Definition loop_body (a : acc) (line : string) : result acc :=
  if contains "| src/" line then
    match re_search line with
    | Some (_, g2, g3) =>
        (c <- py_int g2 ;;
         t <- py_int g3 ;;
         let missing := t - c in
         Ok (mkAcc (covered a + c) (total a + t)
               (if missing >? 0 then files a ++ [(strip line, c, t, missing)]
                else files a)))%result
    | None => Ok a
    end
  else Ok a.

Fixpoint for_lines (lines : list string) (a : acc) : result acc :=
  match lines with
  | [] => Ok a
  | line :: rest => (a' <- loop_body a line ;; for_lines rest a')%result
  end.

(** The variables after a line that raises nothing, and after all the
    lines of an output none of which raises: the loop when it runs to its
    end (see [for_lines_scan]). *)
Definition scan_line (a : acc) (line : string) : acc :=
  if contains "| src/" line then
    match re_search line with
    | Some (_, g2, g3) =>
        let c := int_of_group g2 in
        let t := int_of_group g3 in
        let missing := t - c in
        mkAcc (covered a + c) (total a + t)
              (if missing >? 0 then files a ++ [(strip line, c, t, missing)] else files a)
    | None => a
    end
  else a.

Definition scan (stdout : string) : acc :=
  fold_left scan_line (split_lines stdout) (mkAcc 0 0 []).

(** What is printed.  The percentages are floats rendered with [:.2f] from
    the two integers shown; their digits are not modelled. *)
Inductive printed : Type :=
| PHeader                              (* "Files with missing coverage:" *)
| PMissing (m c t : Z)                 (* "  Missing {m} lines: {c}/{t} = ..%" *)
| PFile (name : string)
| PTotal (covered total : Z)           (* "Total src/ coverage: ..% ({covered}/{total} lines)" *)
| PMissingTotal (missing : Z)          (* "Missing: {missing} lines to reach 100%" *)
| PAchieved                            (* "100% coverage achieved!" *)
| PTraceback (e : exn).

(** One entry of [files] printed.  Its [c] and [t] were read by [int] and
    [0 <= c < t], so the texts of [m], [c] and [t] are within the limit and
    [c/t] is a float below 1: these lines do not raise
    ([ListingFacts.listed_entries_printable]). *)
Definition print_file (f : string * Z * Z * Z) : list printed :=
  let '(name, c, t, m) := f in
  PMissing m c t ::
  match filename_search name with
  | Some n => [PFile n]
  | None => []
  end.

(** [a / b] on ints raises OverflowError when the quotient, rounded to the
    nearest float, is not finite: from 2^1024 - 2^970 on. *)
Definition truediv_overflows (a b : Z) : bool :=
  ((2 ^ 1024 - 2 ^ 970) * b <=? a)%Z.

(** The script: [tool] is what [subprocess.run] comes to, the captured
    standard output or the exception raised when the tool cannot be run.
    The result is what is printed and the exit status; running off the end
    of the script is exit status 0, an uncaught exception is 1.  The two
    prints after [if total > 0:] turn [covered], [total] and [missing]
    into text and raise when one of them has too many digits. *)
Definition main (tool : result string) : list printed * Z :=
  match tool with
  | Raise e => ([PTraceback e], 1)
  | Ok stdout =>
      match for_lines (split_lines stdout) (mkAcc 0 0 []) with
      | Raise e => ([PTraceback e], 1)
      | Ok a =>
          let out := PHeader :: flat_map print_file (files a) in
          if total a >? 0 then
            if truediv_overflows (covered a) (total a) then
              ((out ++ [PTraceback OverflowError])%list, 1)
            else
              let missing := total a - covered a in
              match (_ <- py_str (covered a) ;; py_str (total a))%result with
              | Raise e => ((out ++ [PTraceback e])%list, 1)
              | Ok _ =>
                  let out := (out ++ [PTotal (covered a) (total a)])%list in
                  match py_str missing with
                  | Raise e => ((out ++ [PTraceback e])%list, 1)
                  | Ok _ =>
                      let out := (out ++ [PMissingTotal missing])%list in
                      if missing =? 0 then ((out ++ [PAchieved])%list, 0)
                      else (out, 1)
                  end
              end
          else (out, 0)
      end
  end.

End CalculateSrcCoverage.

(** ** What the properties are stated with *)

Module Spec.
Import PyDecimal PyStr PrepareAirdropCsv.
Local Open Scope string_scope.
Local Open Scope Z_scope.

(** *** Rows *)

Section Rows.

Variable Decimal_of_str : string -> option Decimal.
Variable factor : Decimal.
Variable min_scaled : Z.

(** A syntactically valid row: at least two columns and an amount field
    that [Decimal] accepts.  Its address and original amount. *)
Definition parse_row (row : list string) : option (string * Decimal) :=
  if (List.length row <? 2)%nat then None
  else
    match Decimal_of_str (strip (nth 1 row "")) with
    | Some amount => Some (strip (nth 0 row ""), amount)
    | None => None
    end.

Definition valid_rows (reader : list (list string)) : list (string * Decimal) :=
  flat_map (fun row => match parse_row row with Some e => [e] | None => [] end) reader.

Definition scaled_or_zero (amount : Decimal) : Z :=
  match scale_amount factor amount with
  | Ok z => z
  | Raise _ => 0
  end.

Definition is_kept (e : string * Decimal) : bool :=
  match scale_amount factor (snd e) with
  | Ok z => min_scaled <=? z
  | Raise _ => false
  end.

Definition is_dust (e : string * Decimal) : bool :=
  match scale_amount factor (snd e) with
  | Ok z => z <? min_scaled
  | Raise _ => false
  end.

(** The output line of a row: [address,scaledAmount] and a newline. *)
Definition record_of (e : string * Decimal) : string :=
  fst e ++ "," ++ str_of_Z (scaled_or_zero (snd e)).

Definition line_of (e : string * Decimal) : string :=
  fst e ++ "," ++ str_of_Z (scaled_or_zero (snd e)) ++ newline.

(** A row whose record can be written: it passes the threshold and its
    scaled amount has few enough digits to be turned into text. *)
Definition is_written (e : string * Decimal) : bool :=
  match scale_amount factor (snd e) with
  | Ok z => ((min_scaled <=? z) && negb (exceeds_int_max_str_digits z))%bool
  | Raise _ => false
  end.

(** Of a row on which the loop body raises, reached with the variables
    [st]: the row itself when its record was written before the exception
    (which is then the one of [total += Decimal(amount_int)]), and no row
    when the exception came before the [write]. *)
Definition written_before_raise (st : state) (e : string * Decimal)
  : list (string * Decimal) :=
  match add (total_original st) (snd e) with
  | Ok _ => if is_written e then [e] else []
  | Raise _ => []
  end.

(** One valid row, statement by statement: what [loop_body] does with the
    address and amount of a row that is not skipped. *)
Definition step (addr : string) (a : Decimal) (st : state) : state * result unit :=
  match add (total_original st) a with
  | Raise e => (st, Raise e)
  | Ok t =>
      let st1 := set_total_original t st in
      match scale_amount factor a with
      | Raise e => (st1, Raise e)
      | Ok z =>
          if min_scaled <=? z then
            if exceeds_int_max_str_digits z then (st1, Raise ValueError)
            else
              let st2 := write (line_of (addr, a)) st1 in
              match add (total st) (of_int z) with
              | Raise e => (st2, Raise e)
              | Ok t' => (set_count (count st + 1) (set_total t' st2), Ok tt)
              end
          else
            let st2 := set_dust_count (dust_count st + 1) st1 in
            match add (dust_total st) a with
            | Raise e => (st2, Raise e)
            | Ok t' => (set_dust_total t' st2, Ok tt)
            end
      end
  end.

(** The rows kept and the rows counted as dust, and their original
    amounts. *)
Definition kept_rows (reader : list (list string)) : list (string * Decimal) :=
  filter is_kept (valid_rows reader).

Definition dust_rows (reader : list (list string)) : list (string * Decimal) :=
  filter is_dust (valid_rows reader).

Definition amounts (rows : list (string * Decimal)) : list Decimal := map snd rows.

Definition no_line_break (e : string * Decimal) : bool := negb (has_LF (fst e)).

(** The scaled amounts of rows, as they are added to [total]. *)
Definition scaled_amounts (rows : list (string * Decimal)) : list Decimal :=
  map (fun e => of_int (scaled_or_zero (snd e))) rows.

End Rows.

(** *** Sums of decimals *)

(** [acc += a] for each [a] of the list in turn, with [Decimal] addition. *)
Fixpoint sum_dec (acc : Decimal) (l : list Decimal) : result Decimal :=
  match l with
  | [] => Ok acc
  | a :: l' => (t <- add acc a ;; sum_dec t l')%result
  end.

(** The same sum without rounding. *)
Definition add_exact_dec (x y : Decimal) : Decimal :=
  match x, y with
  | Fin s1 c1 e1, Fin s2 c2 e2 => add_exact s1 c1 e1 s2 c2 e2
  | _, _ => NaN false
  end.

Definition zero : Decimal := Fin false 0 0.

Definition exact_sum (l : list Decimal) : Decimal :=
  fold_left add_exact_dec l zero.

(** The rational sum of the values. *)
Definition Qsum (l : list Decimal) : Q :=
  fold_right (fun a q => (value a + q)%Q) 0%Q l.

(** Amounts whose sums need no rounding: every amount is a finite multiple
    of 10^-k and the absolute amounts, in units of 10^-k, add up to less
    than 10^28; and 10^-k is not below the smallest exponent of the
    context. *)
Definition within (k : Z) (x : Decimal) : bool :=
  match x with
  | Fin _ _ e => - k <=? e
  | _ => false
  end.

Definition magnitude (k : Z) (x : Decimal) : Z :=
  match x with
  | Fin _ c e => Z.of_N c * 10 ^ (e + k)
  | _ => 0
  end.

Definition units (k : Z) (x : Decimal) : Z :=
  match x with
  | Fin s c e => signed s c * 10 ^ (e + k)
  | _ => 0
  end.

Definition exponent (x : Decimal) : Z :=
  match x with
  | Fin _ _ e => e
  | _ => 0
  end.

Definition fits (k : Z) (l : list Decimal) : bool :=
  ((0 <=? k) && (k <=? - Etiny) && forallb (within k) l
   && (fold_right (fun a z => magnitude k a + z) 0 l <? 10 ^ 28))%bool.


(** The integer part of the magnitude of a finite decimal, with its sign. *)
Definition int_part (s : bool) (c : N) (e : Z) : Z :=
  signed s (if e >=? 0 then c * pow10 (Z.to_N e) else c / pow10 (Z.to_N (- e)))%N.

(** Rounding toward zero of a rational. *)
Definition Qtrunc (q : Q) : Z := if Qle_bool 0 q then Qfloor q else Qceiling q.

(** *** Lines of a text *)

(** The LF-terminated lines of a text: [None] when the text does not end
    with a line terminator. *)
Fixpoint lines_of (s : string) : option (list string) :=
  match s with
  | EmptyString => Some []
  | String c s' =>
      if Ascii.eqb c LF then
        match lines_of s' with
        | Some ls => Some (EmptyString :: ls)
        | None => None
        end
      else
        match lines_of s' with
        | Some (l :: ls) => Some (String c l :: ls)
        | _ => None
        end
  end.

Definition file_text (chunks : list string) : string :=
  fold_right String.append EmptyString chunks.

(** *** Fetch failures *)

(** The ways the answer to the [symbol()] call can be unusable: the
    request failed, the body is not JSON or not an object, the object
    reports an RPC error, it has no result or an empty one, the result is
    not a string, its payload is shorter than the two 32-byte words, or the
    length word or the characters that follow do not decode. *)
Section Failures.

Variable int16 : string -> option Z.
Variable bytes_fromhex : string -> option string.
Variable decode_utf8 : string -> option string.

Definition payload (s : string) : string := py_slice s 2 (Z.of_nat (String.length s)).

Definition symbol_hex (hex_data : string) (length : Z) : string :=
  py_slice hex_data 128 (128 + length * 2).

Inductive symbol_failure : response -> Prop :=
| sf_network : symbol_failure UrlError
| sf_not_json : symbol_failure BadJson
| sf_not_object : forall v,
    (forall members, v <> JObject members) -> symbol_failure (Json v)
| sf_rpc_error : forall members err,
    lookup "error" members = Some err -> symbol_failure (Json (JObject members))
| sf_no_result : forall members,
    lookup "result" members = None -> symbol_failure (Json (JObject members))
| sf_empty_result : forall members r,
    lookup "result" members = Some r -> truthy r = false ->
    symbol_failure (Json (JObject members))
| sf_not_string : forall members r,
    lookup "result" members = Some r -> (forall s, r <> JString s) ->
    symbol_failure (Json (JObject members))
| sf_short : forall members s,
    lookup "result" members = Some (JString s) ->
    (String.length (payload s) < 128)%nat ->
    symbol_failure (Json (JObject members))
| sf_length_word : forall members s,
    lookup "result" members = Some (JString s) ->
    int16 (py_slice (payload s) 64 128) = None ->
    symbol_failure (Json (JObject members))
| sf_not_hex : forall members s length,
    lookup "result" members = Some (JString s) ->
    int16 (py_slice (payload s) 64 128) = Some length ->
    bytes_fromhex (symbol_hex (payload s) length) = None ->
    symbol_failure (Json (JObject members))
| sf_not_utf8 : forall members s length raw,
    lookup "result" members = Some (JString s) ->
    int16 (py_slice (payload s) 64 128) = Some length ->
    bytes_fromhex (symbol_hex (payload s) length) = Some raw ->
    decode_utf8 raw = None ->
    symbol_failure (Json (JObject members)).

(** An answer the [symbol()] call decodes: an object with no error member
    and a string result of at least two 32-byte words, whose second word
    is a length and whose characters from the third word on, as many as
    the length asks for and the payload has, are the hexadecimal digits of
    a UTF-8 text.  The offset word is not looked at, and a payload shorter
    than the length asks for is decoded as far as it goes. *)
Definition symbol_decoded (resp : response) (text : string) : Prop :=
  exists members s length raw,
    resp = Json (JObject members) /\
    lookup "error" members = None /\
    lookup "result" members = Some (JString s) /\
    (128 <= String.length (payload s))%nat /\
    int16 (py_slice (payload s) 64 128) = Some length /\
    bytes_fromhex (symbol_hex (payload s) length) = Some raw /\
    decode_utf8 raw = Some text.

(** The ways the answer to the [decimals()] call can be unusable. *)
Inductive decimals_failure : response -> Prop :=
| df_network : decimals_failure UrlError
| df_not_json : decimals_failure BadJson
| df_not_object : forall v,
    (forall members, v <> JObject members) -> decimals_failure (Json v)
| df_rpc_error : forall members err,
    lookup "error" members = Some err -> decimals_failure (Json (JObject members))
| df_no_result : forall members,
    lookup "result" members = None -> decimals_failure (Json (JObject members))
| df_not_string : forall members r,
    lookup "result" members = Some r -> (forall s, r <> JString s) ->
    decimals_failure (Json (JObject members))
| df_not_hex : forall members s,
    lookup "result" members = Some (JString s) -> int16 s = None ->
    decimals_failure (Json (JObject members)).

End Failures.

(** *** Coverage lines *)

(** The [(covered, total)] pair of a line of the tool output: the line
    names a file under [src/] and has the percentage pattern. *)
Definition coverage_of (line : string) : option (Z * Z) :=
  if contains "| src/" line then
    match CalculateSrcCoverage.re_search line with
    | Some (_, c, t) =>
        Some (CalculateSrcCoverage.int_of_group c, CalculateSrcCoverage.int_of_group t)
    | None => None
    end
  else None.

Definition matched_lines (lines : list string) : list (string * (Z * Z)) :=
  flat_map (fun line => match coverage_of line with
                        | Some ct => [(line, ct)]
                        | None => []
                        end) lines.

Definition matched (stdout : string) : list (string * (Z * Z)) :=
  matched_lines (split_lines stdout).

Definition sumZ (l : list Z) : Z := fold_right Z.add 0 l.

(** A group of digits too long for [int], and a line on which the loop
    raises: it names a file under [src/], has the pattern, and one of its
    two counts is too long. *)
Definition too_long (g : string) : bool :=
  int_max_str_digits <? Z.of_nat (String.length g).

Definition line_raises (line : string) : bool :=
  if contains "| src/" line then
    match CalculateSrcCoverage.re_search line with
    | Some (_, c, t) => (too_long c || too_long t)%bool
    | None => false
    end
  else false.

Definition missing_entry (m : string * (Z * Z)) : list (string * Z * Z * Z) :=
  let '(line, (c, t)) := m in
  if c <? t then [(strip line, c, t, t - c)] else [].

End Spec.

(** ** Library functions and inputs for the runs shown as examples *)

Module Examples.
Import PyDecimal PyStr PrepareAirdropCsv.
Local Open Scope string_scope.

(** [Decimal(10 ** d)] for a negative [d]; the examples have [d >= 0] and
    do not reach it. *)
Definition float_pow10 (d : Z) : result Decimal := Raise OverflowError.

Definition hex_val (c : ascii) : option N :=
  let n := code c in
  if ((48 <=? n) && (n <=? 57))%N%bool then Some (n - 48)%N
  else if ((97 <=? n) && (n <=? 102))%N%bool then Some (n - 87)%N
  else if ((65 <=? n) && (n <=? 70))%N%bool then Some (n - 55)%N
  else None.

Fixpoint hex_digits (s : string) (acc : N) : option N :=
  match s with
  | EmptyString => Some acc
  | String c s' =>
      match hex_val c with
      | Some v => hex_digits s' (16 * acc + v)%N
      | None => None
      end
  end.

(** [int(s, 16)] on an optional [0x] and hexadecimal digits. *)
Definition int16 (s : string) : option Z :=
  let digits := match eat "0x" s with Some r => r | None => s end in
  if is_empty digits then None
  else match hex_digits digits 0 with
       | Some n => Some (Z.of_N n)
       | None => None
       end.

(** [bytes.fromhex(s)] on pairs of hexadecimal digits. *)
Fixpoint bytes_fromhex (s : string) : option string :=
  match s with
  | EmptyString => Some EmptyString
  | String a (String b s') =>
      match hex_val a, hex_val b, bytes_fromhex s' with
      | Some x, Some y, Some r => Some (String (ascii_of_N (16 * x + y)) r)
      | _, _, _ => None
      end
  | String _ EmptyString => None
  end.

(** [decode('utf-8')] on bytes below 128. *)
Definition decode_utf8 (raw : string) : option string :=
  if forallb (fun c => (code c <? 128)%N) (list_ascii_of_string raw) then Some raw else None.

Definition Request_raises (url : string) : bool :=
  negb (prefix "http://" url || prefix "https://" url).

Definition word (tail : string) : string :=
  substring 0 (64 - String.length tail) 
    "0000000000000000000000000000000000000000000000000000000000000000" ++ tail.

Definition rpc_result (result : string) : response :=
  Json (JObject [("jsonrpc", JString "2.0"); ("id", JNumber true);
                 ("result", JString result)]).

(** A node that answers both calls: 18 decimals, symbol EIGEN. *)
Definition node (rpc_url to data : string) : response :=
  if String.eqb data decimals_selector then rpc_result ("0x" ++ word "12")
  else rpc_result ("0x" ++ word "20" ++ word "05" ++ "454947454e"
                   ++ "000000000000000000000000000000000000000000000000000000").

(** A node whose [symbol()] call fails, and a node that cannot be reached. *)
Definition node_without_symbol (rpc_url to data : string) : response :=
  if String.eqb data decimals_selector then rpc_result ("0x" ++ word "12")
  else UrlError.

Definition node_down (rpc_url to data : string) : response := UrlError.

(** Answers to [symbol()] cut short: the length word asks for 5 bytes and
    2 bytes, or none, follow. *)
Definition truncated_symbol : response :=
  rpc_result ("0x" ++ word "20" ++ word "05" ++ "4549").

Definition missing_symbol : response :=
  rpc_result ("0x" ++ word "20" ++ word "05").

(** A count of 4301 digits, one more than [int] converts, and a line of
    the coverage table that reports it as the total of a file. *)
Fixpoint nines (n : nat) : string :=
  match n with
  | O => EmptyString
  | S n' => String "9" (nines n')
  end.

Definition long_count : string := nines 4301.

Definition long_line : string := "| src/A.sol | 0.00% (8/" ++ long_count ++ ") |".

Definition input_rows : list (list string) :=
  [["0xA"; "1.999995"]; ["malformed"]; ["0xB"; "not a number"];
   [" 0xC "; " 0.000001 "]; ["0xD"; "0.000002"]; ["0xE"; "2.5"; "note"]].

Definition open_read (path : string) : option (list (list string)) :=
  if String.eqb path "in.csv" then Some input_rows else None.

Definition open_write (path : string) : bool := true.

Definition argv : list string := ["prepare_airdrop_csv.py"; "in.csv"; "0x639E"].

End Examples.

(** ** What the further properties are stated with *)

Module More.
Import PyDecimal PyStr PrepareAirdropCsv.
Local Open Scope string_scope.
Local Open Scope Z_scope.

(** A finite amount above zero. *)
Definition is_positive (x : Decimal) : bool :=
  match x with
  | Fin false c _ => negb (c =? 0)%N
  | _ => false
  end.

(** The requests among the events of a run. *)
Definition requests (events : list event) : list event := filter is_rpc events.

Definition is_open_write (e : event) : bool :=
  match e with
  | EOpenWrite _ => true
  | _ => false
  end.

Definition is_summary (e : event) : bool :=
  match e with
  | EPrint (MSummary _ _ _) => true
  | _ => false
  end.

(** A non-empty string of decimal digits: what [\d+] matches. *)
Definition is_number (s : string) : bool :=
  (negb (is_empty s) && forallb is_digit (list_ascii_of_string s))%bool.

Definition has_bar (s : string) : bool :=
  existsb (Ascii.eqb "|") (list_ascii_of_string s).

(** The text the percentage pattern matches, from its groups. *)
(** A text that goes on with a decimal digit. *)
Definition starts_with_digit (s : string) : bool :=
  match s with
  | String c _ => is_digit c
  | EmptyString => false
  end.

Definition has_percent (s : string) : bool :=
  existsb (Ascii.eqb "%") (list_ascii_of_string s).

(** A coverage cell of the tool's table, as the pattern reads it. *)
Definition rendered (whole frac c t : string) : string :=
  whole ++ "." ++ frac ++ "% (" ++ c ++ "/" ++ t ++ ")".

(** The lines a file entry says are missing. *)
Definition missing_of (f : string * Z * Z * Z) : Z := snd f.

(** [r] is [x] at [places] decimal places: the sign is kept, and the
    coefficient is exact when [x] has no more places, else the nearest
    integer to the coefficient of [x] counted in units of 10^-places, the
    even one of two that are equally near. *)
Definition rounded_to (places : Z) (x r : Decimal) : Prop :=
  match x, r with
  | Fin s c e, Fin s' c' e' =>
      s' = s /\ e' = - places /\
      if - places <=? e then Z.of_N c' = Z.of_N c * 10 ^ (e + places)
      else
        let unit := 10 ^ (- places - e) in
        2 * Z.abs (Z.of_N c - Z.of_N c' * unit) <= unit /\
        (2 * Z.abs (Z.of_N c - Z.of_N c' * unit) = unit -> Z.even (Z.of_N c') = true)
  | _, _ => False
  end.

End More.

(** * Properties *)

(** ** Facts about the decimal arithmetic *)

Module DecimalFacts.
Import PyDecimal.

Lemma ndigits_fuel_pos fuel n : 1 <= ndigits_fuel fuel n.
Proof.
  revert n. induction fuel as [| f IH]; intros n; cbn [ndigits_fuel]; [lia |].
  destruct (n <? 10)%N; [lia |]. specialize (IH (n / 10)%N). lia.
Qed.

Lemma ndigits_fuel_spec fuel : forall n,
  Z.of_N n < 2 ^ Z.of_nat fuel -> 0 < Z.of_N n ->
  10 ^ (ndigits_fuel fuel n - 1) <= Z.of_N n < 10 ^ ndigits_fuel fuel n.
Proof.
  induction fuel as [| f IH]; intros n Hn Hpos.
  - simpl in Hn. lia.
  - cbn [ndigits_fuel]. destruct (N.ltb_spec n 10) as [Hlt | Hge].
    + change (10 ^ (1 - 1)) with 1. change (10 ^ 1) with 10. lia.
    + assert (Hdiv : Z.of_N (n / 10) = Z.of_N n / 10) by (rewrite N2Z.inj_div; reflexivity).
      assert (H10 : 10 <= Z.of_N n) by lia.
      assert (Hq : 0 < Z.of_N n / 10) by (apply Z.div_str_pos; lia).
      assert (Hpow : 2 ^ Z.of_nat (S f) = 2 * 2 ^ Z.of_nat f)
        by (rewrite Nat2Z.inj_succ, Z.pow_succ_r; lia).
      assert (Hlt : Z.of_N n / 10 < 2 ^ Z.of_nat f).
      { apply Z.div_lt_upper_bound; lia. }
      specialize (IH (n / 10)%N). rewrite Hdiv in IH. specialize (IH Hlt Hq).
      pose proof (ndigits_fuel_pos f (n / 10)%N) as Hd.
      set (d := ndigits_fuel f (n / 10)%N) in *.
      replace (1 + d - 1) with (Z.succ (d - 1)) by lia.
      replace (1 + d) with (Z.succ d) by lia.
      rewrite !Z.pow_succ_r by lia.
      pose proof (Z.div_mod (Z.of_N n) 10 ltac:(lia)) as Hdm.
      pose proof (Z.mod_pos_bound (Z.of_N n) 10 ltac:(lia)) as Hm.
      lia.
Qed.

Lemma ndigits_pos n : 1 <= ndigits n.
Proof. apply ndigits_fuel_pos. Qed.

Lemma ndigits_spec n :
  0 < Z.of_N n -> 10 ^ (ndigits n - 1) <= Z.of_N n < 10 ^ ndigits n.
Proof.
  intros Hpos. apply ndigits_fuel_spec; [| exact Hpos].
  rewrite N_nat_Z.
  pose proof (N.size_gt n) as H.
  apply N2Z.inj_lt in H. rewrite N2Z.inj_pow in H. exact H.
Qed.

Lemma ndigits_zero : ndigits 0 = 1.
Proof. reflexivity. Qed.

(** The digit count is the only [d] with 10^(d-1) <= n < 10^d. *)
Lemma ndigits_unique n d :
  10 ^ (d - 1) <= Z.of_N n < 10 ^ d -> 1 <= d -> ndigits n = d.
Proof.
  intros [Hlo Hhi] Hd.
  assert (Hpos : 0 < Z.of_N n).
  { assert (0 < 10 ^ (d - 1)) by (apply Z.pow_pos_nonneg; lia). lia. }
  pose proof (ndigits_spec n Hpos) as [Hlo' Hhi'].
  pose proof (ndigits_pos n) as Hp.
  destruct (Z.lt_trichotomy (ndigits n) d) as [Hlt | [Heq | Hgt]]; [| exact Heq |].
  - assert (10 ^ ndigits n <= 10 ^ (d - 1)) by (apply Z.pow_le_mono_r; lia). lia.
  - assert (10 ^ d <= 10 ^ (ndigits n - 1)) by (apply Z.pow_le_mono_r; lia). lia.
Qed.

Lemma ndigits_le n k : Z.of_N n < 10 ^ k -> 1 <= k -> ndigits n <= k.
Proof.
  intros Hlt Hk.
  destruct (Z.eq_dec (Z.of_N n) 0) as [H0 | Hn0].
  - replace n with 0%N by lia. rewrite ndigits_zero. lia.
  - pose proof (ndigits_spec n ltac:(lia)) as [Hlo _].
    destruct (Z_le_gt_dec (ndigits n) k) as [Hle | Hgt]; [exact Hle |].
    assert (10 ^ k <= 10 ^ (ndigits n - 1)) by (apply Z.pow_le_mono_r; lia). lia.
Qed.

Lemma pow10_Z k : Z.of_N (pow10 k) = 10 ^ Z.of_N k.
Proof. unfold pow10. rewrite N2Z.inj_pow. reflexivity. Qed.

Lemma pow10_pos k : 0 < Z.of_N (pow10 k).
Proof. rewrite pow10_Z. apply Z.pow_pos_nonneg; lia. Qed.

Lemma ndigits_mul_pow10 c k :
  0 < Z.of_N c -> ndigits (c * pow10 k) = ndigits c + Z.of_N k.
Proof.
  intros Hpos. pose proof (ndigits_spec c Hpos) as [Hlo Hhi].
  pose proof (ndigits_pos c) as Hp.
  apply ndigits_unique; [| lia].
  rewrite N2Z.inj_mul, pow10_Z.
  replace (ndigits c + Z.of_N k - 1) with ((ndigits c - 1) + Z.of_N k) by lia.
  rewrite !Z.pow_add_r by lia.
  assert (0 < 10 ^ Z.of_N k) by (apply Z.pow_pos_nonneg; lia).
  split; [apply Z.mul_le_mono_nonneg_r | apply Z.mul_lt_mono_pos_r]; lia.
Qed.

(** A number that fits the precision and the exponent range is left as it
    is by [_fix]. *)
Lemma fix_representable s c e :
  ndigits c <= prec -> Etiny <= e -> ndigits c + e <= Emax + 1 ->
  fix_ (Fin s c e) = Ok (Fin s c e).
Proof.
  intros Hd He Hmax. unfold fix_, Etiny, Etop, Emax, Emin, prec in *.
  destruct (N.eqb_spec c 0) as [-> | Hc].
  - rewrite ndigits_zero in Hmax. f_equal. f_equal. lia.
  - destruct (Z.gtb_spec (ndigits c + e - 28) (999999 - 28 + 1)); [lia |].
    destruct (Z.ltb_spec e (Z.max (ndigits c + e - 28) (-999999 - 28 + 1))); [lia |].
    reflexivity.
Qed.


End DecimalFacts.

Module SumFacts.
Import PyDecimal Spec DecimalFacts.

Lemma signed_abs s c : Z.abs (signed s c) = Z.of_N c.
Proof. unfold signed. destruct s; lia. Qed.

Lemma units_abs k x : Z.abs (units k x) = magnitude k x.
Proof.
  destruct x as [s c e | |]; simpl; try reflexivity.
  rewrite Z.abs_mul, signed_abs.
  rewrite (Z.abs_eq (10 ^ (e + k))) by (apply Z.pow_nonneg; lia). reflexivity.
Qed.

Lemma signed_mul s c k : signed s (c * pow10 k) = signed s c * 10 ^ Z.of_N k.
Proof. unfold signed. rewrite N2Z.inj_mul, pow10_Z. destruct s; lia. Qed.

(** The integer an exact sum stands for, at its exponent. *)
Lemma add_exact_signed s1 c1 e1 s2 c2 e2 :
  exists s c,
    add_exact s1 c1 e1 s2 c2 e2 = Fin s c (Z.min e1 e2) /\
    signed s c = signed s1 c1 * 10 ^ (e1 - Z.min e1 e2)
                 + signed s2 c2 * 10 ^ (e2 - Z.min e1 e2).
Proof.
  unfold add_exact. rewrite !signed_mul, !Z2N.id by lia.
  set (z := signed s1 c1 * 10 ^ (e1 - Z.min e1 e2) + signed s2 c2 * 10 ^ (e2 - Z.min e1 e2)).
  eexists _, _. split; [reflexivity |].
  destruct ((c1 =? 0)%N && (c2 =? 0)%N)%bool eqn:Hz.
  - apply andb_true_iff in Hz. destruct Hz as [H1 H2].
    apply N.eqb_eq in H1, H2. subst c1 c2.
    assert (z = 0) by (unfold z, signed; destruct s1, s2; simpl; lia).
    rewrite H. unfold signed. simpl. destruct (s1 && s2)%bool; reflexivity.
  - unfold signed. rewrite N2Z.inj_abs_N.
    destruct (Z.ltb_spec z 0); lia.
Qed.

Lemma add_exact_units k s1 c1 e1 s2 c2 e2 :
  - k <= e1 -> - k <= e2 ->
  units k (add_exact s1 c1 e1 s2 c2 e2)
  = units k (Fin s1 c1 e1) + units k (Fin s2 c2 e2).
Proof.
  intros H1 H2.
  destruct (add_exact_signed s1 c1 e1 s2 c2 e2) as (s & c & -> & Hs).
  simpl. rewrite Hs, Z.mul_add_distr_r, <- !Z.mul_assoc, <- !Z.pow_add_r by lia.
  f_equal; f_equal; f_equal; lia.
Qed.

(** An addition that needs no rounding. *)
Lemma add_fits k s1 c1 e1 y :
  0 <= k <= - Etiny -> - k <= e1 <= 0 -> within k y = true ->
  magnitude k (Fin s1 c1 e1) + magnitude k y < 10 ^ 28 ->
  add (Fin s1 c1 e1) y = Ok (add_exact_dec (Fin s1 c1 e1) y) /\
  - k <= exponent (add_exact_dec (Fin s1 c1 e1) y) <= 0 /\
  is_finite (add_exact_dec (Fin s1 c1 e1) y) = true /\
  magnitude k (add_exact_dec (Fin s1 c1 e1) y)
  <= magnitude k (Fin s1 c1 e1) + magnitude k y.
Proof.
  intros Hk He1 Hy Hm.
  destruct y as [s2 c2 e2 | |]; try discriminate.
  simpl in Hy. apply Z.leb_le in Hy.
  pose proof (add_exact_units k s1 c1 e1 s2 c2 e2 ltac:(lia) Hy) as Hu.
  destruct (add_exact_signed s1 c1 e1 s2 c2 e2) as (s & c & Heq & _).
  assert (Hmag : magnitude k (Fin s c (Z.min e1 e2))
                 <= magnitude k (Fin s1 c1 e1) + magnitude k (Fin s2 c2 e2)).
  { rewrite <- !units_abs, <- Heq, Hu. apply Z.abs_triangle. }
  unfold add, add_exact_dec. simpl check_nans. cbv iota. rewrite Heq.
  split; [| split; [simpl; lia | split; [reflexivity | exact Hmag]]].
  assert (Hc : Z.of_N c < 10 ^ 28).
  { simpl in Hmag, Hm.
    assert (1 <= 10 ^ (Z.min e1 e2 + k)) by (apply (Z.pow_le_mono_r 10 0); lia).
    nia. }
  pose proof (ndigits_le c 28 Hc ltac:(lia)) as Hd.
  unfold Etiny, Emin, prec in Hk.
  apply fix_representable; unfold Etiny, Emin, Emax, prec; lia.
Qed.

Lemma sum_dec_exact k l : forall s c e,
  0 <= k <= - Etiny -> - k <= e <= 0 -> forallb (within k) l = true ->
  magnitude k (Fin s c e) + fold_right (fun a z => magnitude k a + z) 0 l < 10 ^ 28 ->
  sum_dec (Fin s c e) l = Ok (fold_left add_exact_dec l (Fin s c e)).
Proof.
  induction l as [| a l IH]; intros s c e Hk He Hall Hm; [reflexivity |].
  cbn [forallb fold_right] in Hall, Hm. apply andb_true_iff in Hall. destruct Hall as [Ha Hall].
  assert (Hnn : 0 <= fold_right (fun a z => magnitude k a + z) 0 l).
  { clear. induction l as [| b l IH]; simpl; [lia |].
    assert (0 <= magnitude k b); [| lia].
    destruct b; simpl; try lia. }
  destruct (add_fits k s c e a Hk He Ha ltac:(lia)) as (Hadd & Hexp & Hfin & Hmag).
  cbn [sum_dec fold_left]. rewrite Hadd. cbn [rbind].
  destruct (add_exact_dec (Fin s c e) a) as [s' c' e' | |]; try discriminate.
  apply IH; try assumption. lia.
Qed.

Lemma fits_sum_dec k l :
  fits k l = true -> sum_dec zero l = Ok (exact_sum l).
Proof.
  unfold fits. rewrite !andb_true_iff. intros [[[Hk1 Hk2] Hall] Hm].
  apply Z.leb_le in Hk1, Hk2. apply Z.ltb_lt in Hm.
  apply (sum_dec_exact k); try assumption; try lia.
Qed.

(** The value of an exact sum is the sum of the values. *)
Lemma Qpower10_nonzero : ~ (10 # 1 == 0)%Q.
Proof. discriminate. Qed.

Lemma value_scale s c n e :
  (value (Fin s (c * pow10 n) e) == value (Fin s c (e + Z.of_N n)))%Q.
Proof.
  unfold value. rewrite signed_mul, inject_Z_mult.
  rewrite (Qpower_plus _ _ _ Qpower10_nonzero).
  rewrite (Zpower_Qpower 10 (Z.of_N n)) by lia.
  change (inject_Z 10) with (10 # 1). ring.
Qed.

Lemma value_add_exact s1 c1 e1 s2 c2 e2 :
  (value (add_exact s1 c1 e1 s2 c2 e2)
   == value (Fin s1 c1 e1) + value (Fin s2 c2 e2))%Q.
Proof.
  destruct (add_exact_signed s1 c1 e1 s2 c2 e2) as (s & c & -> & Hs).
  set (m := Z.min e1 e2) in *.
  assert (H1 : (value (Fin s1 c1 e1)
                == inject_Z (signed s1 c1 * 10 ^ (e1 - m)) * (10 # 1) ^ m)%Q).
  { pose proof (value_scale s1 c1 (Z.to_N (e1 - m)) m) as H.
    rewrite Z2N.id in H by lia. replace (m + (e1 - m)) with e1 in H by lia.
    rewrite <- H. unfold value. rewrite signed_mul, Z2N.id by lia. reflexivity. }
  assert (H2 : (value (Fin s2 c2 e2)
                == inject_Z (signed s2 c2 * 10 ^ (e2 - m)) * (10 # 1) ^ m)%Q).
  { pose proof (value_scale s2 c2 (Z.to_N (e2 - m)) m) as H.
    rewrite Z2N.id in H by lia. replace (m + (e2 - m)) with e2 in H by lia.
    rewrite <- H. unfold value. rewrite signed_mul, Z2N.id by lia. reflexivity. }
  rewrite H1, H2. unfold value. rewrite Hs, inject_Z_plus. ring.
Qed.

Lemma value_fold_exact l : forall acc,
  is_finite acc = true -> forallb is_finite l = true ->
  is_finite (fold_left add_exact_dec l acc) = true /\
  (value (fold_left add_exact_dec l acc) == value acc + Qsum l)%Q.
Proof.
  induction l as [| a l IH]; intros acc Hacc Hall.
  - simpl. split; [exact Hacc | ring].
  - simpl in Hall. apply andb_true_iff in Hall. destruct Hall as [Ha Hall].
    destruct acc as [s1 c1 e1 | |]; try discriminate.
    destruct a as [s2 c2 e2 | |]; try discriminate.
    cbn [fold_left]. 
    destruct (IH (add_exact_dec (Fin s1 c1 e1) (Fin s2 c2 e2)) eq_refl Hall) as [Hf Hv].
    split; [exact Hf |].
    rewrite Hv. cbn [add_exact_dec]. rewrite value_add_exact.
    unfold Qsum. cbn [fold_right]. ring.
Qed.

Lemma within_finite k l : forallb (within k) l = true -> forallb is_finite l = true.
Proof.
  induction l as [| a l IH]; [reflexivity |]. simpl.
  rewrite !andb_true_iff. intros [Ha Hl]. split; [| auto].
  destruct a; simpl in *; congruence.
Qed.

Lemma value_exact_sum k l :
  forallb (within k) l = true -> (value (exact_sum l) == Qsum l)%Q.
Proof.
  intros H. apply within_finite in H.
  destruct (value_fold_exact l zero eq_refl H) as [_ Hv].
  unfold exact_sum. rewrite Hv. unfold zero, value, signed. simpl. ring.
Qed.

End SumFacts.

Module ScaleFacts.
Import PyDecimal PrepareAirdropCsv Spec DecimalFacts SumFacts.

Lemma of_int_pow10 d : 0 <= d -> of_int (10 ^ d) = Fin false (pow10 (Z.to_N d)) 0.
Proof.
  intros Hd. unfold of_int.
  assert (Hp : 0 < 10 ^ d) by (apply Z.pow_pos_nonneg; lia).
  destruct (Z.ltb_spec (10 ^ d) 0); [lia |].
  f_equal. apply N2Z.inj. rewrite N2Z.inj_abs_N, pow10_Z, Z2N.id by lia. lia.
Qed.

Lemma pow10_add a b : pow10 (a + b) = (pow10 a * pow10 b)%N.
Proof. unfold pow10. apply N.pow_add_r. Qed.

Lemma pow10_nonzero k : pow10 k <> 0%N.
Proof. pose proof (pow10_pos k). lia. Qed.

(** Rounding to the precision drops only zeros when the coefficient is at
    most 28 digits followed by zeros. *)
Lemma fix_trailing_zeros s c' z e :
  Z.of_N c' < 10 ^ 28 -> Etiny <= e -> ndigits (c' * pow10 z) + e <= Emax + 1 ->
  exists n c1,
    fix_ (Fin s (c' * pow10 z) e) = Ok (Fin s c1 (e + Z.of_N n)) /\
    (c' * pow10 z = c1 * pow10 n)%N.
Proof.
  intros Hc He Hmax.
  destruct (Z_le_gt_dec (ndigits (c' * pow10 z)) 28) as [Hle | Hgt].
  { exists 0%N, (c' * pow10 z)%N. rewrite Z.add_0_r. split.
    - apply fix_representable; unfold prec; assumption.
    - unfold pow10. simpl. lia. }
  assert (Hpos : 0 < Z.of_N c').
  { destruct (Z.eq_dec (Z.of_N c') 0) as [H0 | H0]; [| lia].
    replace c' with 0%N in Hgt by lia. simpl in Hgt. rewrite ndigits_zero in Hgt. lia. }
  pose proof (ndigits_mul_pow10 c' z Hpos) as HL.
  pose proof (ndigits_le c' 28 Hc ltac:(lia)) as Hd'.
  set (c := (c' * pow10 z)%N) in *.
  set (L := ndigits c) in *.
  set (drop := Z.to_N (L - 28)).
  assert (Hdrop : Z.of_N drop = L - 28) by (unfold drop; rewrite Z2N.id; lia).
  assert (Hsplit : c = (c' * pow10 (z - drop) * pow10 drop)%N).
  { unfold c. rewrite <- N.mul_assoc, <- pow10_add. do 2 f_equal. lia. }
  assert (Hmod : (c mod pow10 drop = 0)%N).
  { rewrite Hsplit. apply N.Div0.mod_mul. }
  assert (Hdiv : (c / pow10 drop = c' * pow10 (z - drop))%N).
  { rewrite Hsplit. apply N.div_mul. apply pow10_nonzero. }
  exists drop, (c' * pow10 (z - drop))%N. split; [| exact Hsplit].
  assert (Hcn : (c =? 0)%N = false).
  { apply N.eqb_neq. unfold c. pose proof (pow10_pos z). nia. }
  unfold fix_. fold c. rewrite Hcn. fold L.
  unfold Etiny, Etop, Emax, Emin, prec in *.
  assert (H1 : (L + e - 28 >? 999999 - 28 + 1) = false) by (rewrite Z.gtb_ltb; apply Z.ltb_ge; lia).
  rewrite H1.
  assert (H2 : Z.max (L + e - 28) (-999999 - 28 + 1) = L + e - 28) by lia.
  rewrite H2.
  assert (H3 : (e <? L + e - 28) = true) by (apply Z.ltb_lt; lia).
  rewrite H3.
  assert (H4 : (L + e - (L + e - 28) <? 0) = false) by (apply Z.ltb_ge; lia).
  rewrite H4.
  replace (L + e - 28 - e) with (L - 28) by lia. fold drop.
  assert (Hround : pick_rounding_function ROUND_HALF_EVEN c drop = 0).
  { unfold pick_rounding_function, round_half_even, round_half_up. rewrite Hmod.
    pose proof (pow10_pos drop) as Hp.
    assert (H5 : (2 * 0 =? pow10 drop)%N = false) by (apply N.eqb_neq; lia).
    rewrite H5. simpl andb. cbv iota.
    assert (H6 : (pow10 drop <=? 2 * 0)%N = false) by (apply N.leb_gt; lia).
    rewrite H6. reflexivity. }
  cbv zeta. rewrite Hround. simpl (0 >? 0). simpl andb. cbv iota.
  rewrite H1, Hdiv. do 2 f_equal. lia.
Qed.

(** [int(x.to_integral_value(rounding=ROUND_DOWN))]: the integer part of
    the magnitude, with the sign. *)

Lemma truncate_to_int s c e :
  (iv <- to_integral_value (Fin s c e) ROUND_DOWN ;; to_int iv)%result
  = Ok (int_part s c e).
Proof.
  unfold int_part, to_integral_value.
  destruct (Z.geb_spec e 0) as [Hge | Hlt].
  - simpl. destruct (Z.geb_spec e 0); [reflexivity | lia].
  - cbn [rbind]. unfold rescale.
    destruct (N.eqb_spec c 0) as [-> | Hc].
    + simpl. reflexivity.
    + destruct (Z.geb_spec e 0); [lia |].
      destruct (Z.ltb_spec (ndigits c + e - 0) 0) as [Hneg | Hnn].
      * replace (Z.to_N (0 - (0 - 1))) with 1%N by reflexivity.
        cbn. f_equal. f_equal.
        symmetry. apply N.div_small.
        pose proof (ndigits_spec c ltac:(lia)) as [_ Hhi].
        apply N2Z.inj_lt. rewrite pow10_Z, Z2N.id by lia.
        assert (10 ^ ndigits c <= 10 ^ (- e)) by (apply Z.pow_le_mono_r; lia). lia.
      * replace (0 - e) with (- e) by lia.
        assert (Hr : (pick_rounding_function ROUND_DOWN c (Z.to_N (- e)) =? 1) = false).
        { unfold pick_rounding_function, round_down.
          destruct (c mod pow10 (Z.to_N (- e)) =? 0)%N; reflexivity. }
        cbv zeta. rewrite Hr. unfold to_int. f_equal.
        change (0 >=? 0) with true. cbv iota.
        f_equal. change (pow10 (Z.to_N 0)) with 1%N. apply N.mul_1_r.
Qed.


(** Truncation of rationals. *)
Lemma Qtrunc_Z z : Qtrunc (inject_Z z) = z.
Proof. unfold Qtrunc. destruct (Qle_bool 0 (inject_Z z)); [apply Qfloor_Z | apply Qceiling_Z]. Qed.

Lemma Qtrunc_comp q1 q2 : (q1 == q2)%Q -> Qtrunc q1 = Qtrunc q2.
Proof.
  intros H. unfold Qtrunc.
  rewrite (Qfloor_comp q1 q2 H), (Qceiling_comp q1 q2 H), (Qleb_comp 0%Q 0%Q (Qeq_refl 0%Q) q1 q2 H).
  reflexivity.
Qed.

Lemma Qtrunc_nonneg q : (0 <= q)%Q -> Qtrunc q = Qfloor q.
Proof. intros H. unfold Qtrunc. apply Qle_bool_iff in H. rewrite H. reflexivity. Qed.

Lemma Qtrunc_opp q : Qtrunc (- q) = - Qtrunc q.
Proof.
  unfold Qtrunc.
  destruct (Qle_bool 0 q) eqn:H1; destruct (Qle_bool 0 (- q)) eqn:H2.
  - apply Qle_bool_iff in H1, H2.
    assert (Hq : (q == 0)%Q).
    { apply Qle_antisym; [| exact H1].
      apply Qopp_le_compat in H2. rewrite Qopp_involutive in H2. exact H2. }
    rewrite (Qfloor_comp _ _ Hq).
    assert (Hq' : (- q == 0)%Q) by (rewrite Hq; reflexivity).
    rewrite (Qfloor_comp _ _ Hq'). reflexivity.
  - unfold Qceiling. rewrite (Qfloor_comp _ _ (Qopp_involutive q)). reflexivity.
  - unfold Qceiling. lia.
  - exfalso.
    assert (Hlt : (q < 0)%Q).
    { apply Qnot_le_lt. intros H. apply Qle_bool_iff in H. congruence. }
    assert (Hle : (0 <= - q)%Q).
    { apply Qlt_le_weak in Hlt. apply Qopp_le_compat in Hlt. exact Hlt. }
    apply Qle_bool_iff in Hle. congruence.
Qed.

Lemma value_signed s c e :
  (value (Fin s c e) == (if s then - value (Fin false c e) else value (Fin false c e)))%Q.
Proof.
  destruct s; [| reflexivity]. unfold value, signed.
  rewrite inject_Z_opp. ring.
Qed.

Lemma value_nonneg c e : (0 <= value (Fin false c e))%Q.
Proof.
  unfold value, signed. apply Qmult_le_0_compat.
  - change 0%Q with (inject_Z 0). rewrite <- Zle_Qle. lia.
  - apply Qpower_0_le. discriminate.
Qed.

Lemma value_integral c e :
  0 <= e -> (value (Fin false c e) == inject_Z (Z.of_N (c * pow10 (Z.to_N e))))%Q.
Proof.
  intros He. unfold value, signed.
  rewrite N2Z.inj_mul, pow10_Z, Z2N.id, inject_Z_mult, Zpower_Qpower by lia.
  reflexivity.
Qed.

Lemma value_fraction c e :
  e < 0 ->
  (value (Fin false c e) == inject_Z (Z.of_N c) / inject_Z (10 ^ (- e)))%Q.
Proof.
  intros He. unfold value, signed.
  rewrite Zpower_Qpower by lia. change (inject_Z 10) with (10 # 1).
  replace e with (- (- e)) at 1 by lia. rewrite Qpower_opp. reflexivity.
Qed.

(** Truncating the value is what [to_integral_value] and [int] compute. *)
Lemma Qtrunc_value s c e : Qtrunc (value (Fin s c e)) = int_part s c e.
Proof.
  assert (Hpos : Qtrunc (value (Fin false c e)) = int_part false c e).
  { rewrite (Qtrunc_nonneg _ (value_nonneg c e)). unfold int_part, signed.
    destruct (Z.geb_spec e 0) as [Hge | Hlt].
    - rewrite (Qfloor_comp _ _ (value_integral c e Hge)). apply Qfloor_Z.
    - rewrite (Qfloor_comp _ _ (value_fraction c e Hlt)).
      rewrite <- Zdiv_Qdiv, N2Z.inj_div, pow10_Z, Z2N.id by lia. reflexivity. }
  destruct s; [| exact Hpos].
  rewrite (Qtrunc_comp _ _ (value_signed true c e)). cbv iota.
  rewrite Qtrunc_opp, Hpos. unfold int_part, signed. reflexivity.
Qed.

Lemma value_times_pow10 s c e d :
  0 <= d ->
  (value (Fin s c e) * inject_Z (10 ^ d)
   == value (Fin s (c * pow10 (Z.to_N d)) e))%Q.
Proof.
  intros Hd. unfold value. rewrite signed_mul, inject_Z_mult, Z2N.id by lia. ring.
Qed.

(** Lines 127-128 on an amount of at most 28 significant digits. *)
Lemma scale_truncates s c' z e d :
  0 <= d -> Z.of_N c' < 10 ^ 28 -> Etiny <= e ->
  ndigits (c' * pow10 z) + e + d <= Emax + 1 ->
  scale_amount (of_int (10 ^ d)) (Fin s (c' * pow10 z) e)
  = Ok (Qtrunc (value (Fin s (c' * pow10 z) e) * inject_Z (10 ^ d))).
Proof.
  intros Hd Hc He Hmax.
  unfold scale_amount. rewrite (of_int_pow10 d Hd).
  unfold mul. cbn [check_nans]. rewrite xorb_false_r, Z.add_0_r.
  rewrite <- N.mul_assoc, <- pow10_add.
  assert (Hmax' : ndigits (c' * pow10 (z + Z.to_N d)) + e <= Emax + 1).
  { destruct (Z.eq_dec (Z.of_N c') 0) as [H0 | H0].
    - replace c' with 0%N by lia. simpl. rewrite ndigits_zero. 
      replace c' with 0%N in Hmax by lia. simpl in Hmax. rewrite ndigits_zero in Hmax. lia.
    - rewrite ndigits_mul_pow10 in * by lia. lia. }
  destruct (fix_trailing_zeros s c' (z + Z.to_N d) e Hc He Hmax') as (n & c1 & Hfix & Heq).
  rewrite Hfix. cbn [rbind].
  rewrite truncate_to_int. f_equal.
  rewrite <- Qtrunc_value. apply Qtrunc_comp.
  rewrite (value_times_pow10 _ _ _ _ Hd).
  rewrite <- N.mul_assoc, <- pow10_add, Heq.
  rewrite value_scale. reflexivity.
Qed.

End ScaleFacts.

(** ** The row loop *)

Module AirdropLoop.
Import PyDecimal PyStr PrepareAirdropCsv Spec.

Section Loop.

Variable Decimal_of_str : string -> option Decimal.
Variable factor : Decimal.
Variable min_scaled : Z.

Local Abbreviation body := (loop_body Decimal_of_str factor min_scaled).
Local Abbreviation run := (for_rows Decimal_of_str factor min_scaled).
Local Abbreviation rows_of := (valid_rows Decimal_of_str).
Local Abbreviation kept := (is_kept factor min_scaled).
Local Abbreviation dust := (is_dust factor min_scaled).
Local Abbreviation line := (line_of factor).

Lemma loop_body_invalid row st :
  parse_row Decimal_of_str row = None -> body row st = (st, Ok tt).
Proof.
  unfold parse_row, loop_body.
  destruct (List.length row <? 2)%nat; [reflexivity |].
  destruct (Decimal_of_str _); [discriminate | reflexivity].
Qed.

Lemma loop_body_valid row st addr a :
  parse_row Decimal_of_str row = Some (addr, a) -> body row st = step factor min_scaled addr a st.
Proof.
  unfold parse_row, loop_body, step.
  destruct (List.length row <? 2)%nat; [discriminate |].
  destruct (Decimal_of_str _) as [amount |]; [| discriminate].
  intros H; injection H as <- <-.
  unfold bind, get, lift, modify, line_of, scaled_or_zero; simpl.
  destruct (add (total_original st) amount) as [t | e]; [| reflexivity].
  destruct (scale_amount factor amount) as [z | e]; [| reflexivity].
  rewrite Z.geb_leb.
  destruct (min_scaled <=? z).
  - unfold py_str. destruct (exceeds_int_max_str_digits z); [reflexivity |].
    simpl. destruct (add (total st) (of_int z)); reflexivity.
  - simpl. destruct (add (dust_total st) amount); reflexivity.
Qed.


(** The loop, whatever its outcome: what has been written is the lines of
    the kept rows among the rows gone through, in their order. *)
Lemma for_rows_written reader : forall st st' r,
  run reader st = (st', r) ->
  exists done rest,
    reader = done ++ rest /\
    f_out st' = f_out st ++ map line (filter kept (rows_of done)) /\
    (r = Ok tt -> rest = []).
Proof.
  induction reader as [| row reader IH]; intros st st' r H.
  - injection H as <- <-. exists [], []. simpl. rewrite app_nil_r. auto.
  - simpl in H. unfold bind in H.
    destruct (parse_row Decimal_of_str row) as [[addr a] |] eqn:Hp.
    + rewrite (loop_body_valid _ _ _ _ Hp) in H.
      unfold step in H.
      assert (Hone : rows_of [row] = [(addr, a)])
        by (unfold valid_rows; simpl; rewrite Hp; reflexivity).
      assert (Hcons : forall l, rows_of (row :: l) = (addr, a) :: rows_of l)
        by (intros l; unfold valid_rows; simpl; rewrite Hp; reflexivity).
      destruct (add (total_original st) a) as [t | e].
      2:{ injection H as <- <-. exists [], (row :: reader). simpl.
          rewrite app_nil_r. repeat split; discriminate. }
      destruct (scale_amount factor a) as [z | e] eqn:Hs.
      2:{ injection H as <- <-. exists [], (row :: reader). simpl.
          rewrite app_nil_r. repeat split; discriminate. }
      destruct (min_scaled <=? z) eqn:Hk.
      * destruct (exceeds_int_max_str_digits z).
        { injection H as <- <-. exists [], (row :: reader). simpl.
          rewrite app_nil_r. repeat split; discriminate. }
        destruct (add (total st) (of_int z)) as [t' | e].
        -- apply IH in H. destruct H as (done & rest & -> & Hout & Hr).
           exists (row :: done), rest. split; [reflexivity |]. split; [| exact Hr].
           rewrite Hout, Hcons. simpl. unfold is_kept at 2. simpl. rewrite Hs, Hk.
           simpl. rewrite <- app_assoc. reflexivity.
        -- injection H as <- <-. exists [row], reader. split; [reflexivity |].
           split; [| discriminate].
           rewrite Hone. simpl. unfold is_kept. simpl. rewrite Hs, Hk. reflexivity.
      * destruct (add (dust_total st) a) as [t' | e].
        -- apply IH in H. destruct H as (done & rest & -> & Hout & Hr).
           exists (row :: done), rest. split; [reflexivity |]. split; [| exact Hr].
           rewrite Hout, Hcons. simpl. unfold is_kept at 2. simpl. rewrite Hs, Hk.
           reflexivity.
        -- injection H as <- <-. exists [], (row :: reader). simpl.
           rewrite app_nil_r. repeat split; discriminate.
    + rewrite (loop_body_invalid _ _ Hp) in H.
      apply IH in H. destruct H as (done & rest & -> & Hout & Hr).
      exists (row :: done), rest. split; [reflexivity |]. split; [| exact Hr].
      rewrite Hout. unfold valid_rows. simpl. rewrite Hp. reflexivity.
Qed.

(** The loop when it runs to its end. *)
Lemma for_rows_completed reader : forall st st',
  run reader st = (st', Ok tt) ->
  f_out st' = f_out st ++ map line (filter kept (rows_of reader)) /\
  count st' = count st + Z.of_nat (List.length (filter kept (rows_of reader))) /\
  dust_count st' = dust_count st + Z.of_nat (List.length (filter dust (rows_of reader))) /\
  sum_dec (total_original st) (map snd (rows_of reader)) = Ok (total_original st') /\
  sum_dec (dust_total st) (map snd (filter dust (rows_of reader))) = Ok (dust_total st') /\
  Forall (fun e => kept e = negb (dust e) /\ exists z, scale_amount factor (snd e) = Ok z)
         (rows_of reader).
Proof.
  induction reader as [| row reader IH]; intros st st' H.
  - injection H as <-. simpl. rewrite app_nil_r, !Z.add_0_r. repeat split. constructor.
  - simpl in H. unfold bind in H.
    destruct (parse_row Decimal_of_str row) as [[addr a] |] eqn:Hp.
    + rewrite (loop_body_valid _ _ _ _ Hp) in H.
      unfold step in H.
      assert (Hcons : rows_of (row :: reader) = (addr, a) :: rows_of reader)
        by (unfold valid_rows; simpl; rewrite Hp; reflexivity).
      rewrite Hcons.
      destruct (add (total_original st) a) as [t | e] eqn:Ht; [| discriminate].
      destruct (scale_amount factor a) as [z | e] eqn:Hs; [| discriminate].
      assert (Hkd : kept (addr, a) = (min_scaled <=? z) /\ dust (addr, a) = (z <? min_scaled))
        by (unfold is_kept, is_dust; simpl; rewrite Hs; auto).
      destruct Hkd as [Hk Hd].
      assert (Hneg : (z <? min_scaled) = negb (min_scaled <=? z))
        by (rewrite Z.ltb_antisym; reflexivity).
      destruct (min_scaled <=? z) eqn:Hle.
      * destruct (exceeds_int_max_str_digits z); [discriminate |].
        destruct (add (total st) (of_int z)) as [t' | e]; [| discriminate].
        apply IH in H. simpl in H.
        destruct H as (Hout & Hc & Hdc & Hto & Hdt & Hall).
        simpl. rewrite Hk, Hd, Hneg. simpl. rewrite Ht. simpl.
        repeat split; try assumption.
        -- rewrite Hout, <- app_assoc. reflexivity.
        -- rewrite Hc. lia.
        -- constructor; [| exact Hall]. rewrite Hk, Hd, Hneg. simpl. eauto.
      * destruct (add (dust_total st) a) as [t' | e] eqn:Hdu; [| discriminate].
        apply IH in H. simpl in H.
        destruct H as (Hout & Hc & Hdc & Hto & Hdt & Hall).
        simpl. rewrite Hk, Hd, Hneg. simpl. rewrite Ht, Hdu. simpl.
        repeat split; try assumption.
        -- rewrite Hdc. lia.
        -- constructor; [| exact Hall]. rewrite Hk, Hd, Hneg. simpl. eauto.
    + rewrite (loop_body_invalid _ _ Hp) in H.
      apply IH in H.
      replace (rows_of (row :: reader)) with (rows_of reader)
        by (unfold valid_rows; simpl; rewrite Hp; reflexivity).
      exact H.
Qed.

(** A loop that raises: the rows before the failing one ran to their end,
    and the body raised on the failing one. *)
Lemma for_rows_raised reader : forall st st' e,
  run reader st = (st', Raise e) ->
  exists before row after st1,
    reader = before ++ row :: after /\
    run before st = (st1, Ok tt) /\
    body row st1 = (st', Raise e).
Proof.
  induction reader as [| row reader IH]; intros st st' e H; [discriminate |].
  cbn [for_rows] in H. unfold bind in H.
  destruct (body row st) as [st1 [[] | e1]] eqn:Hbody.
  - destruct (IH _ _ _ H) as (before & row' & after & st2 & -> & Hrun & Hraise).
    exists (row :: before), row', after, st2. split; [reflexivity |].
    split; [| exact Hraise].
    cbn [for_rows]. unfold bind. rewrite Hbody. exact Hrun.
  - injection H as <- <-. exists [], row, reader, st. auto.
Qed.

(** What the body has written when it raises. *)
Lemma loop_body_raised row st st' e :
  body row st = (st', Raise e) ->
  exists addr a,
    parse_row Decimal_of_str row = Some (addr, a) /\
    f_out st' = f_out st
                ++ map line (written_before_raise factor min_scaled st (addr, a)).
Proof.
  intros H.
  destruct (parse_row Decimal_of_str row) as [[addr a] |] eqn:Hp.
  - exists addr, a. split; [reflexivity |].
    rewrite (loop_body_valid _ _ _ _ Hp) in H. unfold step in H.
    unfold written_before_raise, is_written. cbn [snd].
    destruct (add (total_original st) a) as [t | e1].
    2:{ injection H as <- _. cbn [map]. rewrite app_nil_r. reflexivity. }
    destruct (scale_amount factor a) as [z | e1].
    2:{ injection H as <- _. cbn [map]. rewrite app_nil_r. reflexivity. }
    destruct (min_scaled <=? z); cbn [andb].
    + destruct (exceeds_int_max_str_digits z); cbn [negb].
      * injection H as <- _. cbn [map]. rewrite app_nil_r. reflexivity.
      * destruct (add (total st) (of_int z)) as [t' | e1]; [discriminate |].
        injection H as <- _. reflexivity.
    + destruct (add (dust_total st) a) as [t' | e1]; [discriminate |].
      injection H as <- _. cbn [map]. rewrite app_nil_r. reflexivity.
  - rewrite (loop_body_invalid _ _ Hp) in H. discriminate.
Qed.

End Loop.
End AirdropLoop.

(** ** The output text *)

Module TextFacts.
Import PyDecimal PyStr PrepareAirdropCsv Spec.
Local Open Scope string_scope.

Lemma append_assoc (a b c : string) : (a ++ b) ++ c = a ++ (b ++ c).
Proof. induction a as [| x a IH]; simpl; [reflexivity | rewrite IH; reflexivity]. Qed.

Lemma has_LF_append a b : has_LF (a ++ b) = (has_LF a || has_LF b)%bool.
Proof.
  induction a as [| x a IH]; simpl; [reflexivity |].
  rewrite IH, orb_assoc. reflexivity.
Qed.

Lemma digit_char_not_LF m : (m < 10)%N -> Ascii.eqb (digit_char m) LF = false.
Proof.
  intros H. destruct m as [| p]; [reflexivity |].
  do 4 (destruct p as [p | p |]; try reflexivity; try lia).
Qed.

Lemma str_of_N_fuel_no_LF fuel : forall n acc,
  has_LF acc = false -> has_LF (str_of_N_fuel fuel n acc) = false.
Proof.
  induction fuel as [| f IH]; intros n acc Hacc; simpl; [exact Hacc |].
  assert (Hd : has_LF (String (digit_char (n mod 10)) acc) = false).
  { simpl. rewrite digit_char_not_LF, Hacc; [reflexivity |].
    apply N.mod_lt. discriminate. }
  destruct (n <? 10)%N; [exact Hd | apply IH; exact Hd].
Qed.

Lemma str_of_N_no_LF n : has_LF (str_of_N n) = false.
Proof. apply str_of_N_fuel_no_LF. reflexivity. Qed.

Lemma str_of_Z_no_LF z : has_LF (str_of_Z z) = false.
Proof.
  unfold str_of_Z. destruct (z <? 0)%Z.
  - rewrite has_LF_append, str_of_N_no_LF. reflexivity.
  - apply str_of_N_no_LF.
Qed.

Section Records.

Variable factor : Decimal.

Lemma line_of_record e : line_of factor e = record_of factor e ++ newline.
Proof.
  unfold line_of, record_of. rewrite !append_assoc. reflexivity.
Qed.

Lemma record_no_LF e : has_LF (fst e) = false -> has_LF (record_of factor e) = false.
Proof.
  intros H. unfold record_of. rewrite !has_LF_append, H, str_of_Z_no_LF. reflexivity.
Qed.

(** A text made of LF-terminated records without inner line feeds has
    exactly these records as its lines. *)
Lemma lines_of_record r rest ls :
  has_LF r = false -> lines_of rest = Some ls ->
  lines_of (r ++ String LF rest) = Some (r :: ls).
Proof.
  intros Hr Hrest. induction r as [| c r IH]; simpl.
  - rewrite Hrest. reflexivity.
  - simpl in Hr. apply orb_false_iff in Hr. destruct Hr as [Hc Hr].
    rewrite Hc, (IH Hr). reflexivity.
Qed.

Lemma lines_of_records es :
  forallb no_line_break es = true ->
  lines_of (file_text (map (line_of factor) es)) = Some (map (record_of factor) es).
Proof.
  induction es as [| e es IH]; intros H; [reflexivity |].
  simpl in H. apply andb_true_iff in H. destruct H as [He Hes].
  simpl. rewrite line_of_record, append_assoc.
  change (newline ++ file_text (map (line_of factor) es))
    with (String LF (file_text (map (line_of factor) es))).
  apply lines_of_record; [| apply IH; exact Hes].
  apply record_no_LF. unfold no_line_break in He.
  destruct (has_LF (fst e)); [discriminate | reflexivity].
Qed.

End Records.

End TextFacts.

(** ** The fetches and the script body *)

Module MainFacts.
Import PyDecimal PyStr PrepareAirdropCsv Spec.
Local Open Scope string_scope.

Section WithLibrary.

Variable Decimal_of_str : string -> option Decimal.
Variable Decimal_of_float_pow10 : Z -> result Decimal.
Variable int16 : string -> option Z.
Variable bytes_fromhex : string -> option string.
Variable decode_utf8 : string -> option string.
Variable Request_raises : string -> bool.
Variable urlopen : string -> string -> string -> response.
Variable open_read : string -> option (list (list string)).
Variable open_write : string -> bool.

Local Abbreviation symbol_of := (symbol_of_response int16 bytes_fromhex decode_utf8).
Local Abbreviation decimals_of := (decimals_of_response int16).
Local Abbreviation run_main :=
  (main Decimal_of_str Decimal_of_float_pow10 int16 bytes_fromhex decode_utf8
        Request_raises urlopen open_read open_write).
Local Abbreviation files :=
  (prepare_csv_files Decimal_of_str Decimal_of_float_pow10 open_read open_write).

Lemma symbol_failure_unknown resp :
  symbol_failure int16 bytes_fromhex decode_utf8 resp -> symbol_of resp = UNKNOWN.
Proof.
  intros H. unfold symbol_of_response, symbol_try.
  destruct H as [| | v Hv | members err He | members Hr | members r Hr Ht
                 | members r Hr Hs | members s Hr Hlen | members s Hr Hi
                 | members s len Hr Hi Hb | members s len raw Hr Hi Hb Hd];
    try reflexivity.
  - destruct v as [| b | n | s | items | members]; cbn [py_in py_get rbind]; try reflexivity.
    + destruct (contains "error" s); reflexivity.
    + destruct (existsb (is_string "error") items); reflexivity.
    + exfalso. apply (Hv members). reflexivity.
  - cbn [py_in rbind]. rewrite He. reflexivity.
  - cbn [py_in py_get rbind]. rewrite Hr.
    destruct (lookup "error" members); reflexivity.
  - cbn [py_in py_get rbind]. rewrite Hr.
    destruct (lookup "error" members); cbn [rbind]; [reflexivity |].
    rewrite Ht. reflexivity.
  - cbn [py_in py_get py_getitem rbind]. rewrite Hr.
    destruct (lookup "error" members); cbn [rbind]; [reflexivity |].
    destruct (truthy r); cbn [negb rbind]; [| reflexivity].
    destruct r as [| b | n | s | items | ms]; try reflexivity.
    + exfalso. apply (Hs s). reflexivity.
    + destruct (List.length (skipn 2 items) <? 128)%nat; reflexivity.
  - cbn [py_in py_get py_getitem rbind]. rewrite Hr.
    destruct (lookup "error" members); cbn [rbind]; [reflexivity |].
    destruct (truthy (JString s)); cbn [negb rbind]; [| reflexivity].
    fold (payload s).
    apply Nat.ltb_lt in Hlen. rewrite Hlen. reflexivity.
  - cbn [py_in py_get py_getitem rbind]. rewrite Hr.
    destruct (lookup "error" members); cbn [rbind]; [reflexivity |].
    destruct (truthy (JString s)); cbn [negb rbind]; [| reflexivity].
    fold (payload s). rewrite Hi.
    destruct (String.length (payload s) <? 128)%nat; reflexivity.
  - cbn [py_in py_get py_getitem rbind]. rewrite Hr.
    destruct (lookup "error" members); cbn [rbind]; [reflexivity |].
    destruct (truthy (JString s)); cbn [negb rbind]; [| reflexivity].
    fold (payload s). rewrite Hi. cbn [of_option rbind].
    fold (symbol_hex (payload s) len). rewrite Hb.
    destruct (String.length (payload s) <? 128)%nat; reflexivity.
  - cbn [py_in py_get py_getitem rbind]. rewrite Hr.
    destruct (lookup "error" members); cbn [rbind]; [reflexivity |].
    destruct (truthy (JString s)); cbn [negb rbind]; [| reflexivity].
    fold (payload s). rewrite Hi. cbn [of_option rbind].
    fold (symbol_hex (payload s) len). rewrite Hb. cbn [of_option rbind]. rewrite Hd.
    destruct (String.length (payload s) <? 128)%nat; reflexivity.
Qed.

(** Every answer to the [symbol()] call is unusable in one of the ways
    listed or decodes. *)
Lemma symbol_cases resp :
  symbol_failure int16 bytes_fromhex decode_utf8 resp \/
  exists text,
    symbol_decoded int16 bytes_fromhex decode_utf8 resp text /\
    symbol_of resp = strip_nul text.
Proof.
  destruct resp as [| | v]; [left; constructor | left; constructor |].
  destruct v as [| b | n | s | items | members];
    try (left; apply sf_not_object; intros members H; discriminate).
  destruct (lookup "error" members) as [err |] eqn:He;
    [left; eapply sf_rpc_error; exact He |].
  destruct (lookup "result" members) as [r |] eqn:Hr;
    [| left; apply sf_no_result; exact Hr].
  destruct (truthy r) eqn:Ht; [| left; eapply sf_empty_result; eassumption].
  destruct r as [| b | n | s | items | ms];
    try (left; eapply sf_not_string; [exact Hr | intros s H; discriminate]).
  destruct (Nat.ltb_spec (String.length (payload s)) 128) as [Hshort | Hlong];
    [left; eapply sf_short; eassumption |].
  destruct (int16 (py_slice (payload s) 64 128)) as [len |] eqn:Hi;
    [| left; eapply sf_length_word; eassumption].
  destruct (bytes_fromhex (symbol_hex (payload s) len)) as [raw |] eqn:Hb;
    [| left; eapply sf_not_hex; eassumption].
  destruct (decode_utf8 raw) as [text |] eqn:Hd;
    [| left; eapply sf_not_utf8; eassumption].
  right. exists text. split.
  - exists members, s, len, raw. repeat split; assumption.
  - unfold symbol_of_response, symbol_try.
    cbn [py_in py_get py_getitem rbind]. rewrite He, Hr. cbn [rbind]. rewrite Ht.
    cbn [negb rbind]. fold (payload s).
    apply Nat.ltb_ge in Hlong. rewrite Hlong, Hi. cbn [of_option rbind].
    fold (symbol_hex (payload s) len). rewrite Hb. cbn [of_option rbind]. rewrite Hd.
    reflexivity.
Qed.

Lemma decimals_failure_raises resp :
  decimals_failure int16 resp -> exists e, decimals_of resp = Raise e.
Proof.
  intros H. unfold decimals_of_response.
  destruct H as [| | v Hv | members err He | members Hr | members r Hr Hs
                 | members s Hr Hi].
  - eauto.
  - eauto.
  - destruct v as [| b | n | s | items | members]; cbn [py_in py_getitem rbind]; eauto.
    + destruct (contains "error" s); eauto.
    + destruct (existsb (is_string "error") items); eauto.
    + exfalso. apply (Hv members). reflexivity.
  - cbn [py_in py_getitem rbind]. rewrite He. cbn [rbind]. eauto.
  - cbn [py_in py_getitem rbind]. rewrite Hr.
    destruct (lookup "error" members); cbn [rbind]; eauto.
  - cbn [py_in py_getitem rbind]. rewrite Hr.
    destruct (lookup "error" members); cbn [rbind]; eauto.
    destruct r as [| b | n | s | items | ms]; cbn [py_int16]; eauto.
    exfalso. apply (Hs s). reflexivity.
  - cbn [py_in py_getitem rbind]. rewrite Hr.
    destruct (lookup "error" members); cbn [rbind py_int16]; eauto.
    rewrite Hi. eauto.
Qed.

Lemma decimals_raise_is_failure resp e :
  decimals_of resp = Raise e -> decimals_failure int16 resp.
Proof.
  unfold decimals_of_response.
  destruct resp as [| | v]; [constructor | constructor |].
  destruct v as [| b | n | s | items | members];
    try (intros _; apply df_not_object; intros members H; discriminate).
  cbn [py_in py_getitem rbind].
  destruct (lookup "error" members) as [err |] eqn:He.
  - intros _. eapply df_rpc_error. exact He.
  - destruct (lookup "result" members) as [r |] eqn:Hr; cbn [rbind].
    + destruct r as [| b | n | s | items | ms]; cbn [py_int16];
        try (intros _; eapply df_not_string; [exact Hr | intros s H; discriminate]).
      destruct (int16 s) eqn:Hi; [discriminate |].
      intros _. eapply df_not_hex; eassumption.
    + intros _. apply df_no_result. exact Hr.
Qed.



Lemma main_decimals_raise argv u o m e :
  (3 <= List.length argv)%nat ->
  parse_options Decimal_of_str (skipn 3 argv) None None = Ok (o, m) ->
  is_empty u = false ->
  snd (get_token_decimals int16 Request_raises urlopen u (nth 2 argv "")) = Raise e ->
  run_main argv (Some u)
  = (EPrint (MFetching (nth 2 argv ""))
       :: fst (get_token_decimals int16 Request_raises urlopen u (nth 2 argv ""))
       ++ [EPrint (MFetchError e)], 1).
Proof.
  intros Hlen Hopt Hu Hraise. unfold main.
  apply Nat.ltb_ge in Hlen. rewrite Hlen, Hopt. cbn [falsy]. rewrite Hu.
  destruct (get_token_decimals int16 Request_raises urlopen u (nth 2 argv "")) as [ev1 rd].
  simpl in Hraise. rewrite Hraise. reflexivity.
Qed.

Lemma main_fetched argv u o m d :
  (3 <= List.length argv)%nat ->
  parse_options Decimal_of_str (skipn 3 argv) None None = Ok (o, m) ->
  is_empty u = false ->
  Request_raises u = false ->
  decimals_of (urlopen u (nth 2 argv "") decimals_selector) = Ok d ->
  exceeds_int_max_str_digits d = false ->
  run_main argv (Some u)
  = (EPrint (MFetching (nth 2 argv ""))
       :: ERequest u (nth 2 argv "") decimals_selector
       :: ERequest u (nth 2 argv "") symbol_selector
       :: EPrint (MToken (symbol_of (urlopen u (nth 2 argv "") symbol_selector)))
       :: EPrint (MDecimals d)
       :: EPrint MBlank
       :: fst (files (nth 1 argv "") d o m),
     snd (files (nth 1 argv "") d o m)).
Proof.
  intros Hlen Hopt Hu Hreq Hd Hx. unfold main.
  apply Nat.ltb_ge in Hlen. rewrite Hlen, Hopt. cbn [falsy]. rewrite Hu.
  unfold get_token_decimals, get_token_symbol, py_str. rewrite Hreq, Hd, Hx.
  destruct (files (nth 1 argv "") d o m) as [ev3 status]. reflexivity.
Qed.

(** Decimals that cannot be printed: the "Decimals" line raises inside the
    [try], after the "Token" line. *)
Lemma main_decimals_unprintable argv u o m d :
  (3 <= List.length argv)%nat ->
  parse_options Decimal_of_str (skipn 3 argv) None None = Ok (o, m) ->
  is_empty u = false ->
  Request_raises u = false ->
  decimals_of (urlopen u (nth 2 argv "") decimals_selector) = Ok d ->
  exceeds_int_max_str_digits d = true ->
  run_main argv (Some u)
  = ([EPrint (MFetching (nth 2 argv ""));
      ERequest u (nth 2 argv "") decimals_selector;
      ERequest u (nth 2 argv "") symbol_selector;
      EPrint (MToken (symbol_of (urlopen u (nth 2 argv "") symbol_selector)));
      EPrint (MFetchError ValueError)], 1).
Proof.
  intros Hlen Hopt Hu Hreq Hd Hx. unfold main.
  apply Nat.ltb_ge in Hlen. rewrite Hlen, Hopt. cbn [falsy]. rewrite Hu.
  unfold get_token_decimals, get_token_symbol, py_str. rewrite Hreq, Hd, Hx.
  reflexivity.
Qed.

End WithLibrary.

End MainFacts.

(** ** The coverage summary *)

Module CoverageFacts.
Import PyStr CalculateSrcCoverage Spec.

Lemma scan_line_spec a line :
  scan_line a line
  = match coverage_of line with
    | Some (c, t) =>
        mkAcc (covered a + c) (total a + t) (files a ++ missing_entry (line, (c, t)))
    | None => a
    end.
Proof.
  unfold scan_line, coverage_of, missing_entry.
  destruct (contains "| src/" line); [| reflexivity].
  destruct (re_search line) as [[[g1 g2] g3] |]; [| reflexivity].
  rewrite Z.gtb_ltb.
  replace (0 <? int_of_group g3 - int_of_group g2)
    with (int_of_group g2 <? int_of_group g3).
  - destruct (int_of_group g2 <? int_of_group g3); [reflexivity |].
    rewrite app_nil_r. reflexivity.
  - destruct (Z.ltb_spec (int_of_group g2) (int_of_group g3));
      destruct (Z.ltb_spec 0 (int_of_group g3 - int_of_group g2)); try reflexivity; lia.
Qed.

Lemma fold_scan_spec lines : forall a,
  fold_left scan_line lines a
  = mkAcc (covered a + sumZ (map (fun m => fst (snd m)) (matched_lines lines)))
          (total a + sumZ (map (fun m => snd (snd m)) (matched_lines lines)))
          (files a ++ flat_map missing_entry (matched_lines lines)).
Proof.
  induction lines as [| line lines IH]; intros a.
  - simpl. rewrite !Z.add_0_r, app_nil_r. destruct a; reflexivity.
  - cbn [fold_left]. rewrite IH, scan_line_spec. unfold matched_lines at 4 5 6.
    cbn [flat_map]. fold (matched_lines lines).
    destruct (coverage_of line) as [[c t] |].
    + cbn [app map flat_map sumZ fold_right covered total files fst snd].
      rewrite <- app_assoc. f_equal; unfold sumZ; lia.
    + reflexivity.
Qed.

Lemma scan_spec stdout :
  covered (scan stdout) = sumZ (map (fun m => fst (snd m)) (matched stdout)) /\
  total (scan stdout) = sumZ (map (fun m => snd (snd m)) (matched stdout)) /\
  files (scan stdout) = flat_map missing_entry (matched stdout).
Proof.
  unfold scan. rewrite fold_scan_spec. simpl. repeat split.
Qed.

Lemma total_nonneg stdout : 0 <= total (scan stdout).
Proof.
  destruct (scan_spec stdout) as (_ & -> & _).
  unfold matched. induction (split_lines stdout) as [| line lines IH]; simpl; [lia |].
  rewrite map_app. unfold sumZ in *. rewrite fold_right_app.
  destruct (coverage_of line) as [[c t] |] eqn:Hc; simpl; [| exact IH].
  unfold coverage_of in Hc.
  destruct (contains "| src/" line); [| discriminate].
  destruct (re_search line) as [[[g1 g2] g3] |]; [| discriminate].
  injection Hc as <- <-. unfold int_of_group. lia.
Qed.

Lemma covered_nonneg stdout : 0 <= covered (scan stdout).
Proof.
  destruct (scan_spec stdout) as (-> & _ & _).
  unfold matched. induction (split_lines stdout) as [| line lines IH]; simpl; [lia |].
  rewrite map_app. unfold sumZ in *. rewrite fold_right_app.
  destruct (coverage_of line) as [[c t] |] eqn:Hc; simpl; [| exact IH].
  unfold coverage_of in Hc.
  destruct (contains "| src/" line); [| discriminate].
  destruct (re_search line) as [[[g1 g2] g3] |]; [| discriminate].
  injection Hc as <- <-. unfold int_of_group. lia.
Qed.

(** The loop body: it raises on the lines [line_raises] tells, and is
    [scan_line] on the others. *)
Lemma loop_body_spec a line :
  loop_body a line
  = if line_raises line then Raise ValueError else Ok (scan_line a line).
Proof.
  unfold loop_body, line_raises, scan_line, too_long, py_int.
  destruct (contains "| src/" line); [| reflexivity].
  destruct (re_search line) as [[[g1 g2] g3] |]; [| reflexivity].
  destruct (int_max_str_digits <? Z.of_nat (String.length g2)); [reflexivity |].
  cbn [rbind orb].
  destruct (int_max_str_digits <? Z.of_nat (String.length g3)); reflexivity.
Qed.

Lemma for_lines_spec lines : forall a,
  for_lines lines a
  = if existsb line_raises lines then Raise ValueError
    else Ok (fold_left scan_line lines a).
Proof.
  induction lines as [| line lines IH]; intros a; [reflexivity |].
  cbn [for_lines existsb fold_left]. rewrite loop_body_spec.
  destruct (line_raises line); [reflexivity |]. cbn [rbind orb]. apply IH.
Qed.

(** When the loop runs to its end its variables are those of [scan]. *)
Lemma for_lines_scan stdout a :
  for_lines (split_lines stdout) (mkAcc 0 0 []) = Ok a -> a = scan stdout.
Proof.
  rewrite for_lines_spec.
  destruct (existsb line_raises (split_lines stdout)); [discriminate |].
  intros H. injection H as <-. reflexivity.
Qed.

(** A line that is not matched raises nothing. *)
Lemma no_match_no_raise lines :
  matched_lines lines = [] -> existsb line_raises lines = false.
Proof.
  induction lines as [| line lines IH]; [reflexivity |].
  unfold matched_lines. cbn [flat_map existsb]. intros H.
  apply app_eq_nil in H. destruct H as [Hline Hrest].
  rewrite (IH Hrest), orb_false_r. unfold line_raises.
  unfold coverage_of in Hline.
  destruct (contains "| src/" line); [| reflexivity].
  destruct (re_search line) as [[[g1 g2] g3] |]; [discriminate | reflexivity].
Qed.

Lemma exceeds_zero : exceeds_int_max_str_digits 0 = false.
Proof.
  unfold exceeds_int_max_str_digits. apply Z.leb_gt. cbn [Z.abs].
  apply Z.pow_pos_nonneg; [lia | discriminate].
Qed.

Lemma exceeds_spec z :
  exceeds_int_max_str_digits z = false <-> Z.abs z < 10 ^ int_max_str_digits.
Proof.
  unfold exceeds_int_max_str_digits. apply Z.leb_gt.
Qed.

(** The exit status of a run in which the tool ran. *)
Lemma exit_status_spec stdout :
  snd (main (Ok stdout))
  = if existsb line_raises (split_lines stdout) then 1
    else if (total (scan stdout) =? 0)
            || ((total (scan stdout) - covered (scan stdout) =? 0)
                && negb (exceeds_int_max_str_digits (total (scan stdout))))
         then 0 else 1.
Proof.
  unfold main. rewrite for_lines_spec. fold (scan stdout).
  destruct (existsb line_raises (split_lines stdout)); [reflexivity |].
  pose proof (total_nonneg stdout) as Hnn.
  set (a := scan stdout) in *.
  destruct (Z.gtb_spec (total a) 0) as [Hpos | Hz].
  - destruct (Z.eqb_spec (total a) 0); [lia |]. cbn [orb].
    unfold truediv_overflows.
    destruct (Z.leb_spec ((2 ^ 1024 - 2 ^ 970) * total a) (covered a)) as [Hov | Hno].
    + cbn [snd].
      destruct (Z.eqb_spec (total a - covered a) 0) as [Hm |]; [| reflexivity].
      exfalso. assert (2 <= 2 ^ 1024 - 2 ^ 970) by (vm_compute; discriminate). nia.
    + unfold py_str.
      destruct (Z.eqb_spec (total a - covered a) 0) as [Hm | Hm].
      * replace (covered a) with (total a) by lia. rewrite Z.sub_diag, exceeds_zero.
        destruct (exceeds_int_max_str_digits (total a)); reflexivity.
      * cbn [andb].
        destruct (exceeds_int_max_str_digits (covered a)); [reflexivity |].
        cbn [rbind].
        destruct (exceeds_int_max_str_digits (total a)); [reflexivity |].
        destruct (exceeds_int_max_str_digits (total a - covered a)); reflexivity.
  - replace (total a) with 0 by lia. reflexivity.
Qed.

End CoverageFacts.

(** ** The summary of a run *)

Module ReportFacts.
Import PyDecimal PyStr PrepareAirdropCsv Spec DecimalFacts SumFacts AirdropLoop.

Section Run.

Variable Decimal_of_str : string -> option Decimal.
Variable Decimal_of_float_pow10 : Z -> result Decimal.

Local Abbreviation prepare := (prepare_csv Decimal_of_str Decimal_of_float_pow10).

(** A call that got as far as the loop. *)
Lemma prepare_csv_inv reader d min_amount written r :
  prepare reader d min_amount = (Some written, r) ->
  exists factor min_scaled st r',
    scaling Decimal_of_float_pow10 d (min_amount_or_default min_amount)
    = Ok (factor, min_scaled) /\
    for_rows Decimal_of_str factor min_scaled reader initial = (st, r') /\
    written = f_out st /\
    (forall rep, r = Ok rep ->
       r' = Ok tt /\
       rep = mkReport d (min_amount_or_default min_amount) (count st) (dust_count st)
               (format_f 10 (dust_total st)) (format_f 6 (total_original st))
               (format_f 10 (dust_total st)) (final_total Decimal_of_float_pow10 d (total st))).
Proof.
  unfold prepare_csv.
  destruct (scaling _ d _) as [[factor min_scaled] | e]; [| discriminate].
  destruct (for_rows Decimal_of_str factor min_scaled reader initial) as [st r'] eqn:Hrun.
  intros H. exists factor, min_scaled, st, r'.
  split; [reflexivity |]. split; [exact Hrun |].
  destruct r' as [[] | e].
  - injection H as <- <-. split; [reflexivity |].
    unfold summary. destruct (py_str d); cbn [rbind]; [| discriminate].
    intros rep Hrep. injection Hrep as <-. split; reflexivity.
  - injection H as <- <-. split; [reflexivity |]. discriminate.
Qed.

(** The outcome of a call that got as far as the loop: the loop raised,
    or it ran to its end and the outcome is that of the prints. *)
Lemma prepare_csv_outcome reader d min_amount factor min_scaled :
  scaling Decimal_of_float_pow10 d (min_amount_or_default min_amount)
  = Ok (factor, min_scaled) ->
  prepare reader d min_amount
  = match for_rows Decimal_of_str factor min_scaled reader initial with
    | (st, Raise e) => (Some (f_out st), Raise e)
    | (st, Ok _) => (Some (f_out st), summary Decimal_of_float_pow10 d
                                        (min_amount_or_default min_amount) st)
    end.
Proof.
  intros Hs. unfold prepare_csv. rewrite Hs. reflexivity.
Qed.

Lemma prepare_csv_written reader d min_amount written r :
  prepare reader d min_amount = (written, r) ->
  (exists rep, r = Ok rep) -> exists w, written = Some w.
Proof.
  unfold prepare_csv.
  destruct (scaling _ d _) as [[factor min_scaled] | e].
  - destruct (for_rows _ _ _ _ _) as [st [[] | e]]; intros H; injection H as <- <-; eauto.
  - intros H [rep Hrep]. injection H as <- <-. discriminate.
Qed.

(** A skipped row can be taken out of the input. *)
Lemma for_rows_skip factor min_scaled row before after :
  parse_row Decimal_of_str row = None ->
  forall st,
    for_rows Decimal_of_str factor min_scaled (before ++ row :: after) st
    = for_rows Decimal_of_str factor min_scaled (before ++ after) st.
Proof.
  intros Hrow. induction before as [| r before IH]; intros st.
  - simpl. unfold bind. rewrite (loop_body_invalid _ _ _ _ _ Hrow). reflexivity.
  - simpl. unfold bind.
    destruct (loop_body Decimal_of_str factor min_scaled r st) as [st' [[] | e]];
      [apply IH | reflexivity].
Qed.

End Run.

Lemma magnitude_nonneg k a : 0 <= magnitude k a.
Proof.
  destruct a as [s c e | |]; simpl; lia.
Qed.

(** Amounts that need no rounding still need none when some are left out. *)
Lemma fits_filter {A} k (f : A -> bool) (g : A -> Decimal) l :
  fits k (map g l) = true -> fits k (map g (filter f l)) = true.
Proof.
  unfold fits. rewrite !andb_true_iff.
  intros [[[Hk1 Hk2] Hall] Hm]. repeat split; try assumption.
  - clear Hm. induction l as [| a l IH]; [reflexivity |].
    simpl in Hall. apply andb_true_iff in Hall. destruct Hall as [Ha Hl].
    simpl. destruct (f a); simpl; [rewrite Ha |]; auto.
  - apply Z.ltb_lt in Hm. apply Z.ltb_lt.
    assert (Hle : fold_right (fun a z => magnitude k a + z) 0 (map g (filter f l))
                  <= fold_right (fun a z => magnitude k a + z) 0 (map g l)); [| lia].
    clear. induction l as [| a l IH]; simpl; [lia |].
    pose proof (magnitude_nonneg k (g a)).
    destruct (f a); simpl; lia.
Qed.

(** Every row is kept or dust, so the amounts split in two. *)
Lemma Qsum_split (f h : string * Decimal -> bool) l :
  Forall (fun e => f e = negb (h e)) l ->
  (Qsum (map snd l) == Qsum (map snd (filter f l)) + Qsum (map snd (filter h l)))%Q.
Proof.
  induction 1 as [| e l He Hl IH]; simpl; [reflexivity |].
  rewrite He. destruct (h e); simpl; rewrite IH; ring.
Qed.

End ReportFacts.

(** ** Runs that reach the summary *)

(** ** Division by a power of ten *)

Module DivFacts.
Import PyDecimal PyStr Spec DecimalFacts ScaleFacts.





End DivFacts.


Module Completion.
Import DivFacts.
Import PyDecimal PyStr PrepareAirdropCsv Spec DecimalFacts SumFacts AirdropLoop ReportFacts.




Section Loop.

Variable Decimal_of_str : string -> option Decimal.
Variable factor : Decimal.
Variable min_scaled : Z.
Variable k : Z.
Hypothesis k_range : 0 <= k <= - Etiny.


End Loop.


End Completion.

(** ** More about the amounts *)

Module AmountFacts.
Import PyDecimal PyStr PrepareAirdropCsv Spec More.
Import DecimalFacts SumFacts ScaleFacts AirdropLoop ReportFacts.

(** [_fix] keeps the sign, and zero stays zero. *)
Lemma fix_sign s c e x :
  fix_ (Fin s c e) = Ok x ->
  exists c' e', x = Fin s c' e' /\ (c = 0%N -> c' = 0%N).
Proof.
  unfold fix_.
  destruct (N.eqb_spec c 0) as [-> | Hc].
  - intros H. injection H as <-. eauto.
  - destruct (_ >? Etop); [discriminate |].
    destruct (e <? _).
    + destruct (_ <? 0); cbv zeta beta iota;
        match goal with
        | |- context [if (?a && ?b)%bool then _ else _] => destruct (a && b)%bool
        end;
        match goal with
        | |- context [if ?a >? Etop then _ else _] => destruct (a >? Etop)
        end; try discriminate; intros H; injection H as <-;
        eexists _, _; (split; [reflexivity | intros; contradiction]).
    + intros H. injection H as <-. eexists _, _. split; [reflexivity | intros; contradiction].
Qed.

Lemma to_int_int_part s c e : to_int (Fin s c e) = Ok (int_part s c e).
Proof. unfold to_int, int_part. destruct (e >=? 0); reflexivity. Qed.

Lemma int_part_sign s c e :
  (s = true -> int_part s c e <= 0) /\ (c = 0%N -> int_part s c e = 0) /\
  (s = false -> 0 <= int_part s c e).
Proof.
  unfold int_part, signed. repeat split.
  - intros ->. lia.
  - intros ->. destruct (e >=? 0), s; simpl; try reflexivity;
      rewrite N.Div0.div_0_l; reflexivity.
  - intros ->. lia.
Qed.

(** The scaled amount of a finite amount, when there is one: an integer of
    the sign of the amount. *)
Lemma scale_sign s c e sf cf ef z :
  scale_amount (Fin sf cf ef) (Fin s c e) = Ok z ->
  (xorb s sf = true -> z <= 0) /\ (c = 0%N -> z = 0).
Proof.
  unfold scale_amount, mul. cbn [check_nans].
  destruct (fix_ (Fin (xorb s sf) (c * cf) (e + ef))) as [x | err] eqn:Hfix; [| discriminate].
  destruct (fix_sign _ _ _ _ Hfix) as (c' & e' & -> & Hzero).
  cbn [rbind]. rewrite truncate_to_int. intros H. injection H as <-.
  destruct (int_part_sign (xorb s sf) c' e') as (Hneg & Hz & _).
  split; [exact Hneg |]. intros ->. apply Hz. apply Hzero. reflexivity.
Qed.

(** An amount that is not finite cannot be scaled. *)
Lemma scale_not_finite factor a :
  is_finite a = false -> exists e, scale_amount factor a = Raise e.
Proof.
  intros Ha. unfold scale_amount, mul.
  destruct a as [s c e | s | [|]]; try discriminate;
    destruct factor as [sf cf ef | sf | [|]]; cbn [check_nans rbind]; eauto;
    try match goal with
        | |- context [if ?b then _ else _] => destruct b
        end; cbn [rbind to_integral_value to_int]; eauto.
Qed.

(** The product of an amount of at most 28 significant digits by
    [Decimal(10 ** d)] is exact. *)
Lemma product_exact s c' z e d :
  0 <= d -> Z.of_N c' < 10 ^ 28 -> Etiny <= e ->
  ndigits (c' * pow10 z) + e + d <= Emax + 1 ->
  exists c1 e1,
    mul (Fin s (c' * pow10 z) e) (of_int (10 ^ d)) = Ok (Fin s c1 e1) /\
    (value (Fin s c1 e1) == value (Fin s (c' * pow10 z) e) * inject_Z (10 ^ d))%Q.
Proof.
  intros Hd Hc He Hmax.
  rewrite (of_int_pow10 d Hd).
  unfold mul. cbn [check_nans]. rewrite xorb_false_r, Z.add_0_r.
  rewrite <- N.mul_assoc, <- pow10_add.
  assert (Hmax' : ndigits (c' * pow10 (z + Z.to_N d)) + e <= Emax + 1).
  { destruct (Z.eq_dec (Z.of_N c') 0) as [H0 | H0].
    - replace c' with 0%N by lia. simpl. rewrite ndigits_zero.
      replace c' with 0%N in Hmax by lia. simpl in Hmax. rewrite ndigits_zero in Hmax. lia.
    - rewrite ndigits_mul_pow10 in * by lia. lia. }
  destruct (fix_trailing_zeros s c' (z + Z.to_N d) e Hc He Hmax') as (n & c1 & Hfix & Heq).
  exists c1, (e + Z.of_N n). split; [exact Hfix |].
  rewrite (value_times_pow10 _ _ _ _ Hd).
  rewrite <- N.mul_assoc, <- pow10_add, Heq.
  rewrite value_scale. reflexivity.
Qed.

(** The default threshold in base units. *)
Lemma default_min_scaled fl d :
  0 <= d <= Emax + 5 ->
  scaling fl d default_min_amount = Ok (of_int (10 ^ d), 10 ^ d / 10 ^ 5).
Proof.
  intros Hd. unfold scaling, ten_pow.
  destruct (Z.geb_spec d 0) as [_ | Hneg]; [| lia]. cbn [rbind].
  assert (Hmax : ndigits (1 * pow10 0) + -5 + d <= Emax + 1)
    by (change (ndigits (1 * pow10 0)) with 1; lia).
  destruct (product_exact false 1 0 (-5) d ltac:(lia) ltac:(reflexivity)
              ltac:(vm_compute; discriminate) Hmax) as (c1 & e1 & Hmul & Hval).
  change (Fin false (1 * pow10 0) (-5)) with default_min_amount in Hmul, Hval.
  rewrite Hmul. cbn [rbind]. rewrite to_int_int_part. cbn [rbind].
  do 2 f_equal.
  rewrite <- Qtrunc_value, (Qtrunc_comp _ _ Hval).
  unfold default_min_amount.
  rewrite (Qtrunc_comp _ _ (value_times_pow10 false 1 (-5) d ltac:(lia))).
  rewrite Qtrunc_value. unfold int_part, signed. cbn [Z.geb Z.compare].
  rewrite N.mul_1_l, N2Z.inj_div, !pow10_Z, Z2N.id by lia. reflexivity.
Qed.

Lemma value_of_int z : (value (of_int z) == inject_Z z)%Q.
Proof.
  unfold of_int, value, signed. rewrite N2Z.inj_abs_N.
  destruct (Z.ltb_spec z 0); [rewrite Z.abs_neq by lia | rewrite Z.abs_eq by lia];
    rewrite ?Z.opp_involutive; simpl (_ ^ 0)%Q; ring.
Qed.

Section Loop.

Variable Decimal_of_str : string -> option Decimal.
Variable factor : Decimal.
Variable min_scaled : Z.

(** [total] at the end of the loop. *)
Lemma for_rows_total reader : forall st st',
  for_rows Decimal_of_str factor min_scaled reader st = (st', Ok tt) ->
  sum_dec (total st)
          (scaled_amounts factor (kept_rows Decimal_of_str factor min_scaled reader))
  = Ok (total st').
Proof.
  induction reader as [| row reader IH]; intros st st' H.
  - injection H as <-. reflexivity.
  - simpl in H. unfold bind in H. unfold kept_rows in *.
    destruct (parse_row Decimal_of_str row) as [[addr a] |] eqn:Hp.
    + rewrite (loop_body_valid _ _ _ _ _ _ _ Hp) in H. unfold step in H.
      replace (valid_rows Decimal_of_str (row :: reader))
        with ((addr, a) :: valid_rows Decimal_of_str reader)
        by (unfold valid_rows; simpl; rewrite Hp; reflexivity).
      destruct (add (total_original st) a) as [t | e]; [| discriminate].
      destruct (scale_amount factor a) as [z | e] eqn:Hs; [| discriminate].
      cbn [filter]. unfold is_kept at 1. cbn [snd]. rewrite Hs.
      destruct (min_scaled <=? z).
      * destruct (exceeds_int_max_str_digits z); [discriminate |].
        destruct (add (total st) (of_int z)) as [t' | e] eqn:Ht; [| discriminate].
        apply IH in H. cbn [total set_count set_total] in H.
        cbn [scaled_amounts map sum_dec snd]. unfold scaled_or_zero at 1. rewrite Hs, Ht.
        exact H.
      * destruct (add (dust_total st) a) as [t' | e]; [| discriminate].
        apply IH in H. exact H.
    + rewrite (loop_body_invalid _ _ _ _ _ Hp) in H.
      replace (valid_rows Decimal_of_str (row :: reader))
        with (valid_rows Decimal_of_str reader)
        by (unfold valid_rows; simpl; rewrite Hp; reflexivity).
      apply IH. exact H.
Qed.

End Loop.

Lemma Qsum_scaled factor rows :
  (Qsum (scaled_amounts factor rows)
   == inject_Z (sumZ (map (fun e => scaled_or_zero factor (snd e)) rows)))%Q.
Proof.
  induction rows as [| e rows IH]; [reflexivity |].
  unfold Qsum, sumZ in *. cbn [scaled_amounts map fold_right] in *.
  rewrite IH, value_of_int, inject_Z_plus. reflexivity.
Qed.

End AmountFacts.

(** ** More about the script body *)

Module RunFacts.
Import PyDecimal PyStr PrepareAirdropCsv Spec More MainFacts.
Local Open Scope string_scope.

Section WithLibrary.

Variable Decimal_of_str : string -> option Decimal.
Variable Decimal_of_float_pow10 : Z -> result Decimal.
Variable int16 : string -> option Z.
Variable bytes_fromhex : string -> option string.
Variable decode_utf8 : string -> option string.
Variable Request_raises : string -> bool.
Variable urlopen : string -> string -> string -> response.
Variable open_read : string -> option (list (list string)).
Variable open_write : string -> bool.

Local Abbreviation run_main :=
  (main Decimal_of_str Decimal_of_float_pow10 int16 bytes_fromhex decode_utf8
        Request_raises urlopen open_read open_write).
Local Abbreviation files :=
  (prepare_csv_files Decimal_of_str Decimal_of_float_pow10 open_read open_write).

(** The ways [prepare_csv] and its files go. *)
Lemma prepare_csv_files_cases input d o m :
  (exists e, files input d o m = ([ETraceback e], 1)) \/
  (open_read input = None /\
   files input d o m = ([EOpenRead input; ETraceback OSError], 1)) \/
  (exists out rows,
     open_read input = Some rows /\ open_write out = false /\
     files input d o m = ([EOpenRead input; EOpenWrite out; ETraceback OSError], 1)) \/
  (exists out rows w r,
     open_read input = Some rows /\ open_write out = true /\
     files input d o m
     = ([EOpenRead input; EOpenWrite out; EWrite out w; EPrint (MSummary input out r)], 0)) \/
  (exists out rows w e,
     open_read input = Some rows /\ open_write out = true /\
     (files input d o m
      = ([EOpenRead input; EOpenWrite out; EWrite out w; ETraceback e], 1) \/
      files input d o m
      = ([EOpenRead input; EOpenWrite out; EWrite out w;
          EPrint (MSummaryPaths input out); ETraceback e], 1) \/
      exists r,
        files input d o m
        = ([EOpenRead input; EOpenWrite out; EWrite out w;
            EPrint (MSummaryHead input out r); ETraceback e], 1))).
Proof.
  unfold prepare_csv_files.
  destruct (scaling _ d _) as [[factor min_scaled] | e]; [| left; eauto].
  destruct (open_read input) as [rows |] eqn:Hr; [| right; left; auto].
  match goal with
  | |- context [if open_write ?p then _ else _] =>
      set (out := p); destruct (open_write out) eqn:Hw
  end.
  - destruct (for_rows _ factor min_scaled rows initial) as [st [[] | e]].
    + destruct (summary _ d _ st) as [r | e].
      * destruct (rep_final_total r) as [q | e].
        -- right. right. right. left. exists out, rows. eauto.
        -- right. right. right. right. exists out, rows, (f_out st), e. eauto 6.
      * right. right. right. right. exists out, rows, (f_out st), e. auto.
    + right. right. right. right. exists out, rows, (f_out st), e. auto.
  - right. right. left. exists out, rows. auto.
Qed.

(** The ways the whole script goes. *)
Lemma main_cases argv env :
  run_main argv env = ([EPrint MUsage; EPrint MOptionalHint; EPrint MExampleHint], 1) \/
  (exists e, run_main argv env = ([ETraceback e], 1)) \/
  run_main argv env = ([EPrint MRpcUrlRequired], 1) \/
  (exists u e,
     env = Some u /\
     run_main argv env = ([EPrint (MFetching (nth 2 argv "")); EPrint (MFetchError e)], 1)) \/
  (exists u e,
     env = Some u /\
     (run_main argv env
      = ([EPrint (MFetching (nth 2 argv ""));
          ERequest u (nth 2 argv "") decimals_selector;
          EPrint (MFetchError e)], 1) \/
      exists symbol,
        run_main argv env
        = ([EPrint (MFetching (nth 2 argv ""));
            ERequest u (nth 2 argv "") decimals_selector;
            ERequest u (nth 2 argv "") symbol_selector;
            EPrint (MToken symbol);
            EPrint (MFetchError e)], 1))) \/
  (exists u o m d symbol,
     env = Some u /\
     parse_options Decimal_of_str (skipn 3 argv) None None = Ok (o, m) /\
     decimals_of_response int16 (urlopen u (nth 2 argv "") decimals_selector) = Ok d /\
     run_main argv env
     = (EPrint (MFetching (nth 2 argv ""))
          :: ERequest u (nth 2 argv "") decimals_selector
          :: ERequest u (nth 2 argv "") symbol_selector
          :: EPrint (MToken symbol) :: EPrint (MDecimals d) :: EPrint MBlank
          :: fst (files (nth 1 argv "") d o m),
        snd (files (nth 1 argv "") d o m))).
Proof.
  unfold main.
  destruct (List.length argv <? 3)%nat; [left; reflexivity |].
  destruct (parse_options _ _ _ _) as [[o m] | e] eqn:Hp; [| right; left; eauto].
  destruct env as [u |]; cbn [falsy]; [| right; right; left; reflexivity].
  destruct (is_empty u); [right; right; left; reflexivity |].
  unfold get_token_decimals, get_token_symbol.
  destruct (Request_raises u).
  - right. right. right. left. exists u, ValueError. split; reflexivity.
  - destruct (decimals_of_response int16 _) as [d | e] eqn:Hd.
    + destruct (py_str d) as [text | e].
      * right. right. right. right. right.
        exists u, o, m, d. eexists. split; [reflexivity |].
        split; [reflexivity |]. split; [exact Hd |].
        destruct (files (nth 1 argv "") d o m) as [ev3 status]. reflexivity.
      * right. right. right. right. left. exists u, e. split; [reflexivity |].
        right. eexists. reflexivity.
    + right. right. right. right. left. exists u, e. split; [reflexivity |].
      left. reflexivity.
Qed.

(** A whole summary has a final total. *)
Lemma summary_has_final input d o m input' output rep :
  In (EPrint (MSummary input' output rep)) (fst (files input d o m)) ->
  exists final, rep_final_total rep = Ok final.
Proof.
  unfold prepare_csv_files.
  destruct (scaling _ d _) as [[factor min_scaled] | e];
    [| cbn; intros [H | []]; discriminate].
  destruct (open_read input) as [rows |];
    [| cbn; intros [H | [H | []]]; discriminate].
  match goal with
  | |- context [if open_write ?p then _ else _] => destruct (open_write p)
  end; [| cbn; intros [H | [H | [H | []]]]; discriminate].
  destruct (for_rows _ factor min_scaled rows initial) as [st [[] | e]];
    [| cbn; intros [H | [H | [H | [H | []]]]]; discriminate].
  destruct (summary _ d _ st) as [r | e];
    [| cbn; intros [H | [H | [H | [H | [H | []]]]]]; discriminate].
  destruct (rep_final_total r) as [q | e] eqn:Hq;
    [| cbn; intros [H | [H | [H | [H | [H | []]]]]]; discriminate].
  cbn. intros [H | [H | [H | [H | []]]]]; try discriminate.
  injection H as _ _ <-. eauto.
Qed.

Lemma files_no_request input d o m : requests (fst (files input d o m)) = [].
Proof.
  destruct (prepare_csv_files_cases input d o m)
    as [[e ->] | [[_ ->] | [(out & rows & _ & _ & ->) | [(out & rows & w & r & _ & _ & ->)
       | (out & rows & w & e & _ & _ & [-> | [-> | [r ->]]])]]]]; reflexivity.
Qed.

(** Options without the flag: the last one is the output path. *)
Lemma parse_options_plain args : forall o m,
  Forall (fun a => a <> "--min-amount") args ->
  parse_options Decimal_of_str args o m
  = Ok (match args with [] => o | _ => Some (last args "") end, m).
Proof.
  induction args as [| a rest IH]; intros o m Hall; [reflexivity |].
  inversion Hall as [| ? ? Ha Hrest]; subst.
  cbn [parse_options].
  destruct rest as [| v rest']; [reflexivity |].
  destruct (String.eqb_spec a "--min-amount") as [-> | _]; [contradiction |].
  rewrite (IH _ _ Hrest). reflexivity.
Qed.

Lemma parse_options_app pre rest : forall o m,
  Forall (fun a => a <> "--min-amount") pre -> rest <> [] ->
  parse_options Decimal_of_str (pre ++ rest)%list o m
  = parse_options Decimal_of_str rest
      (match pre with [] => o | _ => Some (last pre "") end) m.
Proof.
  induction pre as [| a pre IH]; intros o m Hall Hrest; [reflexivity |].
  inversion Hall as [| ? ? Ha Hpre]; subst.
  cbn [app parse_options].
  destruct (pre ++ rest)%list as [| v tail] eqn:Happ.
  - apply app_eq_nil in Happ. destruct Happ as [_ ->]. contradiction.
  - destruct (String.eqb_spec a "--min-amount") as [-> | _]; [contradiction |].
    rewrite (IH _ _ Hpre Hrest).
    destruct pre as [| b pre']; reflexivity.
Qed.

End WithLibrary.

End RunFacts.

(** ** More about the coverage script *)

Module PatternFacts.
Import PyStr CalculateSrcCoverage Spec More TextFacts CoverageFacts.
Local Open Scope string_scope.

Local Abbreviation chars := list_ascii_of_string.

Lemma chars_append a b : chars (a ++ b) = (chars a ++ chars b)%list.
Proof.
  induction a as [| c a IH]; simpl; [reflexivity | rewrite IH; reflexivity].
Qed.

Lemma eat_spec lit : forall s r, eat lit s = Some r <-> s = lit ++ r.
Proof.
  induction lit as [| a lit IH]; intros s r; simpl.
  - split; [intros H; injection H as ->; reflexivity | intros ->; reflexivity].
  - destruct s as [| b s]; [split; discriminate |].
    destruct (Ascii.eqb_spec a b) as [-> | Hne].
    + rewrite IH. split; [intros ->; reflexivity | intros H; injection H as ->; reflexivity].
    + split; [discriminate | intros H; injection H as -> _; contradiction].
Qed.

(** What [span_digits] splits off is digits, and what it leaves does not
    start with one. *)
Lemma span_digits_spec s : forall d r,
  span_digits s = (d, r) ->
  s = d ++ r /\ forallb is_digit (chars d) = true /\ starts_with_digit r = false.
Proof.
  induction s as [| c s IH]; intros d r H; simpl in H.
  - injection H as <- <-. repeat split.
  - destruct (is_digit c) eqn:Hc.
    + destruct (span_digits s) as [d' r'] eqn:Hs. injection H as <- <-.
      destruct (IH _ _ eq_refl) as (-> & Hd & Hr).
      repeat split; [| exact Hr]. cbn [list_ascii_of_string forallb]. rewrite Hc, Hd. reflexivity.
    + injection H as <- <-. repeat split. simpl. exact Hc.
Qed.

Lemma span_digits_append d : forall r,
  forallb is_digit (chars d) = true -> starts_with_digit r = false ->
  span_digits (d ++ r) = (d, r).
Proof.
  induction d as [| c d IH]; intros r Hd Hr; cbn [append span_digits].
  - destruct r as [| c r]; [reflexivity |]. cbn [starts_with_digit] in Hr.
    cbn [span_digits]. rewrite Hr. reflexivity.
  - cbn [list_ascii_of_string forallb] in Hd.
    apply andb_true_iff in Hd. destruct Hd as [Hc Hd].
    rewrite Hc, (IH r Hd Hr). reflexivity.
Qed.

Lemma is_number_spec s :
  is_number s = true <-> is_empty s = false /\ forallb is_digit (chars s) = true.
Proof.
  unfold is_number. rewrite andb_true_iff, negb_true_iff. reflexivity.
Qed.

(** A match at the start of a string. *)
Lemma match_here_sound s g1 g2 g3 :
  match_here s = Some (g1, g2, g3) ->
  exists whole frac after,
    s = rendered whole frac g2 g3 ++ after /\
    g1 = whole ++ "." ++ frac /\
    is_number whole = true /\ is_number frac = true /\
    is_number g2 = true /\ is_number g3 = true.
Proof.
  unfold match_here.
  destruct (span_digits s) as [whole r0] eqn:H0.
  destruct (is_empty whole) eqn:Ew; [discriminate |].
  destruct (eat "." r0) as [r1 |] eqn:E1; [| discriminate].
  destruct (span_digits r1) as [frac r2] eqn:H1.
  destruct (is_empty frac) eqn:Ef; [discriminate |].
  destruct (eat "% (" r2) as [r3 |] eqn:E2; [| discriminate].
  destruct (span_digits r3) as [c r4] eqn:H2.
  destruct (is_empty c) eqn:Ec; [discriminate |].
  destruct (eat "/" r4) as [r5 |] eqn:E3; [| discriminate].
  destruct (span_digits r5) as [t r6] eqn:H3.
  destruct (is_empty t) eqn:Et; [discriminate |].
  destruct (eat ")" r6) as [r7 |] eqn:E4; [| discriminate].
  intros H. injection H as <- <- <-.
  apply span_digits_spec in H0, H1, H2, H3.
  apply eat_spec in E1, E2, E3, E4.
  destruct H0 as (-> & Dw & _), H1 as (-> & Df & _), H2 as (-> & Dc & _), H3 as (-> & Dt & _).
  subst r0 r2 r4 r6.
  exists whole, frac, r7. unfold rendered.
  rewrite !is_number_spec. repeat split; try assumption.
  rewrite !append_assoc. reflexivity.
Qed.

Lemma match_here_complete whole frac c t after :
  is_number whole = true -> is_number frac = true ->
  is_number c = true -> is_number t = true ->
  match_here (rendered whole frac c t ++ after) = Some (whole ++ "." ++ frac, c, t).
Proof.
  rewrite !is_number_spec. intros [Ew Dw] [Ef Df] [Ec Dc] [Et Dt].
  unfold match_here, rendered. rewrite !append_assoc. cbn [append].
  rewrite (span_digits_append whole (String "." _) Dw eq_refl), Ew.
  cbn [eat append]. rewrite Ascii.eqb_refl.
  rewrite (span_digits_append frac (String "%" _) Df eq_refl), Ef.
  cbn [eat append]. rewrite !Ascii.eqb_refl.
  rewrite (span_digits_append c (String "/" _) Dc eq_refl), Ec.
  cbn [eat append]. rewrite Ascii.eqb_refl.
  rewrite (span_digits_append t (String ")" _) Dt eq_refl), Et.
  cbn [eat append]. rewrite Ascii.eqb_refl.
  reflexivity.
Qed.

(** The leftmost match: nothing matches at any earlier place. *)
Lemma re_search_sound line : forall g,
  re_search line = Some g ->
  exists before rest, line = before ++ rest /\ match_here rest = Some g.
Proof.
  induction line as [| a line IH]; intros g H; simpl in H.
  - discriminate.
  - destruct (match_here (String a line)) as [g' |] eqn:Hm.
    + injection H as <-. exists "", (String a line). auto.
    + destruct (IH _ H) as (before & rest & -> & Hr).
      exists (String a before), rest. auto.
Qed.

(** Two ways to cut a text at the first character of some kind are the
    same way. *)
Lemma first_split (P : ascii -> bool) l1 : forall l2 x y r1 r2,
  forallb (fun c => negb (P c)) (chars l1) = true ->
  forallb (fun c => negb (P c)) (chars l2) = true ->
  P x = true -> P y = true ->
  l1 ++ String x r1 = l2 ++ String y r2 ->
  l1 = l2 /\ x = y /\ r1 = r2.
Proof.
  induction l1 as [| a l1 IH]; intros l2 x y r1 r2 H1 H2 Px Py H.
  - destruct l2 as [| b l2]; simpl in H.
    + injection H as -> ->. auto.
    + injection H as -> _. simpl in H2. rewrite Px in H2. discriminate.
  - destruct l2 as [| b l2]; simpl in H.
    + injection H as -> _. simpl in H1. rewrite Py in H1. discriminate.
    + injection H as -> H. simpl in H1, H2.
      apply andb_true_iff in H1, H2. destruct H1 as [_ H1], H2 as [_ H2].
      destruct (IH _ _ _ _ _ H1 H2 Px Py H) as (-> & -> & ->). auto.
Qed.

Lemma digits_not (P : ascii -> bool) s :
  (forall c, is_digit c = true -> P c = false) ->
  forallb is_digit (chars s) = true ->
  forallb (fun c => negb (P c)) (chars s) = true.
Proof.
  intros HP. induction s as [| a s IH]; simpl; [reflexivity |].
  intros H. apply andb_true_iff in H. destruct H as [Ha Hs].
  rewrite (HP _ Ha), (IH Hs). reflexivity.
Qed.

Lemma digit_not_percent c : is_digit c = true -> Ascii.eqb "%" c = false.
Proof.
  destruct (Ascii.eqb_spec "%" c) as [<- | _]; [discriminate | reflexivity].
Qed.

Lemma no_percent_forallb s :
  has_percent s = false -> forallb (fun c => negb (Ascii.eqb "%" c)) (chars s) = true.
Proof.
  unfold has_percent. induction (chars s) as [| a l IH]; simpl; [reflexivity |].
  intros H. apply orb_false_iff in H. destruct H as [-> H]. simpl. exact (IH H).
Qed.

Lemma forallb_chars_append p a b :
  forallb p (chars (a ++ b)) = (forallb p (chars a) && forallb p (chars b))%bool.
Proof.
  rewrite chars_append. apply forallb_app.
Qed.

(** The digits in front of a character that is not one. *)
Lemma digits_split d1 d2 x y r1 r2 :
  forallb is_digit (chars d1) = true -> forallb is_digit (chars d2) = true ->
  is_digit x = false -> is_digit y = false ->
  d1 ++ String x r1 = d2 ++ String y r2 ->
  d1 = d2 /\ x = y /\ r1 = r2.
Proof.
  intros H1 H2 Hx Hy.
  apply (first_split (fun c => negb (is_digit c)));
    try (rewrite ?Hx, ?Hy; reflexivity).
  - apply digits_not; [| exact H1]. intros c ->. reflexivity.
  - apply digits_not; [| exact H2]. intros c ->. reflexivity.
Qed.

(** A match that starts in text without a percent sign in front of a
    coverage cell reads the counts of that cell. *)
Lemma match_here_counts before whole frac c t after g1 g2 g3 :
  has_percent before = false ->
  is_number whole = true -> is_number frac = true ->
  is_number c = true -> is_number t = true ->
  match_here (before ++ rendered whole frac c t ++ after) = Some (g1, g2, g3) ->
  g2 = c /\ g3 = t.
Proof.
  rewrite !is_number_spec. intros Hb [_ Dw] [_ Df] [_ Dc] [_ Dt] H.
  destruct (match_here_sound _ _ _ _ H)
    as (w' & f' & after' & Heq & _ & Nw & Nf & Ng2 & Ng3).
  apply is_number_spec in Nw, Nf, Ng2, Ng3.
  destruct Nw as [_ Dw'], Nf as [_ Df'], Ng2 as [_ D2], Ng3 as [_ D3].
  unfold rendered in Heq. rewrite !append_assoc in Heq.
  assert (Hl : before ++ whole ++ "." ++ frac ++ "% (" ++ c ++ "/" ++ t ++ ")" ++ after
               = (before ++ whole ++ "." ++ frac)
                 ++ String "%" (" (" ++ c ++ "/" ++ t ++ ")" ++ after)).
  { rewrite !append_assoc. reflexivity. }
  assert (Hr : w' ++ "." ++ f' ++ "% (" ++ g2 ++ "/" ++ g3 ++ ")" ++ after'
               = (w' ++ "." ++ f') ++ String "%" (" (" ++ g2 ++ "/" ++ g3 ++ ")" ++ after')).
  { rewrite !append_assoc. reflexivity. }
  rewrite Hl, Hr in Heq.
  apply (first_split (Ascii.eqb "%")) in Heq; try reflexivity.
  - destruct Heq as (_ & _ & Heq). cbn [append] in Heq. injection Heq as Heq.
    apply digits_split in Heq; try assumption; try reflexivity.
    destruct Heq as (-> & _ & Heq).
    apply digits_split in Heq; try assumption; try reflexivity.
    destruct Heq as (-> & _ & _). auto.
  - rewrite !forallb_chars_append, (no_percent_forallb _ Hb).
    rewrite (digits_not _ _ digit_not_percent Dw), (digits_not _ _ digit_not_percent Df).
    reflexivity.
  - rewrite !forallb_chars_append.
    rewrite (digits_not _ _ digit_not_percent Dw'), (digits_not _ _ digit_not_percent Df').
    reflexivity.
Qed.

Lemma re_search_counts before : forall whole frac c t after,
  has_percent before = false ->
  is_number whole = true -> is_number frac = true ->
  is_number c = true -> is_number t = true ->
  exists g1, re_search (before ++ rendered whole frac c t ++ after) = Some (g1, c, t).
Proof.
  induction before as [| a before IH]; intros whole frac c t after Hb Nw Nf Nc Nt.
  - cbn [append].
    assert (Hm := match_here_complete whole frac c t after Nw Nf Nc Nt).
    destruct (rendered whole frac c t ++ after) as [| x s];
      [cbn in Hm; discriminate | cbn [re_search]; rewrite Hm; eauto].
  - cbn [append re_search].
    destruct (match_here (String a (before ++ rendered whole frac c t ++ after)))
      as [[[g1 g2] g3] |] eqn:Hm.
    + change (String a (before ++ rendered whole frac c t ++ after))
        with (String a before ++ rendered whole frac c t ++ after) in Hm.
      destruct (match_here_counts _ _ _ _ _ _ _ _ _ Hb Nw Nf Nc Nt Hm) as [-> ->].
      eauto.
    + apply IH; try assumption.
      unfold has_percent in *. simpl in Hb. apply orb_false_iff in Hb. tauto.
Qed.

End PatternFacts.

Module ScanFacts.
Import PyStr CalculateSrcCoverage Spec More TextFacts CoverageFacts PatternFacts.
Local Open Scope string_scope.

Local Abbreviation chars := list_ascii_of_string.

Lemma split_lines_cons s : exists l ls, split_lines s = l :: ls.
Proof.
  induction s as [| c s [l [ls IH]]]; simpl; [eauto |].
  destruct (Ascii.eqb c LF); [eauto |]. rewrite IH. eauto.
Qed.

(** [split] on two texts joined by a line feed. *)
Lemma split_lines_app s1 s2 :
  split_lines (s1 ++ String LF s2) = (split_lines s1 ++ split_lines s2)%list.
Proof.
  induction s1 as [| c s1 IH]; cbn [append split_lines].
  - rewrite Ascii.eqb_refl. reflexivity.
  - destruct (Ascii.eqb c LF); [rewrite IH; reflexivity |].
    rewrite IH. destruct (split_lines_cons s1) as (l & ls & ->). reflexivity.
Qed.

Lemma matched_lines_app l1 l2 :
  matched_lines (l1 ++ l2) = (matched_lines l1 ++ matched_lines l2)%list.
Proof.
  unfold matched_lines. apply flat_map_app.
Qed.

Lemma sumZ_app l1 l2 : sumZ (l1 ++ l2) = sumZ l1 + sumZ l2.
Proof.
  unfold sumZ. induction l1 as [| a l1 IH]; simpl; lia.
Qed.

Lemma coverage_of_nonneg line c t : coverage_of line = Some (c, t) -> 0 <= c /\ 0 <= t.
Proof.
  unfold coverage_of.
  destruct (contains "| src/" line); [| discriminate].
  destruct (re_search line) as [[[g1 g2] g3] |]; [| discriminate].
  intros H. injection H as <- <-. unfold int_of_group. lia.
Qed.

Lemma matched_lines_In lines m :
  In m (matched_lines lines) ->
  In (fst m) lines /\ coverage_of (fst m) = Some (snd m).
Proof.
  unfold matched_lines. rewrite in_flat_map. intros (line & Hin & Hm).
  destruct (coverage_of line) as [ct |] eqn:Hc; [| contradiction].
  destruct Hm as [<- | []]. auto.
Qed.

(** The deficits listed against the deficit of the totals. *)
Lemma missing_sum ms :
  sumZ (map (fun m => snd (snd m)) ms) - sumZ (map (fun m => fst (snd m)) ms)
  <= sumZ (map missing_of (flat_map missing_entry ms)) /\
  (Forall (fun m => fst (snd m) <= snd (snd m)) ms ->
   sumZ (map missing_of (flat_map missing_entry ms))
   = sumZ (map (fun m => snd (snd m)) ms) - sumZ (map (fun m => fst (snd m)) ms)).
Proof.
  induction ms as [| [line [c t]] ms [IH1 IH2]]; [split; reflexivity |].
  cbn [map flat_map fst snd missing_entry]. rewrite map_app, sumZ_app.
  change (sumZ (?a :: ?l)) with (a + sumZ l).
  split.
  - destruct (Z.ltb_spec c t); cbn [map sumZ fold_right missing_of snd]; lia.
  - intros H. inversion H as [| ? ? Hle Hms]; subst. cbn [fst snd] in Hle.
    rewrite (IH2 Hms).
    destruct (Z.ltb_spec c t); cbn [map sumZ fold_right missing_of snd]; lia.
Qed.

Lemma missing_positive ms :
  Forall (fun f => 0 < missing_of f) (flat_map missing_entry ms).
Proof.
  induction ms as [| [line [c t]] ms IH]; [constructor |].
  cbn [flat_map missing_entry]. apply Forall_app. split; [| exact IH].
  destruct (Z.ltb_spec c t); repeat constructor. cbn [missing_of snd]. lia.
Qed.

Lemma positive_sum_nonneg fs :
  Forall (fun f => 0 < missing_of f) fs -> 0 <= sumZ (map missing_of fs).
Proof.
  induction 1; cbn [map sumZ fold_right]; [lia |]. unfold sumZ in *. lia.
Qed.

Lemma positive_sum_zero fs :
  Forall (fun f => 0 < missing_of f) fs -> sumZ (map missing_of fs) = 0 -> fs = [].
Proof.
  intros H. destruct H as [| f fs Hf Hfs]; [reflexivity |].
  cbn [map sumZ fold_right]. pose proof (positive_sum_nonneg fs Hfs).
  unfold sumZ in *. lia.
Qed.

(** What [take_until_bar] takes and where it stops. *)
Lemma take_until_bar_spec s :
  exists after,
    s = take_until_bar s ++ after /\
    has_bar (take_until_bar s) = false /\
    (after = "" \/ exists rest, after = String "|" rest).
Proof.
  induction s as [| c s (after & Hs & Hb & Ha)]; cbn [take_until_bar].
  - exists "". auto.
  - destruct (Ascii.eqb_spec c "|") as [-> | Hne].
    + exists (String "|" s). repeat split. eauto.
    + exists after. cbn [append]. rewrite <- Hs. repeat split; [| exact Ha].
      unfold has_bar in *. cbn [list_ascii_of_string existsb]. rewrite Hb.
      destruct (Ascii.eqb_spec "|" c) as [<- | _]; [contradiction | reflexivity].
Qed.

Lemma filename_search_sound f : forall name,
  filename_search f = Some name ->
  exists before rest after,
    f = before ++ name ++ after /\
    name = "src/" ++ rest /\
    is_empty rest = false /\ has_bar rest = false /\
    (after = "" \/ exists more, after = String "|" more).
Proof.
  induction f as [| a f IH]; intros name H.
  - cbn in H. discriminate.
  - cbn [filename_search] in H.
    destruct (eat "src/" (String a f)) as [r |] eqn:He.
    + destruct (is_empty (take_until_bar r)) eqn:Hempty.
      * destruct (IH _ H) as (before & rest & after & -> & Hn & Hr).
        exists (String a before), rest, after. auto.
      * injection H as <-. apply eat_spec in He.
        destruct (take_until_bar_spec r) as (after & Hr & Hb & Ha).
        exists "", (take_until_bar r), after. repeat split; try assumption.
        rewrite He. cbn [append]. rewrite <- Hr. reflexivity.
    + destruct (IH _ H) as (before & rest & after & -> & Hn & Hr).
      exists (String a before), rest, after. auto.
Qed.

End ScanFacts.

(** ** More about what is printed *)

Module FormatFacts.
Import PyDecimal PyStr PrepareAirdropCsv Spec More.
Import DecimalFacts SumFacts ScaleFacts AirdropLoop ReportFacts AmountFacts.

Lemma even_of_N n : Z.even (Z.of_N n) = N.even n.
Proof.
  destruct n as [| [p | p |]]; reflexivity.
Qed.

Lemma round_half_even_one : round_half_even 1 1 = -1.
Proof. reflexivity. Qed.

(** [:.Nf] rounds to the nearest, ties to even, and keeps the sign. *)
Lemma format_f_rounded places s c e :
  rounded_to places (Fin s c e) (format_f places (Fin s c e)).
Proof.
  unfold format_f, rescale.
  destruct (N.eqb_spec c 0) as [-> | Hc].
  - cbn [rounded_to]. split; [reflexivity |]. split; [reflexivity |].
    destruct (- places <=? e); [reflexivity |]. cbv zeta.
    change (Z.of_N 0) with 0. rewrite Z.mul_0_l. cbn [Z.sub Z.opp Z.add Z.abs Z.mul].
    split; [apply Z.pow_nonneg; lia | reflexivity].
  - rewrite Z.geb_leb.
    destruct (Z.leb_spec (- places) e) as [Hle | Hlt].
    + cbn [rounded_to]. split; [reflexivity |]. split; [reflexivity |].
      destruct (Z.leb_spec (- places) e); [| lia].
      rewrite N2Z.inj_mul, pow10_Z, Z2N.id by lia. f_equal. f_equal. lia.
    + assert (Hunit : 0 < 10 ^ (- places - e)) by (apply Z.pow_pos_nonneg; lia).
      assert (Hpos : 0 < Z.of_N c) by lia.
      pose proof (ndigits_spec c Hpos) as [_ Hhi].
      pose proof (ndigits_pos c) as Hnd.
      destruct (Z.ltb_spec (ndigits c + e - - places) 0) as [Hsmall | Hbig].
      * replace (- places - (- places - 1)) with 1 by lia.
        change (Z.to_N 1) with 1%N. cbn [pick_rounding_function].
        rewrite round_half_even_one.
        change (-1 =? 1) with false. change (1 / pow10 1)%N with 0%N.
        cbn [rounded_to]. split; [reflexivity |]. split; [reflexivity |].
        destruct (Z.leb_spec (- places) e); [lia |]. cbv zeta.
        change (Z.of_N 0) with 0. rewrite Z.mul_0_l, Z.sub_0_r.
        assert (Hten : 10 * 10 ^ ndigits c <= 10 ^ (- places - e)).
        { replace (- places - e) with (1 + (- places - e - 1)) by lia.
          rewrite Z.pow_add_r by lia. change (10 ^ 1) with 10.
          apply Z.mul_le_mono_nonneg_l; [lia |].
          apply Z.pow_le_mono_r; lia. }
        rewrite Z.abs_eq by lia. split; [lia |]. intros Heq. lia.
      * set (drop := Z.to_N (- places - e)).
        assert (HD : Z.of_N (pow10 drop) = 10 ^ (- places - e)).
        { rewrite pow10_Z. unfold drop. rewrite Z2N.id by lia. reflexivity. }
        assert (HDpos : (pow10 drop <> 0)%N) by lia.
        pose proof (N.div_mod c (pow10 drop) HDpos) as Hdm.
        pose proof (N.mod_lt c (pow10 drop) HDpos) as Hr.
        set (q := (c / pow10 drop)%N) in *. set (r := (c mod pow10 drop)%N) in *.
        assert (HcZ : Z.of_N c = Z.of_N q * 10 ^ (- places - e) + Z.of_N r).
        { rewrite <- HD, <- N2Z.inj_mul, <- N2Z.inj_add. f_equal. lia. }
        assert (HrZ : 0 <= Z.of_N r < 10 ^ (- places - e)) by lia.
        cbn [pick_rounding_function]. unfold round_half_even, round_half_up.
        fold q r.
        destruct (N.eqb_spec (2 * r) (pow10 drop)) as [Hhalf | Hnot]; cbn [andb].
        -- destruct (N.even q) eqn:Heven.
           ++ change (-1 =? 1) with false.
              cbn [rounded_to]. split; [reflexivity |]. split; [reflexivity |].
              destruct (Z.leb_spec (- places) e); [lia |]. cbv zeta.
              rewrite even_of_N. split; [lia | intros _; exact Heven].
           ++ destruct (N.leb_spec (pow10 drop) (2 * r)); [| lia].
              change (1 =? 1) with true.
              cbn [rounded_to]. split; [reflexivity |]. split; [reflexivity |].
              destruct (Z.leb_spec (- places) e); [lia |]. cbv zeta.
              rewrite N2Z.inj_add. change (Z.of_N 1) with 1.
              split; [lia |]. intros _.
              rewrite Z.add_1_r, Z.even_succ, <- Z.negb_even, even_of_N, Heven.
              reflexivity.
        -- destruct (N.leb_spec (pow10 drop) (2 * r)) as [Hup | Hdown].
           ++ change (1 =? 1) with true.
              cbn [rounded_to]. split; [reflexivity |]. split; [reflexivity |].
              destruct (Z.leb_spec (- places) e); [lia |]. cbv zeta.
              rewrite N2Z.inj_add. change (Z.of_N 1) with 1.
              split; [lia |]. intros Heq. exfalso. apply Hnot. lia.
           ++ assert (Hq : Z.of_N (if (if (r =? 0)%N then 0 else -1) =? 1
                                  then (q + 1)%N else q) = Z.of_N q)
                by (destruct (r =? 0)%N; reflexivity).
              cbn [rounded_to]. split; [reflexivity |]. split; [reflexivity |].
              destruct (Z.leb_spec (- places) e); [lia |]. cbv zeta.
              rewrite Hq. split; [lia |]. intros Heq. exfalso. lia.
Qed.

Lemma fix_finite x r : fix_ x = Ok r -> is_finite x = true -> is_finite r = true.
Proof.
  destruct x as [s c e | |]; try discriminate. intros H _.
  destruct (fix_sign _ _ _ _ H) as (c' & e' & -> & _). reflexivity.
Qed.

Lemma add_finite x y r :
  add x y = Ok r -> is_finite x = true -> is_finite y = true -> is_finite r = true.
Proof.
  destruct x as [s1 c1 e1 | |]; try discriminate.
  destruct y as [s2 c2 e2 | |]; try discriminate.
  cbn [add check_nans]. intros H _ _. exact (fix_finite _ _ H eq_refl).
Qed.

Lemma sum_dec_finite l : forall acc t,
  sum_dec acc l = Ok t -> is_finite acc = true ->
  Forall (fun a => is_finite a = true) l -> is_finite t = true.
Proof.
  induction l as [| a l IH]; intros acc t H Hacc Hall; cbn [sum_dec] in H.
  - injection H as <-. exact Hacc.
  - inversion Hall as [| ? ? Ha Hl]; subst.
    destruct (add acc a) as [u |] eqn:Hadd; [| discriminate].
    cbn [rbind] in H. exact (IH _ _ H (add_finite _ _ _ Hadd Hacc Ha) Hl).
Qed.

(** An amount that could be scaled is finite. *)
Lemma scaled_is_finite factor a z : scale_amount factor a = Ok z -> is_finite a = true.
Proof.
  intros H. destruct (is_finite a) eqn:Hf; [reflexivity |].
  destruct (scale_not_finite factor a Hf) as [e He]. congruence.
Qed.

Lemma rounded_finite places x :
  is_finite x = true -> rounded_to places x (format_f places x).
Proof.
  destruct x as [s c e | |]; try discriminate. intros _. apply format_f_rounded.
Qed.

End FormatFacts.

(** ** More about the text written *)

Module NumeralFacts.
Import PyStr Spec More TextFacts.
Local Open Scope string_scope.

Local Abbreviation chars := list_ascii_of_string.

Lemma digit_char_spec m :
  (m < 10)%N -> is_digit (digit_char m) = true /\ digit_val (digit_char m) = m.
Proof.
  intros H. destruct m as [| p]; [split; reflexivity |].
  do 4 (destruct p as [p | p |]; try (split; reflexivity); try lia).
Qed.

Lemma str_of_N_fuel_acc fuel : forall n acc,
  str_of_N_fuel fuel n acc = str_of_N_fuel fuel n "" ++ acc.
Proof.
  induction fuel as [| f IH]; intros n acc; cbn [str_of_N_fuel]; [reflexivity |].
  destruct (n <? 10)%N; [reflexivity |].
  rewrite (IH _ (String _ acc)), (IH _ (String _ "")), append_assoc. reflexivity.
Qed.

Lemma N_of_digits_snoc s d :
  N_of_digits (s ++ String d "") = (10 * N_of_digits s + digit_val d)%N.
Proof.
  unfold N_of_digits.
  assert (H : chars (s ++ String d "") = (chars s ++ [d])%list).
  { induction s as [| c s IH]; simpl; [reflexivity | rewrite IH; reflexivity]. }
  rewrite H, fold_left_app. reflexivity.
Qed.

Lemma forallb_snoc p s d :
  forallb p (chars (s ++ String d "")) = (forallb p (chars s) && p d)%bool.
Proof.
  induction s as [| c s IH]; simpl; [rewrite andb_true_r; reflexivity |].
  rewrite IH, andb_assoc. reflexivity.
Qed.

Lemma is_empty_snoc s d : is_empty (s ++ String d "") = false.
Proof. destruct s; reflexivity. Qed.

Lemma str_of_N_fuel_S fuel n acc :
  str_of_N_fuel (S fuel) n acc
  = if (n <? 10)%N then String (digit_char (n mod 10)) acc
    else str_of_N_fuel fuel (n / 10)%N (String (digit_char (n mod 10)) acc).
Proof. reflexivity. Qed.

(** With enough fuel the digits are those of the number. *)
Lemma str_of_N_fuel_digits fuel : forall n,
  (n < 2 ^ N.of_nat fuel)%N ->
  is_number (str_of_N_fuel (S fuel) n "") = true /\
  N_of_digits (str_of_N_fuel (S fuel) n "") = n.
Proof.
  induction fuel as [| f IH]; intros n Hn.
  - assert (n = 0%N) by (simpl in Hn; lia). subst n. split; reflexivity.
  - assert (Hmod : (n mod 10 < 10)%N) by (apply N.mod_lt; discriminate).
    destruct (digit_char_spec _ Hmod) as [Hd Hv].
    rewrite str_of_N_fuel_S.
    destruct (N.ltb_spec n 10) as [Hlt | Hge].
    + unfold is_number, N_of_digits. cbn [is_empty negb andb chars forallb fold_left].
      rewrite Hd, Hv. split; [reflexivity |]. rewrite N.mod_small by exact Hlt. lia.
    + assert (Hdiv : (n / 10 < 2 ^ N.of_nat f)%N).
      { rewrite Nat2N.inj_succ, N.pow_succ_r' in Hn.
        apply N.Div0.div_lt_upper_bound. lia. }
      destruct (IH _ Hdiv) as [Hnum Hval].
      rewrite str_of_N_fuel_acc.
      unfold is_number in *. rewrite is_empty_snoc, forallb_snoc, N_of_digits_snoc.
      apply andb_true_iff in Hnum. destruct Hnum as [_ Hdigits].
      rewrite Hdigits, Hd, Hv, Hval. split; [reflexivity |].
      pose proof (N.div_mod n 10 ltac:(discriminate)). lia.
Qed.

Lemma str_of_N_digits n :
  is_number (str_of_N n) = true /\ N_of_digits (str_of_N n) = n.
Proof.
  apply str_of_N_fuel_digits. rewrite N2Nat.id. apply N.size_gt.
Qed.

End NumeralFacts.

(** ** What the coverage script lists can be printed

    The entries of [files] come from groups of digits that [int] accepted,
    so the [print] of line 37 stays within the limit of the conversion to
    text and divides by a total that is not 0. *)

Module ListingFacts.
Import PyStr CalculateSrcCoverage Spec More TextFacts CoverageFacts PatternFacts ScanFacts.
Local Open Scope string_scope.

Local Abbreviation chars := list_ascii_of_string.

Lemma digit_val_bound c : is_digit c = true -> (digit_val c <= 9)%N.
Proof.
  unfold is_digit, digit_val. rewrite andb_true_iff, !N.leb_le. lia.
Qed.

Lemma fold_digits_bound l : forall acc,
  forallb is_digit l = true ->
  (fold_left (fun acc c => 10 * acc + digit_val c) l acc + 1
   <= (acc + 1) * 10 ^ N.of_nat (List.length l))%N.
Proof.
  induction l as [| c l IH]; intros acc H; cbn [fold_left List.length forallb] in *.
  - change (10 ^ N.of_nat 0)%N with 1%N. lia.
  - apply andb_true_iff in H. destruct H as [Hc Hl].
    pose proof (digit_val_bound c Hc) as Hd.
    specialize (IH (10 * acc + digit_val c)%N Hl).
    rewrite Nat2N.inj_succ, N.pow_succ_r'.
    assert (0 < 10 ^ N.of_nat (List.length l))%N
      by (apply N.neq_0_lt_0, N.pow_nonzero; discriminate).
    nia.
Qed.

Lemma chars_length s : List.length (chars s) = String.length s.
Proof. induction s as [| c s IH]; simpl; [reflexivity | rewrite IH; reflexivity]. Qed.

(** A group of digits short enough for [int] stands for a number that can
    be printed back. *)
Lemma int_of_group_bound g :
  is_number g = true -> too_long g = false ->
  0 <= int_of_group g < 10 ^ int_max_str_digits.
Proof.
  intros Hn Hlen. apply is_number_spec in Hn. destruct Hn as [_ Hd].
  unfold too_long in Hlen. apply Z.ltb_ge in Hlen.
  unfold int_of_group, N_of_digits. split; [lia |].
  pose proof (fold_digits_bound (chars g) 0%N Hd) as H.
  rewrite chars_length, N.add_0_l, N.mul_1_l in H.
  assert (Hpow : Z.of_N (10 ^ N.of_nat (String.length g)) <= 10 ^ int_max_str_digits).
  { rewrite N2Z.inj_pow, nat_N_Z. apply Z.pow_le_mono_r; lia. }
  lia.
Qed.

(** What the loop lists can be printed: the counts of an entry are below
    the limit of the conversion to text, the total of the entry is not 0,
    and the quotient [c/t] is below 1. *)
Lemma listed_entries_printable stdout a :
  for_lines (split_lines stdout) (mkAcc 0 0 []) = Ok a ->
  Forall (fun f => let '(name, c, t, m) := f in
                   0 <= c < t /\ t < 10 ^ int_max_str_digits /\ m = t - c)
         (files a).
Proof.
  intros Hloop. pose proof (for_lines_scan _ _ Hloop) as ->.
  rewrite for_lines_spec in Hloop.
  destruct (existsb line_raises (split_lines stdout)) eqn:Hr; [discriminate |]. clear Hloop.
  destruct (scan_spec stdout) as (_ & _ & ->).
  apply Forall_forall. intros [[[name c] t] m] Hin.
  apply in_flat_map in Hin. destruct Hin as ([line [c' t']] & Hm & Hin).
  apply matched_lines_In in Hm. cbn [fst snd] in Hm. destruct Hm as [Hline Hcov].
  unfold missing_entry in Hin.
  destruct (Z.ltb_spec c' t') as [Hlt |]; [| contradiction].
  destruct Hin as [Heq | []]. injection Heq as <- <- <- <-.
  assert (Hnr : line_raises line = false).
  { destruct (line_raises line) eqn:Hl; [| reflexivity].
    assert (existsb line_raises (split_lines stdout) = true)
      by (apply existsb_exists; exists line; auto).
    congruence. }
  unfold coverage_of in Hcov. unfold line_raises in Hnr.
  destruct (contains "| src/" line); [| discriminate].
  destruct (re_search line) as [[[g1 g2] g3] |] eqn:Hre; [| discriminate].
  injection Hcov as <- <-. apply orb_false_iff in Hnr. destruct Hnr as [H2 H3].
  destruct (re_search_sound _ _ Hre) as (before & rest & _ & Hmatch).
  destruct (match_here_sound _ _ _ _ Hmatch) as (w & f & after & _ & _ & _ & _ & N2 & N3).
  pose proof (int_of_group_bound g2 N2 H2). pose proof (int_of_group_bound g3 N3 H3).
  repeat split; lia.
Qed.

End ListingFacts.

(** * The properties of the specification *)

Import PyDecimal PyStr PrepareAirdropCsv Spec.
Import DecimalFacts SumFacts ScaleFacts AirdropLoop TextFacts ReportFacts.
Import MainFacts CoverageFacts.
Local Open Scope string_scope.

(** C1 (amended).  For an amount of at most 28 significant digits (a
    coefficient below 10^28 followed by zeros) whose exponent is within
    the range of the context, and fetched decimals [d >= 0], the scaled
    amount is exactly [amount * 10^d] rounded toward zero, never up in
    magnitude; for an amount that is not negative this is
    [floor(amount * 10^d)].  1.999995 with 5 decimals gives 199999. *)
Theorem scaled_amount_truncates :
  forall (Decimal_of_float_pow10 : Z -> result Decimal)
         (s : bool) (c z : N) (e d : Z) (factor : Decimal),
    0 <= d ->
    ten_pow Decimal_of_float_pow10 d = Ok factor ->
    Z.of_N c < 10 ^ 28 ->
    Etiny <= e ->
    ndigits (c * pow10 z) + e + d <= Emax + 1 ->
    let amount := Fin s (c * pow10 z) e in
    scale_amount factor amount = Ok (Qtrunc (value amount * inject_Z (10 ^ d))) /\
    (s = false ->
     scale_amount factor amount = Ok (Qfloor (value amount * inject_Z (10 ^ d)))) /\
    scale_amount (of_int (10 ^ 5)) (Fin false 1999995 (-6)) = Ok 199999.
Proof.
  intros fl s c z e d factor Hd Hf Hc He Hmax amount.
  unfold ten_pow in Hf.
  destruct (Z.geb_spec d 0) as [_ | Hneg]; [| lia].
  injection Hf as <-.
  pose proof (scale_truncates s c z e d Hd Hc He Hmax) as Hscale.
  fold amount in Hscale.
  split; [exact Hscale |]. split; [| vm_compute; reflexivity].
  intros ->. rewrite Hscale. f_equal. apply Qtrunc_nonneg.
  apply Qmult_le_0_compat; [apply value_nonneg |].
  change 0%Q with (inject_Z 0). rewrite <- Zle_Qle. apply Z.pow_nonneg. lia.
Qed.

Lemma scaled_amount_truncates_witness :
  DecimalParser.Decimal_of_str "1.999995" = Some (Fin false (1999995 * pow10 0) (-6)) /\
  scale_amount (of_int (10 ^ 5)) (Fin false (1999995 * pow10 0) (-6))
  = Ok (Qfloor (value (Fin false (1999995 * pow10 0) (-6)) * inject_Z (10 ^ 5))).
Proof.
  split; [vm_compute; reflexivity |].
  refine (proj1 (proj2 (scaled_amount_truncates Examples.float_pow10 false 1999995 0 (-6) 5
                          (of_int (10 ^ 5)) _ _ _ _ _)) eq_refl).
  - vm_compute. discriminate.
  - reflexivity.
  - vm_compute. reflexivity.
  - vm_compute. discriminate.
  - vm_compute. discriminate.
Defined.

(** C1 as stated fails in two ways.  A negative amount is rounded toward
    zero, not down: -1.5 with 0 decimals gives -1, and the floor is -2.  An
    amount of 29 significant digits is first rounded half-even to 28 by
    the multiplication: 0.99999999999999999999999999999 with 0 decimals
    gives 1, and the floor is 0. *)
Lemma scaled_amount_is_not_floor :
  DecimalParser.Decimal_of_str "-1.5" = Some (Fin true 15 (-1)) /\
  scale_amount (of_int (10 ^ 0)) (Fin true 15 (-1)) = Ok (-1) /\
  Qfloor (value (Fin true 15 (-1)) * inject_Z (10 ^ 0)) = -2 /\
  DecimalParser.Decimal_of_str "0.99999999999999999999999999999"
  = Some (Fin false 99999999999999999999999999999 (-29)) /\
  scale_amount (of_int (10 ^ 0)) (Fin false 99999999999999999999999999999 (-29)) = Ok 1 /\
  Qfloor (value (Fin false 99999999999999999999999999999 (-29)) * inject_Z (10 ^ 0)) = 0.
Proof. vm_compute. repeat split; reflexivity. Qed.

(** C2 (amended).  The exit status is 0 or 1.  It is 0 exactly when the
    tool ran, the line loop ran to its end (no count of a matched line is
    too long for [int], that is longer than 4300 digits), and either
    nothing was added to the total (total = 0, which includes an output
    where no line matches) or the missing count [total - covered] is 0 and
    the total can be printed (it has at most 4300 digits).  It is 1 in
    every other case: the tool could not be run, a conversion raised, or
    total > 0 and the missing count is not 0. *)
Theorem coverage_exit_status :
  forall tool : result string,
    (snd (CalculateSrcCoverage.main tool) = 0 \/ snd (CalculateSrcCoverage.main tool) = 1) /\
    (snd (CalculateSrcCoverage.main tool) = 0 <->
     exists stdout a,
       tool = Ok stdout /\
       CalculateSrcCoverage.for_lines (split_lines stdout)
         (CalculateSrcCoverage.mkAcc 0 0 []) = Ok a /\
       (CalculateSrcCoverage.total a = 0 \/
        (CalculateSrcCoverage.total a - CalculateSrcCoverage.covered a = 0 /\
         CalculateSrcCoverage.total a < 10 ^ int_max_str_digits))) /\
    (forall stdout,
       tool = Ok stdout -> matched stdout = [] ->
       snd (CalculateSrcCoverage.main tool) = 0).
Proof.
  intros [stdout | e].
  - rewrite exit_status_spec.
    pose proof (for_lines_spec (split_lines stdout) (CalculateSrcCoverage.mkAcc 0 0 []))
      as Hloop.
    fold (CalculateSrcCoverage.scan stdout) in Hloop.
    pose proof (total_nonneg stdout) as Hnn.
    pose proof (exceeds_spec (CalculateSrcCoverage.total (CalculateSrcCoverage.scan stdout)))
      as Hx.
    rewrite Z.abs_eq in Hx by exact Hnn.
    destruct (existsb line_raises (split_lines stdout)) eqn:Hr.
    + split; [auto |]. split.
      * split; [discriminate |]. intros (s & a & Hs & Hl & _).
        injection Hs as <-. congruence.
      * intros s Hs Hnone. injection Hs as <-.
        rewrite (no_match_no_raise _ Hnone) in Hr. discriminate.
    + set (a := CalculateSrcCoverage.scan stdout) in *.
      assert (Hback : forall s a',
                Ok stdout = Ok s ->
                CalculateSrcCoverage.for_lines (split_lines s)
                  (CalculateSrcCoverage.mkAcc 0 0 []) = Ok a' -> a' = a).
      { intros s a' Hs Hl. injection Hs as <-. congruence. }
      destruct (Z.eqb_spec (CalculateSrcCoverage.total a) 0) as [Hz | Hnz]; cbn [orb].
      * split; [auto |]. split; [| reflexivity].
        split; [intros _; exists stdout, a; auto | reflexivity].
      * destruct (Z.eqb_spec (CalculateSrcCoverage.total a - CalculateSrcCoverage.covered a) 0)
          as [Hm | Hnm]; cbn [andb].
        -- destruct (exceeds_int_max_str_digits (CalculateSrcCoverage.total a)) eqn:Hex;
             cbn [negb].
           ++ split; [auto |]. split.
              ** split; [discriminate |]. intros (s & a' & Hs & Hl & Hcase).
                 rewrite (Hback s a' Hs Hl) in Hcase.
                 destruct Hcase as [H0 | [_ Hlt]]; [contradiction |].
                 apply Hx in Hlt. discriminate.
              ** intros s Hs Hnone. injection Hs as <-. exfalso. apply Hnz.
                 unfold a. destruct (scan_spec stdout) as (_ & -> & _).
                 rewrite Hnone. reflexivity.
           ++ split; [auto |]. split.
              ** split; [| reflexivity]. intros _. exists stdout, a.
                 split; [reflexivity |]. split; [exact Hloop |]. right.
                 split; [exact Hm | apply Hx; reflexivity].
              ** reflexivity.
        -- split; [auto |]. split.
           ++ split; [discriminate |]. intros (s & a' & Hs & Hl & Hcase).
              rewrite (Hback s a' Hs Hl) in Hcase. tauto.
           ++ intros s Hs Hnone. injection Hs as <-. exfalso. apply Hnz.
              unfold a. destruct (scan_spec stdout) as (_ & -> & _).
              rewrite Hnone. reflexivity.
  - simpl. split; [auto |]. split.
    + split; [discriminate |]. intros (s & a & Hs & _). discriminate.
    + intros s Hs. discriminate.
Qed.

Lemma coverage_exit_status_witness :
  snd (CalculateSrcCoverage.main (Ok "| src/B.sol | 100.00% (5/5) |")) = 0 /\
  snd (CalculateSrcCoverage.main (Ok "Error: compilation failed")) = 0.
Proof.
  split.
  - apply (proj2 (proj1 (proj2 (coverage_exit_status (Ok "| src/B.sol | 100.00% (5/5) |"))))).
    exists "| src/B.sol | 100.00% (5/5) |",
           (CalculateSrcCoverage.scan "| src/B.sol | 100.00% (5/5) |").
    split; [reflexivity |]. split; [vm_compute; reflexivity |].
    right. split; vm_compute; reflexivity.
  - apply (proj2 (proj2 (coverage_exit_status (Ok "Error: compilation failed")))
             "Error: compilation failed" eq_refl).
    vm_compute. reflexivity.
Defined.

(** C2 as stated fails: when no line of the tool output matches, the
    total is 0, the script runs off its end and the exit status is 0. *)
Lemma unparseable_output_exits_zero :
  matched "Error: compilation failed" = [] /\
  CalculateSrcCoverage.total (CalculateSrcCoverage.scan "Error: compilation failed") = 0 /\
  CalculateSrcCoverage.main (Ok "Error: compilation failed")
  = ([CalculateSrcCoverage.PHeader], 0).
Proof. vm_compute. repeat split; reflexivity. Qed.

(** C3 (amended).  Whatever the outcome of [prepare_csv], what it has
    written is the records of kept rows only (scaled amount at least
    [min_scaled]), so a row below the threshold is never written.  When the
    summary is printed, the dust total is the [Decimal] sum of the original
    amounts of the dust rows in input order, formatted to 10 places; it is
    their exact sum whenever that sum needs no rounding, that is when the
    amounts are multiples of some 10^-k whose absolute values, in units of
    10^-k, add up to less than 10^28. *)
Theorem dust_rows_excluded_and_totalled :
  forall (Decimal_of_str : string -> option Decimal)
         (Decimal_of_float_pow10 : Z -> result Decimal)
         (reader : list (list string)) (decimals : Z) (min_amount : option Decimal)
         (written : list string) (r : result report),
    prepare_csv Decimal_of_str Decimal_of_float_pow10 reader decimals min_amount
    = (Some written, r) ->
    exists factor min_scaled,
      scaling Decimal_of_float_pow10 decimals (min_amount_or_default min_amount)
      = Ok (factor, min_scaled) /\
      (exists done rest,
         reader = (done ++ rest)%list /\
         written = map (line_of factor) (kept_rows Decimal_of_str factor min_scaled done)) /\
      (forall rep, r = Ok rep ->
         let dust := amounts (dust_rows Decimal_of_str factor min_scaled reader) in
         (exists t, sum_dec zero dust = Ok t /\ rep_dust_tokens rep = format_f 10 t) /\
         (forall k, fits k dust = true ->
            rep_dust_tokens rep = format_f 10 (exact_sum dust) /\
            (value (exact_sum dust) == Qsum dust)%Q)).
Proof.
  intros parse fl reader d m written r H.
  destruct (prepare_csv_inv _ _ _ _ _ _ _ H)
    as (factor & min_scaled & st & r' & Hs & Hrun & Hw & Hrep).
  exists factor, min_scaled. split; [exact Hs |]. split.
  - destruct (for_rows_written _ _ _ _ _ _ _ Hrun) as (done & rest & Hsplit & Hout & _).
    exists done, rest. split; [exact Hsplit |]. rewrite Hw, Hout. reflexivity.
  - intros rep Hr. destruct (Hrep rep Hr) as [-> ->].
    destruct (for_rows_completed _ _ _ _ _ _ Hrun) as (_ & _ & _ & _ & Hdust & _).
    cbn [rep_dust_tokens]. cbv zeta. split.
    + exists (dust_total st). split; [exact Hdust | reflexivity].
    + intros k Hk. unfold amounts, dust_rows in *.
      pose proof (fits_sum_dec k _ Hk) as Hexact.
      change (dust_total initial) with zero in Hdust.
      rewrite Hexact in Hdust. injection Hdust as <-.
      split; [reflexivity |].
      apply (value_exact_sum k).
      unfold fits in Hk. rewrite !andb_true_iff in Hk. tauto.
Qed.

Lemma dust_rows_excluded_and_totalled_witness :
  let dust :=
    amounts (dust_rows DecimalParser.Decimal_of_str (of_int (10 ^ 5)) 1 Examples.input_rows) in
  fits 6 dust = true /\
  rep_dust_tokens
    (mkReport 5 default_min_amount 2 2 (Fin false 30000 (-10))
       (Fin false 4499998 (-6)) (Fin false 30000 (-10)) (Ok (Fin false 4499990 (-6))))
  = format_f 10 (exact_sum dust).
Proof.
  assert (Hrun : prepare_csv DecimalParser.Decimal_of_str Examples.float_pow10
                   Examples.input_rows 5 None
                 = (Some ["0xA,199999" ++ newline; "0xE,250000" ++ newline],
                    Ok (mkReport 5 default_min_amount 2 2 (Fin false 30000 (-10))
                          (Fin false 4499998 (-6)) (Fin false 30000 (-10))
                          (Ok (Fin false 4499990 (-6))))))
    by (vm_compute; reflexivity).
  destruct (dust_rows_excluded_and_totalled _ _ _ _ _ _ _ Hrun)
    as (factor & min_scaled & Hs & _ & Hrep).
  vm_compute in Hs. injection Hs as <- <-.
  assert (Hfits : fits 6 (amounts (dust_rows DecimalParser.Decimal_of_str
                                     (of_int (10 ^ 5)) 1 Examples.input_rows)) = true)
    by (vm_compute; reflexivity).
  split; [exact Hfits |].
  exact (proj1 (proj2 (Hrep _ eq_refl) 6 Hfits)).
Defined.

(** C3 as stated fails: two dust rows whose sum has more than 28 digits.
    The accumulated total is rounded to 2.500000000000000000000000000E-10
    and prints as 0.0000000002; the sum of the two amounts prints as
    0.0000000003. *)
Lemma dust_total_differs_from_sum :
  let reader := [["0xA"; "0.00000000025"]; ["0xB"; "1E-40"]] in
  let dust := [Fin false 25 (-11); Fin false 1 (-40)] in
  prepare_csv DecimalParser.Decimal_of_str Examples.float_pow10 reader 18 None
  = (Some [],
     Ok (mkReport 18 default_min_amount 0 2 (Fin false 2 (-10)) (Fin false 0 (-6))
           (Fin false 2 (-10)) (Ok (Fin false 0 (-6))))) /\
  amounts (dust_rows DecimalParser.Decimal_of_str (of_int (10 ^ 18)) (10 ^ 13) reader) = dust /\
  format_f 10 (exact_sum dust) = Fin false 3 (-10).
Proof. vm_compute. repeat split; reflexivity. Qed.

(** C4 (amended).  Once the arguments and RPC_URL are accepted: if the
    request cannot be built or the answer to the [decimals()] call is
    unusable (the request failed, the body is not JSON or not an object, it
    reports an RPC error, it has no result, or the result is not a
    hexadecimal string), the script prints the fetch error and exits with
    status 1, before any file operation.  If the decimals were fetched, no
    answer to the [symbol()] call aborts the run: the run goes on to
    [prepare_csv] with the exit status of that call (unless the number of
    decimals itself cannot be printed, which ends the run like a fetch
    error).  The symbol printed is "UNKNOWN" when the answer is unusable in
    one of the ways [symbol_failure] lists: the request failed, the body
    is not JSON or not an object, it reports an RPC error, it has no
    result or an empty one, the result is not a string or is shorter than
    two 32-byte words, or the length word, the hexadecimal digits or the
    UTF-8 text do not decode.  Every other answer is decoded, and a
    payload shorter than its length word asks for is not a failure: the
    symbol is then the part that is there. *)
Theorem fetch_failures :
  forall (Decimal_of_str : string -> option Decimal)
         (Decimal_of_float_pow10 : Z -> result Decimal)
         (int16 : string -> option Z)
         (bytes_fromhex decode_utf8 : string -> option string)
         (Request_raises : string -> bool)
         (urlopen : string -> string -> string -> response)
         (open_read : string -> option (list (list string)))
         (open_write : string -> bool)
         (argv : list string) (rpc_url : string)
         (output_csv : option string) (min_amount : option Decimal),
    (3 <= List.length argv)%nat ->
    parse_options Decimal_of_str (skipn 3 argv) None None = Ok (output_csv, min_amount) ->
    is_empty rpc_url = false ->
    let token := nth 2 argv "" in
    let run :=
      main Decimal_of_str Decimal_of_float_pow10 int16 bytes_fromhex decode_utf8
           Request_raises urlopen open_read open_write argv (Some rpc_url) in
    let symbol_answer := urlopen rpc_url token symbol_selector in
    let symbol := symbol_of_response int16 bytes_fromhex decode_utf8 symbol_answer in
    (Request_raises rpc_url = true ->
     run = ([EPrint (MFetching token); EPrint (MFetchError ValueError)], 1)) /\
    (Request_raises rpc_url = false ->
     decimals_failure int16 (urlopen rpc_url token decimals_selector) ->
     exists e,
       run = ([EPrint (MFetching token); ERequest rpc_url token decimals_selector;
               EPrint (MFetchError e)], 1)) /\
    (forall decimals,
       Request_raises rpc_url = false ->
       decimals_of_response int16 (urlopen rpc_url token decimals_selector) = Ok decimals ->
       (Z.abs decimals < 10 ^ int_max_str_digits ->
        run = (EPrint (MFetching token)
                 :: ERequest rpc_url token decimals_selector
                 :: ERequest rpc_url token symbol_selector
                 :: EPrint (MToken symbol)
                 :: EPrint (MDecimals decimals)
                 :: EPrint MBlank
                 :: fst (prepare_csv_files Decimal_of_str Decimal_of_float_pow10
                           open_read open_write (nth 1 argv "") decimals
                           output_csv min_amount),
               snd (prepare_csv_files Decimal_of_str Decimal_of_float_pow10
                      open_read open_write (nth 1 argv "") decimals
                      output_csv min_amount))) /\
       (10 ^ int_max_str_digits <= Z.abs decimals ->
        run = ([EPrint (MFetching token);
                ERequest rpc_url token decimals_selector;
                ERequest rpc_url token symbol_selector;
                EPrint (MToken symbol);
                EPrint (MFetchError ValueError)], 1))) /\
    (symbol_failure int16 bytes_fromhex decode_utf8 symbol_answer -> symbol = UNKNOWN) /\
    (symbol_failure int16 bytes_fromhex decode_utf8 symbol_answer \/
     exists text,
       symbol_decoded int16 bytes_fromhex decode_utf8 symbol_answer text /\
       symbol = strip_nul text).
Proof.
  intros parse fl int16 fromhex decode req urlopen rd wr argv u o m Hlen Hopt Hu
         token run symbol_answer symbol.
  split; [| split; [| split; [| split]]].
  - intros Hreq. unfold run.
    rewrite (main_decimals_raise parse fl int16 fromhex decode req urlopen rd wr
               argv u o m ValueError Hlen Hopt Hu);
      unfold get_token_decimals; rewrite Hreq; reflexivity.
  - intros Hreq Hfail.
    destruct (decimals_failure_raises int16 _ Hfail) as [e He].
    exists e. unfold run.
    rewrite (main_decimals_raise parse fl int16 fromhex decode req urlopen rd wr
               argv u o m e Hlen Hopt Hu);
      unfold get_token_decimals; rewrite Hreq; [reflexivity | exact He].
  - intros d Hreq Hd. split.
    + intros Hx. apply main_fetched; try assumption. apply exceeds_spec. exact Hx.
    + intros Hx.
      apply (main_decimals_unprintable parse fl int16 fromhex decode req urlopen rd wr
               argv u o m d); try assumption.
      apply Z.leb_le. exact Hx.
  - apply symbol_failure_unknown.
  - apply symbol_cases.
Qed.

Lemma fetch_failures_witness :
  main DecimalParser.Decimal_of_str Examples.float_pow10 Examples.int16
       Examples.bytes_fromhex Examples.decode_utf8 Examples.Request_raises
       Examples.node_without_symbol Examples.open_read Examples.open_write
       Examples.argv (Some "https://rpc")
  = (EPrint (MFetching "0x639E")
       :: ERequest "https://rpc" "0x639E" decimals_selector
       :: ERequest "https://rpc" "0x639E" symbol_selector
       :: EPrint (MToken (symbol_of_response Examples.int16 Examples.bytes_fromhex
                            Examples.decode_utf8 UrlError))
       :: EPrint (MDecimals 18)
       :: EPrint MBlank
       :: fst (prepare_csv_files DecimalParser.Decimal_of_str Examples.float_pow10
                 Examples.open_read Examples.open_write "in.csv" 18 None None),
     snd (prepare_csv_files DecimalParser.Decimal_of_str Examples.float_pow10
            Examples.open_read Examples.open_write "in.csv" 18 None None)) /\
  symbol_of_response Examples.int16 Examples.bytes_fromhex Examples.decode_utf8 UrlError
  = UNKNOWN /\
  exists e,
    main DecimalParser.Decimal_of_str Examples.float_pow10 Examples.int16
         Examples.bytes_fromhex Examples.decode_utf8 Examples.Request_raises
         Examples.node_down Examples.open_read Examples.open_write
         Examples.argv (Some "https://rpc")
    = ([EPrint (MFetching "0x639E"); ERequest "https://rpc" "0x639E" decimals_selector;
        EPrint (MFetchError e)], 1).
Proof.
  assert (Hlen : (3 <= List.length Examples.argv)%nat) by (vm_compute; lia).
  pose proof (fetch_failures DecimalParser.Decimal_of_str Examples.float_pow10
                Examples.int16 Examples.bytes_fromhex Examples.decode_utf8
                Examples.Request_raises Examples.node_without_symbol
                Examples.open_read Examples.open_write
                Examples.argv "https://rpc" None None Hlen eq_refl eq_refl) as Hup.
  pose proof (fetch_failures DecimalParser.Decimal_of_str Examples.float_pow10
                Examples.int16 Examples.bytes_fromhex Examples.decode_utf8
                Examples.Request_raises Examples.node_down
                Examples.open_read Examples.open_write
                Examples.argv "https://rpc" None None Hlen eq_refl eq_refl) as Hdown.
  cbv zeta in Hup, Hdown.
  destruct Hup as (_ & _ & Hup & Hsym & _).
  destruct (Hup 18 eq_refl eq_refl) as [Hrun _].
  destruct Hdown as (_ & Hdown & _).
  split; [apply Hrun; vm_compute; reflexivity |].
  split; [exact (Hsym (sf_network _ _ _)) |].
  exact (Hdown eq_refl (df_network _)).
Defined.

(** C4 as stated fails for a short result: when the payload has the two
    words but fewer bytes than its length word asks for, the symbol is not
    the sentinel.  With 2 of 5 bytes it is "EI", with none it is empty. *)
Lemma truncated_symbol_is_not_unknown :
  symbol_of_response Examples.int16 Examples.bytes_fromhex Examples.decode_utf8
    Examples.truncated_symbol = "EI" /\
  symbol_of_response Examples.int16 Examples.bytes_fromhex Examples.decode_utf8
    Examples.missing_symbol = EmptyString /\
  Examples.int16
    (py_slice (payload ("0x" ++ Examples.word "20" ++ Examples.word "05" ++ "4549")) 64 128)
  = Some 5 /\
  String.length
    (symbol_hex (payload ("0x" ++ Examples.word "20" ++ Examples.word "05" ++ "4549")) 5)
  = 4%nat /\
  UNKNOWN <> "EI" /\ UNKNOWN <> EmptyString.
Proof. vm_compute. repeat split; try reflexivity; discriminate. Qed.

(** C5 (amended).  When no count of a matched line is longer than 4300
    digits, the line loop adds up [covered] and [total] over exactly the
    lines that contain "| src/" and match the percentage pattern, and a
    matched line with [total > covered] is recorded as a missing-coverage
    entry with the deficit [total - covered].  When a count is longer,
    [int] raises ValueError on the first such line and the script ends
    with a traceback and status 1, nothing else printed.  In every case a
    line that does not match leaves every variable as it was.  The two
    lines of the example add up to 13/15, with 2 lines missing and exit
    status 1. *)
Theorem coverage_lines_aggregated :
  forall stdout : string,
    let loop :=
      CalculateSrcCoverage.for_lines (split_lines stdout)
        (CalculateSrcCoverage.mkAcc 0 0 []) in
    (existsb line_raises (split_lines stdout) = false ->
     exists a,
       loop = Ok a /\
       a = CalculateSrcCoverage.scan stdout /\
       CalculateSrcCoverage.covered a = sumZ (map (fun m => fst (snd m)) (matched stdout)) /\
       CalculateSrcCoverage.total a = sumZ (map (fun m => snd (snd m)) (matched stdout)) /\
       CalculateSrcCoverage.files a = flat_map missing_entry (matched stdout)) /\
    (existsb line_raises (split_lines stdout) = true ->
     loop = Raise ValueError /\
     CalculateSrcCoverage.main (Ok stdout)
     = ([CalculateSrcCoverage.PTraceback ValueError], 1)) /\
    (forall a line,
       coverage_of line = None -> CalculateSrcCoverage.loop_body a line = Ok a) /\
    CalculateSrcCoverage.main
      (Ok ("| src/A.sol | 80.00% (8/10) |" ++ newline ++ "| src/B.sol | 100.00% (5/5) |"))
    = ([CalculateSrcCoverage.PHeader;
        CalculateSrcCoverage.PMissing 2 8 10;
        CalculateSrcCoverage.PFile "src/A.sol ";
        CalculateSrcCoverage.PTotal 13 15;
        CalculateSrcCoverage.PMissingTotal 2], 1).
Proof.
  intros stdout loop. destruct (scan_spec stdout) as (Hc & Ht & Hf).
  assert (Hloop := for_lines_spec (split_lines stdout) (CalculateSrcCoverage.mkAcc 0 0 [])).
  fold loop in Hloop. fold (CalculateSrcCoverage.scan stdout) in Hloop.
  split; [| split; [| split]].
  - intros Hno. rewrite Hno in Hloop.
    exists (CalculateSrcCoverage.scan stdout). auto.
  - intros Hyes. rewrite Hyes in Hloop. split; [exact Hloop |].
    unfold CalculateSrcCoverage.main. fold loop. rewrite Hloop. reflexivity.
  - intros a line Hnone. rewrite loop_body_spec, scan_line_spec, Hnone.
    unfold line_raises. unfold coverage_of in Hnone.
    destruct (contains "| src/" line); [| reflexivity].
    destruct (CalculateSrcCoverage.re_search line) as [[[g1 g2] g3] |];
      [discriminate | reflexivity].
  - vm_compute. reflexivity.
Qed.

Lemma coverage_lines_aggregated_witness :
  CalculateSrcCoverage.loop_body (CalculateSrcCoverage.mkAcc 8 10 [])
                                 "| test/C.sol | 10.00% (1/10) |"
  = Ok (CalculateSrcCoverage.mkAcc 8 10 []) /\
  exists a,
    CalculateSrcCoverage.for_lines
      (split_lines ("| src/A.sol | 80.00% (8/10) |" ++ newline
                    ++ "| src/B.sol | 100.00% (5/5) |"))
      (CalculateSrcCoverage.mkAcc 0 0 []) = Ok a /\
    CalculateSrcCoverage.covered a = 13 /\ CalculateSrcCoverage.total a = 15.
Proof.
  split.
  - apply (proj1 (proj2 (proj2 (coverage_lines_aggregated EmptyString)))).
    vm_compute. reflexivity.
  - destruct (proj1 (coverage_lines_aggregated
                       ("| src/A.sol | 80.00% (8/10) |" ++ newline
                        ++ "| src/B.sol | 100.00% (5/5) |")) eq_refl)
      as (a & Hloop & _ & Hc & Ht & _).
    exists a. split; [exact Hloop |]. split; [rewrite Hc | rewrite Ht]; reflexivity.
Defined.

(** C5 as stated fails for a count that [int] does not convert: a line
    that names a file under [src/], matches the pattern and reports 8 of
    a total of 4301 digits is a matched line with [total > covered], and
    nothing is added up or recorded for it, nor for the lines after it:
    the run ends there with ValueError and status 1. *)
Lemma long_count_is_not_aggregated :
  contains "| src/" Examples.long_line = true /\
  CalculateSrcCoverage.re_search Examples.long_line
  = Some ("0.00", "8", Examples.long_count) /\
  String.length Examples.long_count = 4301%nat /\
  (exists t, coverage_of Examples.long_line = Some (8, t) /\ 8 < t) /\
  CalculateSrcCoverage.loop_body (CalculateSrcCoverage.mkAcc 0 0 []) Examples.long_line
  = Raise ValueError /\
  CalculateSrcCoverage.main
    (Ok (Examples.long_line ++ newline ++ "| src/B.sol | 80.00% (8/10) |"))
  = ([CalculateSrcCoverage.PTraceback ValueError], 1).
Proof.
  split; [vm_compute; reflexivity |]. split; [vm_compute; reflexivity |].
  split; [vm_compute; reflexivity |]. split; [| split; vm_compute; reflexivity].
  exists (CalculateSrcCoverage.int_of_group Examples.long_count).
  split; vm_compute; reflexivity.
Qed.

(** C6.  When [prepare_csv] prints its summary, the recipient count plus
    the dust count is the number of syntactically valid rows of the input
    (at least two columns and an amount that [Decimal] accepts): the first
    count is the number of kept rows, the second the number of dust rows,
    and skipped rows are in neither. *)
Theorem counts_cover_valid_rows :
  forall (Decimal_of_str : string -> option Decimal)
         (Decimal_of_float_pow10 : Z -> result Decimal)
         (reader : list (list string)) (decimals : Z) (min_amount : option Decimal)
         (written : option (list string)) (rep : report),
    prepare_csv Decimal_of_str Decimal_of_float_pow10 reader decimals min_amount
    = (written, Ok rep) ->
    rep_recipients rep + rep_dust_removed rep
    = Z.of_nat (List.length (valid_rows Decimal_of_str reader)) /\
    exists factor min_scaled,
      scaling Decimal_of_float_pow10 decimals (min_amount_or_default min_amount)
      = Ok (factor, min_scaled) /\
      rep_recipients rep
      = Z.of_nat (List.length (kept_rows Decimal_of_str factor min_scaled reader)) /\
      rep_dust_removed rep
      = Z.of_nat (List.length (dust_rows Decimal_of_str factor min_scaled reader)).
Proof.
  intros parse fl reader d m written rep H.
  destruct (prepare_csv_written _ _ _ _ _ _ _ H (ex_intro _ rep eq_refl)) as [w ->].
  destruct (prepare_csv_inv _ _ _ _ _ _ _ H)
    as (factor & min_scaled & st & r' & Hs & Hrun & _ & Hrep).
  destruct (Hrep rep eq_refl) as [-> ->].
  destruct (for_rows_completed _ _ _ _ _ _ Hrun) as (_ & Hc & Hd & _ & _ & Hall).
  cbn [rep_recipients rep_dust_removed].
  assert (Hlen : List.length (valid_rows parse reader)
                 = (List.length (filter (is_kept factor min_scaled) (valid_rows parse reader))
                    + List.length (filter (is_dust factor min_scaled) (valid_rows parse reader)))%nat).
  { clear - Hall. induction Hall as [| e l [He _] _ IH]; [reflexivity |].
    simpl. rewrite He. destruct (is_dust factor min_scaled e); simpl; lia. }
  split.
  - rewrite Hc, Hd, Hlen. simpl. lia.
  - exists factor, min_scaled. split; [exact Hs |]. unfold kept_rows, dust_rows.
    rewrite Hc, Hd. simpl. split; reflexivity.
Qed.

Lemma counts_cover_valid_rows_witness :
  rep_recipients
    (mkReport 5 default_min_amount 2 2 (Fin false 30000 (-10))
       (Fin false 4499998 (-6)) (Fin false 30000 (-10)) (Ok (Fin false 4499990 (-6))))
  + rep_dust_removed
      (mkReport 5 default_min_amount 2 2 (Fin false 30000 (-10))
         (Fin false 4499998 (-6)) (Fin false 30000 (-10)) (Ok (Fin false 4499990 (-6))))
  = Z.of_nat (List.length (valid_rows DecimalParser.Decimal_of_str Examples.input_rows)).
Proof.
  apply (counts_cover_valid_rows DecimalParser.Decimal_of_str Examples.float_pow10
           Examples.input_rows 5 None
           (Some ["0xA,199999" ++ newline; "0xE,250000" ++ newline])).
  vm_compute. reflexivity.
Defined.

(** C7.  A row with fewer than two columns, or whose amount field
    [Decimal] rejects, is skipped without a trace: the loop body leaves
    every variable and the output as they were and goes on, so the whole
    call does what it does on the input without that row. *)
Theorem malformed_row_skipped :
  forall (Decimal_of_str : string -> option Decimal)
         (Decimal_of_float_pow10 : Z -> result Decimal)
         (factor : Decimal) (min_scaled : Z) (row : list string),
    (List.length row < 2)%nat \/ Decimal_of_str (strip (nth 1 row "")) = None ->
    (forall st, loop_body Decimal_of_str factor min_scaled row st = (st, Ok tt)) /\
    (forall before after decimals min_amount,
       prepare_csv Decimal_of_str Decimal_of_float_pow10 (before ++ row :: after)
                   decimals min_amount
       = prepare_csv Decimal_of_str Decimal_of_float_pow10 (before ++ after)
                     decimals min_amount).
Proof.
  intros parse fl factor min_scaled row Hrow.
  assert (Hp : parse_row parse row = None).
  { unfold parse_row. destruct Hrow as [Hlen | Hamt].
    - apply Nat.ltb_lt in Hlen. rewrite Hlen. reflexivity.
    - rewrite Hamt. destruct (List.length row <? 2)%nat; reflexivity. }
  split.
  - intros st. apply loop_body_invalid. exact Hp.
  - intros before after d m. unfold prepare_csv.
    destruct (scaling fl d (min_amount_or_default m)) as [[f ms] | e]; [| reflexivity].
    rewrite (for_rows_skip parse f ms row before after Hp). reflexivity.
Qed.

Lemma malformed_row_skipped_witness :
  prepare_csv DecimalParser.Decimal_of_str Examples.float_pow10
    ([["0xA"; "1.999995"]] ++ ["0xB"; "not a number"] :: [["0xE"; "2.5"; "note"]]) 5 None
  = prepare_csv DecimalParser.Decimal_of_str Examples.float_pow10
      ([["0xA"; "1.999995"]] ++ [["0xE"; "2.5"; "note"]]) 5 None.
Proof.
  apply (malformed_row_skipped DecimalParser.Decimal_of_str Examples.float_pow10
           (Fin false 1 0) 0 ["0xB"; "not a number"]).
  right. vm_compute. reflexivity.
Defined.



(** C9 (amended).  The output file of [prepare_csv] holds one record
    [address,scaledAmount] followed by a line feed for each row whose
    record was written, in the order of the input, and nothing else.  When
    the row loop runs to its end these rows are all the kept rows of the
    input.  When the loop raises, they are the kept rows before the
    failing row, followed by the failing row itself exactly when the
    exception is the one of [total += Decimal(amount_int)], raised after
    the [write]; the rows after the failing one are not gone through.
    When no address written contains a line feed, the records are exactly
    the lines of the file. *)
Theorem kept_rows_written_in_order :
  forall (Decimal_of_str : string -> option Decimal)
         (Decimal_of_float_pow10 : Z -> result Decimal)
         (reader : list (list string)) (decimals : Z) (min_amount : option Decimal)
         (written : list string) (r : result report),
    prepare_csv Decimal_of_str Decimal_of_float_pow10 reader decimals min_amount
    = (Some written, r) ->
    exists factor min_scaled done,
      scaling Decimal_of_float_pow10 decimals (min_amount_or_default min_amount)
      = Ok (factor, min_scaled) /\
      written = map (line_of factor) done /\
      (forallb no_line_break done = true ->
       lines_of (file_text written) = Some (map (record_of factor) done)) /\
      ((exists st,
          for_rows Decimal_of_str factor min_scaled reader initial = (st, Ok tt) /\
          r = summary Decimal_of_float_pow10 decimals (min_amount_or_default min_amount) st /\
          done = kept_rows Decimal_of_str factor min_scaled reader) \/
       (exists e before row after st addr a,
          r = Raise e /\
          reader = (before ++ row :: after)%list /\
          for_rows Decimal_of_str factor min_scaled before initial = (st, Ok tt) /\
          parse_row Decimal_of_str row = Some (addr, a) /\
          snd (loop_body Decimal_of_str factor min_scaled row st) = Raise e /\
          done = (kept_rows Decimal_of_str factor min_scaled before
                  ++ written_before_raise factor min_scaled st (addr, a))%list)).
Proof.
  intros parse fl reader d m written r H.
  destruct (prepare_csv_inv _ _ _ _ _ _ _ H)
    as (factor & min_scaled & st & r' & Hs & Hrun & Hw & _).
  rewrite (prepare_csv_outcome parse fl reader d m factor min_scaled Hs), Hrun in H.
  assert (Hlines : forall done,
            written = map (line_of factor) done ->
            forallb no_line_break done = true ->
            lines_of (file_text written) = Some (map (record_of factor) done)).
  { intros done -> Hlf. apply lines_of_records. exact Hlf. }
  destruct r' as [[] | e].
  - injection H as _ <-.
    destruct (for_rows_completed _ _ _ _ _ _ Hrun) as (Hout & _).
    exists factor, min_scaled, (kept_rows parse factor min_scaled reader).
    assert (Hwritten : written
                       = map (line_of factor) (kept_rows parse factor min_scaled reader))
      by (rewrite Hw, Hout; reflexivity).
    split; [exact Hs |]. split; [exact Hwritten |]. split; [apply Hlines; exact Hwritten |].
    left. exists st. auto.
  - injection H as _ <-.
    destruct (for_rows_raised _ _ _ _ _ _ _ Hrun)
      as (before & row & after & st1 & Hsplit & Hbefore & Hraise).
    destruct (loop_body_raised _ _ _ _ _ _ _ Hraise) as (addr & a & Hp & Hout).
    destruct (for_rows_completed _ _ _ _ _ _ Hbefore) as (Hout1 & _).
    exists factor, min_scaled,
      (kept_rows parse factor min_scaled before
       ++ written_before_raise factor min_scaled st1 (addr, a))%list.
    assert (Hwritten : written
                       = map (line_of factor)
                           (kept_rows parse factor min_scaled before
                            ++ written_before_raise factor min_scaled st1 (addr, a))%list).
    { rewrite Hw, Hout, Hout1, map_app. reflexivity. }
    split; [exact Hs |]. split; [exact Hwritten |]. split; [apply Hlines; exact Hwritten |].
    right. exists e, before, row, after, st1, addr, a.
    rewrite Hraise. repeat split; auto.
Qed.

Lemma kept_rows_written_in_order_witness :
  let kept :=
    kept_rows DecimalParser.Decimal_of_str (of_int (10 ^ 5)) 1 Examples.input_rows in
  ["0xA,199999" ++ newline; "0xE,250000" ++ newline] = map (line_of (of_int (10 ^ 5))) kept /\
  lines_of (file_text ["0xA,199999" ++ newline; "0xE,250000" ++ newline])
  = Some (map (record_of (of_int (10 ^ 5))) kept).
Proof.
  assert (Hrun : prepare_csv DecimalParser.Decimal_of_str Examples.float_pow10
                   Examples.input_rows 5 None
                 = (Some ["0xA,199999" ++ newline; "0xE,250000" ++ newline],
                    Ok (mkReport 5 default_min_amount 2 2 (Fin false 30000 (-10))
                          (Fin false 4499998 (-6)) (Fin false 30000 (-10))
                          (Ok (Fin false 4499990 (-6))))))
    by (vm_compute; reflexivity).
  destruct (kept_rows_written_in_order _ _ _ _ _ _ _ Hrun)
    as (factor & min_scaled & done & Hs & Hwritten & Hlines & Hcase).
  vm_compute in Hs. injection Hs as <- <-.
  destruct Hcase as [(st & _ & _ & Hdone) | (e & before & row & after & st & addr & a & He & _)];
    [| discriminate].
  subst done. split; [exact Hwritten |].
  apply Hlines. vm_compute. reflexivity.
Defined.

(** C9 as stated fails in two ways.  An address with a line feed inside (a
    quoted CSV field) is copied as it is, and its row takes two lines of
    the output.  And a row whose amount is NaN ends the call with an
    exception, so the kept rows after it are not in the output. *)
Lemma kept_row_on_two_lines :
  let address := "0xA" ++ newline ++ "0xB" in
  fst (prepare_csv DecimalParser.Decimal_of_str Examples.float_pow10
         [[address; "1"]] 0 None)
  = Some [address ++ ",1" ++ newline] /\
  lines_of (file_text [address ++ ",1" ++ newline]) = Some ["0xA"; "0xB,1"] /\
  prepare_csv DecimalParser.Decimal_of_str Examples.float_pow10
    [["0xA"; "1"]; ["0xB"; "NaN"]; ["0xC"; "2"]] 0 None
  = (Some ["0xA,1" ++ newline], Raise ValueError) /\
  is_kept (of_int (10 ^ 0)) 0 ("0xC", Fin false 2 0) = true.
Proof. vm_compute. repeat split; reflexivity. Qed.

(** C10 (amended).  When the summary is printed, the original total is the
    [Decimal] sum of the original amounts of all valid rows in input
    order, formatted to 6 places.  Whenever that sum needs no rounding (the
    amounts are multiples of some 10^-k whose absolute values, in units of
    10^-k, add up to less than 10^28) it is the exact sum over all valid
    rows, dust rows included, and equals the sum over the kept rows plus
    the dust total. *)
Theorem original_total_is_sum :
  forall (Decimal_of_str : string -> option Decimal)
         (Decimal_of_float_pow10 : Z -> result Decimal)
         (reader : list (list string)) (decimals : Z) (min_amount : option Decimal)
         (written : option (list string)) (rep : report),
    prepare_csv Decimal_of_str Decimal_of_float_pow10 reader decimals min_amount
    = (written, Ok rep) ->
    exists factor min_scaled,
      scaling Decimal_of_float_pow10 decimals (min_amount_or_default min_amount)
      = Ok (factor, min_scaled) /\
      let all := amounts (valid_rows Decimal_of_str reader) in
      let kept := amounts (kept_rows Decimal_of_str factor min_scaled reader) in
      let dust := amounts (dust_rows Decimal_of_str factor min_scaled reader) in
      (exists t, sum_dec zero all = Ok t /\ rep_original_total rep = format_f 6 t) /\
      (forall k, fits k all = true ->
         rep_original_total rep = format_f 6 (exact_sum all) /\
         rep_dust_tokens rep = format_f 10 (exact_sum dust) /\
         (value (exact_sum all) == Qsum all)%Q /\
         (value (exact_sum all) == Qsum kept + value (exact_sum dust))%Q).
Proof.
  intros parse fl reader d m written rep H.
  destruct (prepare_csv_written _ _ _ _ _ _ _ H (ex_intro _ rep eq_refl)) as [w ->].
  destruct (prepare_csv_inv _ _ _ _ _ _ _ H)
    as (factor & min_scaled & st & r' & Hs & Hrun & _ & Hrep).
  destruct (Hrep rep eq_refl) as [-> ->].
  destruct (for_rows_completed _ _ _ _ _ _ Hrun) as (_ & _ & _ & Hall & Hdust & Hsplit).
  exists factor, min_scaled. split; [exact Hs |].
  cbv zeta. cbn [rep_original_total rep_dust_tokens]. unfold amounts, kept_rows, dust_rows.
  change (total_original initial) with zero in Hall.
  change (dust_total initial) with zero in Hdust.
  split.
  - exists (total_original st). split; [exact Hall | reflexivity].
  - intros k Hk.
    pose proof (fits_filter k (is_dust factor min_scaled) snd _ Hk) as Hkd.
    rewrite (fits_sum_dec k _ Hk) in Hall. injection Hall as <-.
    rewrite (fits_sum_dec k _ Hkd) in Hdust. injection Hdust as <-.
    assert (Hw : forall l, fits k l = true -> forallb (within k) l = true).
    { intros l Hl. unfold fits in Hl. rewrite !andb_true_iff in Hl. tauto. }
    pose proof (value_exact_sum k _ (Hw _ Hk)) as Hvall.
    pose proof (value_exact_sum k _ (Hw _ Hkd)) as Hvdust.
    repeat split; try reflexivity; try exact Hvall.
    rewrite Hvall, Hvdust.
    apply Qsum_split.
    eapply Forall_impl; [| exact Hsplit]. intros e [He _]. exact He.
Qed.

Lemma original_total_is_sum_witness :
  let all := amounts (valid_rows DecimalParser.Decimal_of_str Examples.input_rows) in
  fits 6 all = true /\
  rep_original_total
    (mkReport 5 default_min_amount 2 2 (Fin false 30000 (-10))
       (Fin false 4499998 (-6)) (Fin false 30000 (-10)) (Ok (Fin false 4499990 (-6))))
  = format_f 6 (exact_sum all).
Proof.
  assert (Hrun : prepare_csv DecimalParser.Decimal_of_str Examples.float_pow10
                   Examples.input_rows 5 None
                 = (Some ["0xA,199999" ++ newline; "0xE,250000" ++ newline],
                    Ok (mkReport 5 default_min_amount 2 2 (Fin false 30000 (-10))
                          (Fin false 4499998 (-6)) (Fin false 30000 (-10))
                          (Ok (Fin false 4499990 (-6))))))
    by (vm_compute; reflexivity).
  destruct (original_total_is_sum _ _ _ _ _ _ _ Hrun)
    as (factor & min_scaled & Hs & _ & Hexact).
  assert (Hfits : fits 6 (amounts (valid_rows DecimalParser.Decimal_of_str
                                     Examples.input_rows)) = true)
    by (vm_compute; reflexivity).
  split; [exact Hfits |].
  exact (proj1 (Hexact 6 Hfits)).
Defined.

(** C10 as stated fails: 10^28 and 1 are both kept; their sum has 29
    digits, the accumulated total is rounded back to 10^28, and the
    original total printed is not the sum of the two amounts. *)
Lemma original_total_differs_from_sum :
  let reader := [["0xA"; "10000000000000000000000000000"]; ["0xB"; "1"]] in
  snd (prepare_csv DecimalParser.Decimal_of_str Examples.float_pow10 reader 0 None)
  = Ok (mkReport 0 default_min_amount 2 0 (Fin false 0 (-10))
          (Fin false 10000000000000000000000000000000000 (-6)) (Fin false 0 (-10))
          (Ok (Fin false 10000000000000000000000000000000000 (-6)))) /\
  format_f 6 (exact_sum (amounts (valid_rows DecimalParser.Decimal_of_str reader)))
  = Fin false 10000000000000000000000000001000000 (-6).
Proof. vm_compute. split; reflexivity. Qed.

(** * Further properties of the scripts *)

Import More AmountFacts.

(** X1.  When [prepare_csv] prints its summary, the number of recipients
    it prints is the number of records it wrote to the output file. *)
Theorem recipients_are_records_written :
  forall (Decimal_of_str : string -> option Decimal)
         (Decimal_of_float_pow10 : Z -> result Decimal)
         (reader : list (list string)) (decimals : Z) (min_amount : option Decimal)
         (written : list string) (rep : report),
    prepare_csv Decimal_of_str Decimal_of_float_pow10 reader decimals min_amount
    = (Some written, Ok rep) ->
    rep_recipients rep = Z.of_nat (List.length written).
Proof.
  intros parse fl reader d m written rep H.
  destruct (prepare_csv_inv _ _ _ _ _ _ _ H)
    as (factor & min_scaled & st & r' & Hs & Hrun & Hw & Hrep).
  destruct (Hrep rep eq_refl) as [-> ->].
  destruct (for_rows_completed _ _ _ _ _ _ Hrun) as (Hout & Hc & _).
  cbn [rep_recipients]. rewrite Hc, Hw, Hout. simpl. rewrite length_map. reflexivity.
Qed.

Lemma recipients_are_records_written_witness :
  rep_recipients
    (mkReport 5 default_min_amount 2 2 (Fin false 30000 (-10))
       (Fin false 4499998 (-6)) (Fin false 30000 (-10)) (Ok (Fin false 4499990 (-6))))
  = Z.of_nat (List.length ["0xA,199999" ++ newline; "0xE,250000" ++ newline]).
Proof.
  apply (recipients_are_records_written DecimalParser.Decimal_of_str Examples.float_pow10
           Examples.input_rows 5 None).
  vm_compute. reflexivity.
Defined.

(** X2.  A valid row whose amount is NaN or an infinity ends [prepare_csv]
    with an exception: no summary is printed for an input that has one. *)
Theorem non_finite_amount_raises :
  forall (Decimal_of_str : string -> option Decimal)
         (Decimal_of_float_pow10 : Z -> result Decimal)
         (reader : list (list string)) (decimals : Z) (min_amount : option Decimal)
         (e : string * Decimal) (written : option (list string)) (r : result report),
    In e (valid_rows Decimal_of_str reader) ->
    is_finite (snd e) = false ->
    prepare_csv Decimal_of_str Decimal_of_float_pow10 reader decimals min_amount
    = (written, r) ->
    exists err, r = Raise err.
Proof.
  intros parse fl reader d m e written r Hin Hnf H.
  destruct r as [rep | err]; [| eauto]. exfalso.
  destruct (prepare_csv_written _ _ _ _ _ _ _ H (ex_intro _ rep eq_refl)) as [w ->].
  destruct (prepare_csv_inv _ _ _ _ _ _ _ H)
    as (factor & min_scaled & st & r' & Hs & Hrun & Hw & Hrep).
  destruct (Hrep rep eq_refl) as [-> _].
  destruct (for_rows_completed _ _ _ _ _ _ Hrun) as (_ & _ & _ & _ & _ & Hall).
  rewrite Forall_forall in Hall. destruct (Hall e Hin) as [_ [z Hz]].
  destruct (scale_not_finite factor (snd e) Hnf) as [err Herr]. congruence.
Qed.

Lemma non_finite_amount_raises_witness :
  exists err,
    snd (prepare_csv DecimalParser.Decimal_of_str Examples.float_pow10
           [["0xA"; "1"]; ["0xB"; "NaN"]; ["0xC"; "2"]] 0 None)
    = Raise err.
Proof.
  apply (non_finite_amount_raises DecimalParser.Decimal_of_str Examples.float_pow10
           [["0xA"; "1"]; ["0xB"; "NaN"]; ["0xC"; "2"]] 0 None
           ("0xB", NaN false)
           (fst (prepare_csv DecimalParser.Decimal_of_str Examples.float_pow10
                   [["0xA"; "1"]; ["0xB"; "NaN"]; ["0xC"; "2"]] 0 None))).
  - vm_compute. right. left. reflexivity.
  - reflexivity.
  - apply surjective_pairing.
Defined.

(** X3.  With the default minimum amount (0.00001 tokens) the threshold in
    base units is [10^decimals / 10^5], integer division: 10^(decimals-5)
    from 5 decimals on, and 0 for a token of fewer than 5 decimals. *)
Theorem default_threshold :
  forall (Decimal_of_float_pow10 : Z -> result Decimal) (decimals : Z),
    0 <= decimals <= Emax + 5 ->
    scaling Decimal_of_float_pow10 decimals (min_amount_or_default None)
    = Ok (of_int (10 ^ decimals), 10 ^ decimals / 10 ^ 5) /\
    (decimals < 5 -> 10 ^ decimals / 10 ^ 5 = 0) /\
    (5 <= decimals -> 10 ^ decimals / 10 ^ 5 = 10 ^ (decimals - 5)).
Proof.
  intros fl d Hd. split; [apply default_min_scaled; exact Hd |]. split.
  - intros Hlt. apply Z.div_small. split; [apply Z.pow_nonneg; lia |].
    apply Z.pow_lt_mono_r; lia.
  - intros Hge. replace d with ((d - 5) + 5) at 1 by lia.
    rewrite Z.pow_add_r by lia. apply Z.div_mul. discriminate.
Qed.

Lemma default_threshold_witness :
  scaling Examples.float_pow10 18 (min_amount_or_default None)
  = Ok (of_int (10 ^ 18), 10 ^ 18 / 10 ^ 5) /\
  10 ^ 18 / 10 ^ 5 = 10 ^ (18 - 5) /\
  (scaling Examples.float_pow10 2 (min_amount_or_default None)
   = Ok (of_int (10 ^ 2), 10 ^ 2 / 10 ^ 5) /\ 10 ^ 2 / 10 ^ 5 = 0).
Proof.
  assert (H18 : 0 <= 18 <= Emax + 5) by (vm_compute; split; discriminate).
  assert (H2 : 0 <= 2 <= Emax + 5) by (vm_compute; split; discriminate).
  destruct (default_threshold Examples.float_pow10 18 H18) as (Ha & _ & Hb).
  destruct (default_threshold Examples.float_pow10 2 H2) as (Hc & Hd & _).
  split; [exact Ha |]. split; [apply Hb; vm_compute; discriminate |].
  split; [exact Hc | apply Hd; reflexivity].
Defined.

(** X4.  With a threshold of at least one base unit only finite amounts
    above zero are kept: a zero, a negative amount, NaN and the infinities
    are never written to the output. *)
Theorem positive_threshold_keeps_positive_amounts :
  forall (Decimal_of_str : string -> option Decimal)
         (Decimal_of_float_pow10 : Z -> result Decimal)
         (reader : list (list string)) (decimals : Z) (factor : Decimal)
         (min_scaled : Z),
    0 <= decimals ->
    ten_pow Decimal_of_float_pow10 decimals = Ok factor ->
    0 < min_scaled ->
    Forall (fun e => is_positive (snd e) = true)
           (kept_rows Decimal_of_str factor min_scaled reader).
Proof.
  intros parse fl reader d factor min_scaled Hd Hf Hmin.
  unfold ten_pow in Hf. destruct (Z.geb_spec d 0) as [_ | Hneg]; [| lia].
  injection Hf as <-. rewrite (of_int_pow10 d Hd).
  unfold kept_rows. apply Forall_forall. intros [addr a] Hin.
  apply filter_In in Hin. destruct Hin as [_ Hk].
  unfold is_kept in Hk. cbn [snd] in *.
  destruct (scale_amount _ a) as [z | err] eqn:Hs; [| discriminate].
  apply Z.leb_le in Hk.
  destruct a as [s c e | s | b].
  - destruct (scale_sign _ _ _ _ _ _ _ Hs) as [Hneg Hzero].
    rewrite xorb_false_r in Hneg.
    destruct s; [specialize (Hneg eq_refl); lia |].
    simpl. destruct (N.eqb_spec c 0) as [-> | _]; [| reflexivity].
    specialize (Hzero eq_refl). lia.
  - destruct (scale_not_finite (Fin false (pow10 (Z.to_N d)) 0) (Inf s) eq_refl). congruence.
  - destruct (scale_not_finite (Fin false (pow10 (Z.to_N d)) 0) (NaN b) eq_refl). congruence.
Qed.

Lemma positive_threshold_keeps_positive_amounts_witness :
  Forall (fun e => is_positive (snd e) = true)
         (kept_rows DecimalParser.Decimal_of_str (of_int (10 ^ 5)) 1
            [["0xA"; "1.5"]; ["0xB"; "-2"]; ["0xC"; "0"]]).
Proof.
  apply (positive_threshold_keeps_positive_amounts DecimalParser.Decimal_of_str
           Examples.float_pow10 [["0xA"; "1.5"]; ["0xB"; "-2"]; ["0xC"; "0"]] 5).
  - vm_compute. discriminate.
  - reflexivity.
  - reflexivity.
Defined.

(** X5.  A row whose amount is zero (of either sign, of any exponent) is
    kept exactly when the threshold is not above 0: with the default
    minimum amount and a token of fewer than 5 decimals it is written with
    the amount 0. *)
Theorem zero_amount_kept_iff_threshold_not_positive :
  forall (Decimal_of_float_pow10 : Z -> result Decimal)
         (decimals : Z) (factor : Decimal) (min_scaled : Z)
         (address : string) (sign : bool) (exp : Z),
    0 <= decimals ->
    ten_pow Decimal_of_float_pow10 decimals = Ok factor ->
    scale_amount factor (Fin sign 0 exp) = Ok 0 /\
    is_kept factor min_scaled (address, Fin sign 0 exp) = (min_scaled <=? 0)%Z /\
    line_of factor (address, Fin sign 0 exp) = address ++ ",0" ++ newline.
Proof.
  intros fl d factor min_scaled addr s e Hd Hf.
  unfold ten_pow in Hf. destruct (Z.geb_spec d 0) as [_ | Hneg]; [| lia].
  injection Hf as <-. rewrite (of_int_pow10 d Hd).
  assert (Hs : scale_amount (Fin false (pow10 (Z.to_N d)) 0) (Fin s 0 e) = Ok 0).
  { unfold scale_amount, mul. cbn [check_nans]. rewrite N.mul_0_l.
    unfold fix_. cbn [N.eqb rbind]. rewrite truncate_to_int. f_equal.
    apply int_part_sign. reflexivity. }
  split; [exact Hs |]. split.
  - unfold is_kept. cbn [snd]. rewrite Hs. reflexivity.
  - unfold line_of, scaled_or_zero. cbn [fst snd]. rewrite Hs. reflexivity.
Qed.

Lemma zero_amount_kept_iff_threshold_not_positive_witness :
  is_kept (of_int (10 ^ 2)) 0 ("0xA", Fin true 0 (-3)) = (0 <=? 0)%Z.
Proof.
  apply (zero_amount_kept_iff_threshold_not_positive Examples.float_pow10 2).
  - vm_compute. discriminate.
  - reflexivity.
Defined.

(** X6.  With the default minimum amount and a token of at least 5
    decimals, an amount that is not negative (of at most 28 significant
    digits, exponents in range) is kept exactly when it is at least
    0.00001 tokens. *)
Theorem default_threshold_is_one_hundred_thousandth :
  forall (address : string) (c z : N) (e d : Z),
    5 <= d ->
    Z.of_N c < 10 ^ 28 ->
    Etiny <= e ->
    ndigits (c * pow10 z) + e + d <= Emax + 1 ->
    let amount := Fin false (c * pow10 z) e in
    is_kept (of_int (10 ^ d)) (10 ^ d / 10 ^ 5) (address, amount) = true <->
    (1 <= value amount * inject_Z (10 ^ 5))%Q.
Proof.
  intros addr c z e d Hd Hc He Hmax amount.
  unfold is_kept. cbn [snd]. unfold amount.
  rewrite (scale_truncates false c z e d ltac:(lia) Hc He Hmax). fold amount.
  set (P := 10 ^ (d - 5)).
  assert (HP : 0 < P) by (apply Z.pow_pos_nonneg; lia).
  assert (Hdiv : 10 ^ d / 10 ^ 5 = P).
  { unfold P. replace d with ((d - 5) + 5) at 1 by lia.
    rewrite Z.pow_add_r by lia. apply Z.div_mul. discriminate. }
  assert (Hpow : 10 ^ d = 10 ^ 5 * P).
  { unfold P. rewrite <- Z.pow_add_r by lia. f_equal. lia. }
  rewrite Hdiv, Hpow.
  set (q := (value amount * inject_Z (10 ^ 5))%Q).
  assert (Heq : (value amount * inject_Z (10 ^ 5 * P) == q * inject_Z P)%Q)
    by (unfold q; rewrite inject_Z_mult; ring).
  rewrite (Qtrunc_comp _ _ Heq).
  assert (Hq : (0 <= q * inject_Z P)%Q).
  { apply Qmult_le_0_compat.
    - apply Qmult_le_0_compat; [apply value_nonneg |].
      change 0%Q with (inject_Z 0). rewrite <- Zle_Qle. apply Z.pow_nonneg. lia.
    - change 0%Q with (inject_Z 0). rewrite <- Zle_Qle. lia. }
  rewrite (Qtrunc_nonneg _ Hq), Z.leb_le.
  assert (HPq : (0 < inject_Z P)%Q)
    by (change 0%Q with (inject_Z 0); rewrite <- Zlt_Qlt; exact HP).
  split.
  - intros Hle. apply (proj1 (Qmult_le_r _ _ _ HPq)). rewrite Qmult_1_l.
    apply Qle_trans with (inject_Z (Qfloor (q * inject_Z P))).
    + rewrite <- Zle_Qle. exact Hle.
    + apply Qfloor_le.
  - intros Hle.
    assert (H1 : (inject_Z P <= q * inject_Z P)%Q).
    { apply Qle_trans with (1 * inject_Z P)%Q.
      - rewrite Qmult_1_l. apply Qle_refl.
      - apply (proj2 (Qmult_le_r _ _ _ HPq)). exact Hle. }
    pose proof (Qfloor_resp_le _ _ H1) as H2. rewrite Qfloor_Z in H2. exact H2.
Qed.

Lemma default_threshold_is_one_hundred_thousandth_witness :
  is_kept (of_int (10 ^ 18)) (10 ^ 18 / 10 ^ 5) ("0xA", Fin false (1 * pow10 0) (-5)) = true.
Proof.
  apply (default_threshold_is_one_hundred_thousandth "0xA" 1 0 (-5) 18).
  - vm_compute. discriminate.
  - reflexivity.
  - vm_compute. discriminate.
  - vm_compute. discriminate.
  - vm_compute. discriminate.
Defined.

(** X7.  When the row loop runs to its end, [total] is the [Decimal] sum
    of the scaled amounts of the kept rows in input order; whenever the
    scaled amounts add up to less than 10^28 no addition is rounded and
    [total] stands for exactly the sum of the integers written to the
    output. *)
Theorem total_is_sum_of_scaled_amounts :
  forall (Decimal_of_str : string -> option Decimal)
         (factor : Decimal) (min_scaled : Z)
         (reader : list (list string)) (st : state),
    for_rows Decimal_of_str factor min_scaled reader initial = (st, Ok tt) ->
    let kept := kept_rows Decimal_of_str factor min_scaled reader in
    sum_dec zero (scaled_amounts factor kept) = Ok (total st) /\
    (fits 0 (scaled_amounts factor kept) = true ->
     total st = exact_sum (scaled_amounts factor kept) /\
     (value (total st)
      == inject_Z (sumZ (map (fun e => scaled_or_zero factor (snd e)) kept)))%Q).
Proof.
  intros parse factor min_scaled reader st H kept.
  pose proof (for_rows_total _ _ _ _ _ _ H) as Hsum.
  change (total initial) with zero in Hsum. fold kept in Hsum.
  split; [exact Hsum |].
  intros Hfits. rewrite (fits_sum_dec 0 _ Hfits) in Hsum. injection Hsum as Heq.
  split; [symmetry; exact Heq |].
  rewrite <- Heq, <- Qsum_scaled. apply (value_exact_sum 0).
  unfold fits in Hfits. rewrite !andb_true_iff in Hfits. tauto.
Qed.

Lemma total_is_sum_of_scaled_amounts_witness :
  let kept :=
    kept_rows DecimalParser.Decimal_of_str (of_int (10 ^ 5)) 1 Examples.input_rows in
  fits 0 (scaled_amounts (of_int (10 ^ 5)) kept) = true /\
  Fin false 449999 0 = exact_sum (scaled_amounts (of_int (10 ^ 5)) kept).
Proof.
  assert (Hrun : for_rows DecimalParser.Decimal_of_str (of_int (10 ^ 5)) 1
                   Examples.input_rows initial
                 = (mkState (Fin false 449999 0) (Fin false 4499998 (-6)) 2 2
                      (Fin false 3 (-6))
                      ["0xA,199999" ++ newline; "0xE,250000" ++ newline], Ok tt))
    by (vm_compute; reflexivity).
  destruct (total_is_sum_of_scaled_amounts _ _ _ _ _ Hrun) as [_ Hexact].
  assert (Hfits : fits 0 (scaled_amounts (of_int (10 ^ 5))
                            (kept_rows DecimalParser.Decimal_of_str (of_int (10 ^ 5)) 1
                               Examples.input_rows)) = true)
    by (vm_compute; reflexivity).
  split; [exact Hfits |].
  exact (proj1 (Hexact Hfits)).
Defined.

(** X8. Whatever the arguments, the environment and the node, a run of the
    script sends no request, or the [decimals()] call alone, or the
    [decimals()] call followed by the [symbol()] call: never more than two
    requests, both to the RPC_URL of the environment and to the token
    address of the command line. *)
Theorem at_most_two_requests :
  forall (Decimal_of_str : string -> option Decimal)
         (Decimal_of_float_pow10 : Z -> result Decimal)
         (int16 : string -> option Z)
         (bytes_fromhex decode_utf8 : string -> option string)
         (Request_raises : string -> bool)
         (urlopen : string -> string -> string -> response)
         (open_read : string -> option (list (list string)))
         (open_write : string -> bool)
         (argv : list string) (RPC_URL : option string),
    let run :=
      main Decimal_of_str Decimal_of_float_pow10 int16 bytes_fromhex decode_utf8
           Request_raises urlopen open_read open_write argv RPC_URL in
    let token := nth 2 argv "" in
    requests (fst run) = [] \/
    exists rpc_url,
      RPC_URL = Some rpc_url /\
      (requests (fst run) = [ERequest rpc_url token decimals_selector] \/
       requests (fst run) = [ERequest rpc_url token decimals_selector;
                             ERequest rpc_url token symbol_selector]).
Proof.
  intros ds fl i16 bh du rr uo ordr ow argv env run token.
  destruct (RunFacts.main_cases ds fl i16 bh du rr uo ordr ow argv env)
    as [H | [[e H] | [H | [(u & e & Hu & H) | [(u & e & Hu & [H | [symbol H]])
       | (u & o & m & d & symbol & Hu & Hp & Hd & H)]]]]];
    subst run token; rewrite H; cbn [fst];
    try (left; reflexivity).
  - right. exists u. split; [exact Hu |]. left. reflexivity.
  - right. exists u. split; [exact Hu |]. right. reflexivity.
  - right. exists u. split; [exact Hu |]. right.
    unfold requests. cbn [filter is_rpc].
    fold (requests (fst (prepare_csv_files ds fl ordr ow (nth 1 argv "") d o m))).
    rewrite RunFacts.files_no_request. reflexivity.
Qed.

(** X9. The output file is opened only after everything else went well: if
    a run opens it, then the [decimals()] call gave a number of decimals,
    the threshold could be computed from it, and the input file could be
    opened.  In no other run is an output file created or truncated. *)
Theorem output_opened_last :
  forall (Decimal_of_str : string -> option Decimal)
         (Decimal_of_float_pow10 : Z -> result Decimal)
         (int16 : string -> option Z)
         (bytes_fromhex decode_utf8 : string -> option string)
         (Request_raises : string -> bool)
         (urlopen : string -> string -> string -> response)
         (open_read : string -> option (list (list string)))
         (open_write : string -> bool)
         (argv : list string) (RPC_URL : option string),
    existsb is_open_write
      (fst (main Decimal_of_str Decimal_of_float_pow10 int16 bytes_fromhex decode_utf8
              Request_raises urlopen open_read open_write argv RPC_URL)) = true ->
    exists rpc_url decimals output_csv min_amount scaled rows,
      RPC_URL = Some rpc_url /\
      parse_options Decimal_of_str (skipn 3 argv) None None = Ok (output_csv, min_amount) /\
      decimals_of_response int16 (urlopen rpc_url (nth 2 argv "") decimals_selector)
      = Ok decimals /\
      scaling Decimal_of_float_pow10 decimals (min_amount_or_default min_amount)
      = Ok scaled /\
      open_read (nth 1 argv "") = Some rows.
Proof.
  intros ds fl i16 bh du rr uo ordr ow argv env.
  destruct (RunFacts.main_cases ds fl i16 bh du rr uo ordr ow argv env)
    as [H | [[e H] | [H | [(u & e & Hu & H) | [(u & e & Hu & [H | [symbol H]])
       | (u & o & m & d & symbol & Hu & Hp & Hd & H)]]]]];
    rewrite H; cbn [fst existsb is_open_write orb]; try discriminate.
  intros Hopen. exists u, d, o, m.
  revert Hopen. unfold prepare_csv_files.
  destruct (scaling fl d (min_amount_or_default m)) as [[factor min_scaled] | e];
    [| cbn; discriminate].
  destruct (ordr (nth 1 argv "")) as [rows |]; [| cbn; discriminate].
  intros _. exists (factor, min_scaled), rows. auto.
Qed.

Lemma output_opened_last_witness :
  exists rpc_url decimals output_csv min_amount scaled rows,
    Some "https://rpc" = Some rpc_url /\
    parse_options DecimalParser.Decimal_of_str (skipn 3 Examples.argv) None None
    = Ok (output_csv, min_amount) /\
    decimals_of_response Examples.int16
      (Examples.node rpc_url (nth 2 Examples.argv "") decimals_selector) = Ok decimals /\
    scaling Examples.float_pow10 decimals (min_amount_or_default min_amount) = Ok scaled /\
    Examples.open_read (nth 1 Examples.argv "") = Some rows.
Proof.
  apply (output_opened_last DecimalParser.Decimal_of_str Examples.float_pow10 Examples.int16
           Examples.bytes_fromhex Examples.decode_utf8 Examples.Request_raises
           Examples.node Examples.open_read Examples.open_write
           Examples.argv (Some "https://rpc")).
  vm_compute. reflexivity.
Defined.

(** X10. The exit status of the script is 0 or 1, and it is 0 exactly when
    the whole summary of [prepare_csv] has been printed: every run that
    ends early, at the arguments, at the RPC_URL, at the [decimals()] call,
    at a number of decimals that cannot be printed, at a file, at an
    exception of the loop or at the "Final total" line (a division by
    [Decimal(10 ** decimals)] that raises, after the first lines of the
    summary), exits with status 1. *)
Theorem exit_status_zero_iff_summary :
  forall (Decimal_of_str : string -> option Decimal)
         (Decimal_of_float_pow10 : Z -> result Decimal)
         (int16 : string -> option Z)
         (bytes_fromhex decode_utf8 : string -> option string)
         (Request_raises : string -> bool)
         (urlopen : string -> string -> string -> response)
         (open_read : string -> option (list (list string)))
         (open_write : string -> bool)
         (argv : list string) (RPC_URL : option string),
    let run :=
      main Decimal_of_str Decimal_of_float_pow10 int16 bytes_fromhex decode_utf8
           Request_raises urlopen open_read open_write argv RPC_URL in
    (snd run = 0 \/ snd run = 1) /\
    (snd run = 0 <-> existsb is_summary (fst run) = true) /\
    (forall input output rep,
       In (EPrint (MSummary input output rep)) (fst run) ->
       exists final, rep_final_total rep = Ok final).
Proof.
  intros ds fl i16 bh du rr uo ordr ow argv env run.
  destruct (RunFacts.main_cases ds fl i16 bh du rr uo ordr ow argv env)
    as [H | [[e H] | [H | [(u & e & Hu & H) | [(u & e & Hu & [H | [symbol H]])
       | (u & o & m & d & symbol & Hu & Hp & Hd & H)]]]]];
    subst run; rewrite H; cbn [fst snd existsb is_summary orb];
    try (split; [right; reflexivity |];
         split; [split; discriminate |];
         intros input output rep Hin; cbn [In] in Hin;
         repeat (destruct Hin as [Hin | Hin]; [discriminate |]); contradiction).
  pose proof (RunFacts.summary_has_final ds fl ordr ow (nth 1 argv "") d o m) as Hfinal.
  destruct (RunFacts.prepare_csv_files_cases ds fl ordr ow (nth 1 argv "") d o m)
    as [[e Hf] | [[_ Hf] | [(out & rows & _ & _ & Hf) | [(out & rows & w & r & _ & _ & Hf)
       | (out & rows & w & e & _ & _ & [Hf | [Hf | [r Hf]]])]]]];
    rewrite Hf in *; cbn [fst snd existsb is_summary orb];
    try (split; [right; reflexivity |];
         split; [split; discriminate |];
         intros input output rep Hin; cbn [In] in Hin;
         repeat (destruct Hin as [Hin | Hin]; [discriminate |]); contradiction).
  split; [left; reflexivity |]. split; [split; reflexivity |].
  intros input output rep Hin. apply (Hfinal input output rep).
  cbn [In fst] in Hin |- *. repeat (destruct Hin as [Hin | Hin]; [discriminate |]).
  do 3 right. exact Hin.
Qed.

(** X11. Of the arguments after the token address, as long as none is
    [--min-amount], the last one is the output path and the ones before it
    are dropped without a message; the threshold stays the default. *)
Theorem last_positional_is_output :
  forall (Decimal_of_str : string -> option Decimal)
         (args : list string) (output_csv : option string)
         (min_amount : option Decimal),
    Forall (fun a => a <> "--min-amount") args ->
    args <> [] ->
    parse_options Decimal_of_str args output_csv min_amount
    = Ok (Some (last args ""), min_amount).
Proof.
  intros ds args o m Hall Hne.
  rewrite (RunFacts.parse_options_plain ds args o m Hall).
  destruct args; [contradiction | reflexivity].
Qed.

Lemma last_positional_is_output_witness :
  parse_options DecimalParser.Decimal_of_str ["a.csv"; "b.csv"] None None
  = Ok (Some "b.csv", None).
Proof.
  apply (last_positional_is_output DecimalParser.Decimal_of_str ["a.csv"; "b.csv"] None None).
  - repeat constructor; discriminate.
  - discriminate.
Defined.

(** X12. A [--min-amount] that is followed by another argument takes that
    argument as its value.  If the value is not a decimal number, the
    exception of [Decimal(...)] is not caught: the script ends with a
    traceback and status 1 before it looks at RPC_URL and before any request
    or file operation.  If it is one, it becomes the threshold and the
    arguments after it are read in the same way. *)
Theorem min_amount_option :
  forall (Decimal_of_str : string -> option Decimal)
         (Decimal_of_float_pow10 : Z -> result Decimal)
         (int16 : string -> option Z)
         (bytes_fromhex decode_utf8 : string -> option string)
         (Request_raises : string -> bool)
         (urlopen : string -> string -> string -> response)
         (open_read : string -> option (list (list string)))
         (open_write : string -> bool)
         (prog input token : string) (before rest : list string) (value : string)
         (RPC_URL : option string),
    Forall (fun a => a <> "--min-amount") before ->
    let args := (before ++ "--min-amount" :: value :: rest)%list in
    let output_csv := match before with [] => None | _ => Some (last before "") end in
    match Decimal_of_str value with
    | None =>
        main Decimal_of_str Decimal_of_float_pow10 int16 bytes_fromhex decode_utf8
             Request_raises urlopen open_read open_write
             (prog :: input :: token :: args) RPC_URL
        = ([ETraceback InvalidOperation], 1)
    | Some m =>
        parse_options Decimal_of_str args None None
        = parse_options Decimal_of_str rest output_csv (Some m)
    end.
Proof.
  intros ds fl i16 bh du rr uo ordr ow prog input token before rest v env Hall args out.
  assert (Hp : parse_options ds args None None
               = parse_options ds ("--min-amount" :: v :: rest) out None).
  { subst args out. apply RunFacts.parse_options_app; [exact Hall | discriminate]. }
  cbn [parse_options] in Hp. rewrite String.eqb_refl in Hp.
  destruct (ds v) as [m |] eqn:Hv.
  - exact Hp.
  - unfold main. cbn [List.length Nat.ltb Nat.leb skipn].
    rewrite Hp. reflexivity.
Qed.

Lemma min_amount_option_witness :
  main DecimalParser.Decimal_of_str Examples.float_pow10 Examples.int16
       Examples.bytes_fromhex Examples.decode_utf8 Examples.Request_raises
       Examples.node Examples.open_read Examples.open_write
       ["prepare_airdrop_csv.py"; "in.csv"; "0x639E"; "out.csv"; "--min-amount"; "ten"; "x"]
       None
  = ([ETraceback InvalidOperation], 1).
Proof.
  apply (min_amount_option DecimalParser.Decimal_of_str Examples.float_pow10 Examples.int16
           Examples.bytes_fromhex Examples.decode_utf8 Examples.Request_raises
           Examples.node Examples.open_read Examples.open_write
           "prepare_airdrop_csv.py" "in.csv" "0x639E" ["out.csv"] ["x"] "ten" None).
  repeat constructor; discriminate.
Defined.

(** X13. A [--min-amount] that is the last argument has no value to take:
    it is read as the output path, the threshold is left as it was, and
    nothing is reported. *)
Theorem trailing_min_amount_is_output :
  forall (Decimal_of_str : string -> option Decimal)
         (before : list string) (output_csv : option string)
         (min_amount : option Decimal),
    Forall (fun a => a <> "--min-amount") before ->
    parse_options Decimal_of_str (before ++ ["--min-amount"])%list output_csv min_amount
    = Ok (Some "--min-amount", min_amount).
Proof.
  intros ds before o m Hall.
  rewrite RunFacts.parse_options_app; [reflexivity | exact Hall | discriminate].
Qed.

Lemma trailing_min_amount_is_output_witness :
  parse_options DecimalParser.Decimal_of_str ["out.csv"; "--min-amount"] None None
  = Ok (Some "--min-amount", None).
Proof.
  apply (trailing_min_amount_is_output DecimalParser.Decimal_of_str ["out.csv"] None None).
  repeat constructor; discriminate.
Defined.

(** X14. What the pattern finds is in the line: when [re.search] matches,
    the line contains a cell "W.F% (C/T)" in which W, F, C and T are
    non-empty runs of decimal digits; group 1 is "W.F", group 2 is C and
    group 3 is T. *)
Theorem pattern_match_is_a_coverage_cell :
  forall (line g1 g2 g3 : string),
    CalculateSrcCoverage.re_search line = Some (g1, g2, g3) ->
    exists before whole frac after,
      line = before ++ rendered whole frac g2 g3 ++ after /\
      g1 = whole ++ "." ++ frac /\
      is_number whole = true /\ is_number frac = true /\
      is_number g2 = true /\ is_number g3 = true.
Proof.
  intros line g1 g2 g3 H.
  destruct (PatternFacts.re_search_sound _ _ H) as (before & rest & -> & Hm).
  destruct (PatternFacts.match_here_sound _ _ _ _ Hm) as (whole & frac & after & -> & Hg).
  exists before, whole, frac, after. split; [reflexivity | exact Hg].
Qed.

Lemma pattern_match_is_a_coverage_cell_witness :
  exists before whole frac after,
    "| src/A.sol | 80.00% (8/10) |" = before ++ rendered whole frac "8" "10" ++ after /\
    "80.00" = whole ++ "." ++ frac /\
    is_number whole = true /\ is_number frac = true /\
    is_number "8" = true /\ is_number "10" = true.
Proof.
  apply (pattern_match_is_a_coverage_cell "| src/A.sol | 80.00% (8/10) |" "80.00" "8" "10").
  vm_compute. reflexivity.
Defined.

(** X15. A line that names a file under [src/] and has a coverage cell
    "W.F% (C/T)" with no percent sign before it is read as that cell,
    whatever follows the cell (the other columns of the table) and
    whatever digits the path has.  When C and T have at most 4300 digits
    the loop body adds C to [covered] and T to [total] and lists the line
    as missing coverage exactly when C < T; when one of them is longer,
    [int] raises ValueError and no variable is updated. *)
Theorem first_cell_is_counted :
  forall (a : CalculateSrcCoverage.acc) (before whole frac c t after : string),
    let line := before ++ rendered whole frac c t ++ after in
    let covered := CalculateSrcCoverage.int_of_group c in
    let total := CalculateSrcCoverage.int_of_group t in
    contains "| src/" line = true ->
    has_percent before = false ->
    is_number whole = true -> is_number frac = true ->
    is_number c = true -> is_number t = true ->
    CalculateSrcCoverage.loop_body a line
    = if (too_long c || too_long t)%bool then Raise ValueError
      else
        Ok (CalculateSrcCoverage.mkAcc
              (CalculateSrcCoverage.covered a + covered)
              (CalculateSrcCoverage.total a + total)
              (if (covered <? total)%Z
               then (CalculateSrcCoverage.files a
                       ++ [(strip line, covered, total, total - covered)])%list
               else CalculateSrcCoverage.files a)).
Proof.
  intros a before whole frac c t after line cov tot Hsrc Hb Nw Nf Nc Nt.
  destruct (PatternFacts.re_search_counts before whole frac c t after Hb Nw Nf Nc Nt)
    as [g1 Hre].
  rewrite CoverageFacts.loop_body_spec, CoverageFacts.scan_line_spec.
  unfold line_raises, coverage_of, missing_entry.
  fold line in Hre. rewrite Hsrc, Hre. fold cov tot.
  destruct (too_long c || too_long t)%bool; [reflexivity |].
  destruct (cov <? tot)%Z; [reflexivity |]. rewrite app_nil_r. reflexivity.
Qed.

Lemma first_cell_is_counted_witness :
  CalculateSrcCoverage.loop_body (CalculateSrcCoverage.mkAcc 5 5 [])
    ("| src/V2.sol | " ++ rendered "80" "00" "8" "10" ++ " | 50.00% (1/2) |")
  = Ok (CalculateSrcCoverage.mkAcc 13 15
          [("| src/V2.sol | 80.00% (8/10) | 50.00% (1/2) |", 8, 10, 2)]).
Proof.
  apply (first_cell_is_counted (CalculateSrcCoverage.mkAcc 5 5 [])
           "| src/V2.sol | " "80" "00" "8" "10" " | 50.00% (1/2) |");
    vm_compute; reflexivity.
Defined.

(** X16. Every entry of [files] comes from a line of the output that
    contains "| src/", holds that line stripped, and has
    [0 <= covered < total] and [missing = total - covered]: the division
    [c/t] of the listing never divides by zero, and no entry is listed with
    nothing missing. *)
Theorem missing_entries_are_deficits :
  forall stdout : string,
    Forall (fun f =>
              let '(name, c, t, m) := f in
              0 <= c < t /\ m = t - c /\
              exists line,
                In line (split_lines stdout) /\
                contains "| src/" line = true /\ name = strip line)
           (CalculateSrcCoverage.files (CalculateSrcCoverage.scan stdout)).
Proof.
  intros stdout. destruct (CoverageFacts.scan_spec stdout) as (_ & _ & ->).
  apply Forall_forall. intros [[[name c] t] m] Hin.
  apply in_flat_map in Hin. destruct Hin as ([line [c' t']] & Hm & Hin).
  apply ScanFacts.matched_lines_In in Hm. cbn [fst snd] in Hm. destruct Hm as [Hline Hcov].
  unfold missing_entry in Hin.
  destruct (Z.ltb_spec c' t') as [Hlt |]; [| contradiction].
  destruct Hin as [Heq | []]. injection Heq as <- <- <- <-.
  destruct (ScanFacts.coverage_of_nonneg _ _ _ Hcov) as [Hc _].
  repeat split; try lia.
  exists line. repeat split; [exact Hline |].
  unfold coverage_of in Hcov. destruct (contains "| src/" line); [reflexivity | discriminate].
Qed.

(** X17. The missing lines of the files listed add up to at least the
    [total - covered] of the last lines printed, and to exactly that when
    no matched line reports more covered lines than it has. *)
Theorem listed_deficits_bound_missing :
  forall stdout : string,
    let a := CalculateSrcCoverage.scan stdout in
    let listed := sumZ (map missing_of (CalculateSrcCoverage.files a)) in
    CalculateSrcCoverage.total a - CalculateSrcCoverage.covered a <= listed /\
    (Forall (fun m => fst (snd m) <= snd (snd m)) (matched stdout) ->
     listed = CalculateSrcCoverage.total a - CalculateSrcCoverage.covered a).
Proof.
  intros stdout a listed. subst a listed.
  destruct (CoverageFacts.scan_spec stdout) as (-> & -> & ->).
  apply ScanFacts.missing_sum.
Qed.

Lemma listed_deficits_bound_missing_witness :
  sumZ (map missing_of
          (CalculateSrcCoverage.files
             (CalculateSrcCoverage.scan "| src/A.sol | 80.00% (8/10) |")))
  = 2.
Proof.
  apply (proj2 (listed_deficits_bound_missing "| src/A.sol | 80.00% (8/10) |")).
  vm_compute. repeat constructor; discriminate.
Defined.

(** X18. When the line loop runs to its end (no count of a matched line
    is longer than 4300 digits), no matched line reports more covered
    lines than it has, and the total can be printed (it is below
    10^4300), the script exits with status 0 exactly when it lists no file
    with missing coverage. *)
Theorem exit_zero_iff_nothing_listed :
  forall (stdout : string) (a : CalculateSrcCoverage.acc),
    CalculateSrcCoverage.for_lines (split_lines stdout)
      (CalculateSrcCoverage.mkAcc 0 0 []) = Ok a ->
    Forall (fun m => fst (snd m) <= snd (snd m)) (matched stdout) ->
    CalculateSrcCoverage.total a < 10 ^ int_max_str_digits ->
    (snd (CalculateSrcCoverage.main (Ok stdout)) = 0 <->
     CalculateSrcCoverage.files a = []).
Proof.
  intros stdout a0 Hloop Hle Hprint.
  rewrite CoverageFacts.exit_status_spec.
  pose proof (CoverageFacts.for_lines_scan stdout a0 Hloop) as ->.
  rewrite CoverageFacts.for_lines_spec in Hloop.
  destruct (existsb line_raises (split_lines stdout)); [discriminate |]. clear Hloop.
  destruct (CoverageFacts.scan_spec stdout) as (Hc & Ht & Hf).
  pose proof (proj2 (ScanFacts.missing_sum (matched stdout)) Hle) as Hsum.
  pose proof (ScanFacts.missing_positive (matched stdout)) as Hpos.
  rewrite <- Hc, <- Ht, <- Hf in Hsum. rewrite <- Hf in Hpos.
  pose proof (CoverageFacts.covered_nonneg stdout) as Hcov.
  pose proof (ScanFacts.positive_sum_nonneg _ Hpos) as Hnn.
  pose proof (CoverageFacts.total_nonneg stdout) as Htot.
  set (a := CalculateSrcCoverage.scan stdout) in *.
  assert (Hx : exceeds_int_max_str_digits (CalculateSrcCoverage.total a) = false)
    by (apply CoverageFacts.exceeds_spec; rewrite Z.abs_eq; assumption).
  rewrite Hx. cbn [negb]. rewrite andb_true_r.
  split.
  - intros Hexit. apply ScanFacts.positive_sum_zero; [exact Hpos |].
    revert Hexit.
    destruct (Z.eqb_spec (CalculateSrcCoverage.total a) 0) as [Hz | Hnz];
      [lia |].
    destruct (Z.eqb_spec (CalculateSrcCoverage.total a - CalculateSrcCoverage.covered a) 0);
      [lia | discriminate].
  - intros Hnil. rewrite Hnil in Hsum. cbn in Hsum.
    destruct (Z.eqb_spec (CalculateSrcCoverage.total a - CalculateSrcCoverage.covered a) 0);
      [| lia].
    rewrite orb_true_r. reflexivity.
Qed.

Lemma exit_zero_iff_nothing_listed_witness :
  snd (CalculateSrcCoverage.main (Ok "| src/B.sol | 100.00% (5/5) |")) = 0 <->
  CalculateSrcCoverage.files (CalculateSrcCoverage.mkAcc 5 5 []) = [].
Proof.
  apply (exit_zero_iff_nothing_listed "| src/B.sol | 100.00% (5/5) |"
           (CalculateSrcCoverage.mkAcc 5 5 [])).
  - vm_compute. reflexivity.
  - vm_compute. repeat constructor; discriminate.
  - vm_compute. reflexivity.
Defined.

(** X19. The file name printed under an entry is a piece of the entry's
    line: it starts with "src/", goes on with at least one character, has
    no "|" in it, and ends where the line ends or the next "|" stands. *)
Theorem filename_is_src_path :
  forall (f name : string),
    CalculateSrcCoverage.filename_search f = Some name ->
    exists before rest after,
      f = before ++ name ++ after /\
      name = "src/" ++ rest /\
      is_empty rest = false /\ has_bar rest = false /\
      (after = "" \/ exists more, after = String "|" more).
Proof.
  intros f name H. exact (ScanFacts.filename_search_sound f name H).
Qed.

Lemma filename_is_src_path_witness :
  exists before rest after,
    "| src/A.sol | 80.00% (8/10) |" = before ++ "src/A.sol " ++ after /\
    "src/A.sol " = "src/" ++ rest /\
    is_empty rest = false /\ has_bar rest = false /\
    (after = "" \/ exists more, after = String "|" more).
Proof.
  apply (filename_is_src_path "| src/A.sol | 80.00% (8/10) |" "src/A.sol ").
  vm_compute. reflexivity.
Defined.

(** X20. The output of two runs of the tool joined by a line feed is
    scanned as the two outputs one after the other: the covered and total
    counts add up and the entries of the second follow those of the
    first. *)
Theorem scan_of_joined_outputs :
  forall (s1 s2 : string),
    let a1 := CalculateSrcCoverage.scan s1 in
    let a2 := CalculateSrcCoverage.scan s2 in
    CalculateSrcCoverage.scan (s1 ++ String LF s2)
    = CalculateSrcCoverage.mkAcc
        (CalculateSrcCoverage.covered a1 + CalculateSrcCoverage.covered a2)
        (CalculateSrcCoverage.total a1 + CalculateSrcCoverage.total a2)
        (CalculateSrcCoverage.files a1 ++ CalculateSrcCoverage.files a2)%list.
Proof.
  intros s1 s2 a1 a2. subst a1 a2.
  destruct (CoverageFacts.scan_spec s1) as (-> & -> & ->).
  destruct (CoverageFacts.scan_spec s2) as (-> & -> & ->).
  unfold CalculateSrcCoverage.scan at 1.
  rewrite ScanFacts.split_lines_app, CoverageFacts.fold_scan_spec.
  cbn [CalculateSrcCoverage.covered CalculateSrcCoverage.total CalculateSrcCoverage.files].
  rewrite ScanFacts.matched_lines_app, !map_app, !ScanFacts.sumZ_app, flat_map_app.
  reflexivity.
Qed.

(** X21. When the summary is printed, the amounts in it are finite numbers
    with a fixed number of places: the original total is the running total
    of all valid rows rounded to 6 places, the dust tokens and the dust
    loss are both the running dust total rounded to 10 places; the
    rounding is to the nearest, a tie goes to the even digit, and the sign
    is kept.  "NaN" or "Infinity" is never printed there. *)
Theorem printed_amounts_are_rounded :
  forall (Decimal_of_str : string -> option Decimal)
         (Decimal_of_float_pow10 : Z -> result Decimal)
         (reader : list (list string)) (decimals : Z) (min_amount : option Decimal)
         (written : option (list string)) (rep : report),
    prepare_csv Decimal_of_str Decimal_of_float_pow10 reader decimals min_amount
    = (written, Ok rep) ->
    exists factor min_scaled t u,
      scaling Decimal_of_float_pow10 decimals (min_amount_or_default min_amount)
      = Ok (factor, min_scaled) /\
      sum_dec zero (amounts (valid_rows Decimal_of_str reader)) = Ok t /\
      sum_dec zero (amounts (dust_rows Decimal_of_str factor min_scaled reader)) = Ok u /\
      rounded_to 6 t (rep_original_total rep) /\
      rounded_to 10 u (rep_dust_tokens rep) /\
      rep_dust_loss rep = rep_dust_tokens rep.
Proof.
  intros parse fl reader d m written rep H.
  destruct (ReportFacts.prepare_csv_written _ _ _ _ _ _ _ H (ex_intro _ rep eq_refl))
    as [w ->].
  destruct (ReportFacts.prepare_csv_inv _ _ _ _ _ _ _ H)
    as (factor & min_scaled & st & r' & Hs & Hrun & _ & Hrep).
  destruct (Hrep rep eq_refl) as [-> ->].
  destruct (AirdropLoop.for_rows_completed _ _ _ _ _ _ Hrun)
    as (_ & _ & _ & Hall & Hdust & Hscaled).
  change (total_original initial) with zero in Hall.
  change (dust_total initial) with zero in Hdust.
  assert (Hfin : Forall (fun a => is_finite a = true)
                   (map snd (valid_rows parse reader))).
  { apply Forall_map. eapply Forall_impl; [| exact Hscaled].
    intros e [_ [z Hz]]. exact (FormatFacts.scaled_is_finite _ _ _ Hz). }
  assert (Hfin' : Forall (fun a => is_finite a = true)
                    (map snd (filter (is_dust factor min_scaled) (valid_rows parse reader)))).
  { apply Forall_map. apply Forall_forall. intros e He.
    apply filter_In in He. destruct He as [He _].
    rewrite Forall_map, Forall_forall in Hfin. exact (Hfin e He). }
  exists factor, min_scaled, (total_original st), (dust_total st).
  cbn [rep_original_total rep_dust_tokens rep_dust_loss].
  unfold amounts, dust_rows.
  repeat split; try assumption.
  - apply FormatFacts.rounded_finite.
    exact (FormatFacts.sum_dec_finite _ _ _ Hall eq_refl Hfin).
  - apply FormatFacts.rounded_finite.
    exact (FormatFacts.sum_dec_finite _ _ _ Hdust eq_refl Hfin').
Qed.

Lemma printed_amounts_are_rounded_witness :
  let reader := [["0xA"; "1.0000005"]; ["0xB"; "0.00000000015"]] in
  let rep := mkReport 5 default_min_amount 1 1 (Fin false 2 (-10))
               (Fin false 1000001 (-6)) (Fin false 2 (-10))
               (Ok (Fin false 1000000 (-6))) in
  exists factor min_scaled t u,
    scaling Examples.float_pow10 5 (min_amount_or_default None) = Ok (factor, min_scaled) /\
    sum_dec zero (amounts (valid_rows DecimalParser.Decimal_of_str reader)) = Ok t /\
    sum_dec zero (amounts (dust_rows DecimalParser.Decimal_of_str factor min_scaled reader))
    = Ok u /\
    rounded_to 6 t (rep_original_total rep) /\
    rounded_to 10 u (rep_dust_tokens rep) /\
    rep_dust_loss rep = rep_dust_tokens rep.
Proof.
  apply (printed_amounts_are_rounded DecimalParser.Decimal_of_str Examples.float_pow10
           [["0xA"; "1.0000005"]; ["0xB"; "0.00000000015"]] 5 None
           (Some ["0xA,100000" ++ newline])).
  vm_compute. reflexivity.
Defined.



(** X23. The amount of a record is written as a decimal numeral: a minus
    sign when the scaled amount is negative, then a non-empty run of
    decimal digits and nothing else, and the digits read back as an
    integer give the absolute value of the scaled amount.  The record of a
    row is its address, a comma and that numeral. *)
Theorem written_amount_reads_back :
  forall (factor : Decimal) (e : string * Decimal),
    let z := scaled_or_zero factor (snd e) in
    exists digits,
      record_of factor e = fst e ++ "," ++ (if z <? 0 then "-" ++ digits else digits)%Z /\
      is_number digits = true /\
      Z.of_N (N_of_digits digits) = Z.abs z.
Proof.
  intros factor e z.
  destruct (NumeralFacts.str_of_N_digits (Z.abs_N z)) as [Hnum Hval].
  exists (str_of_N (Z.abs_N z)). split; [| split; [exact Hnum |]].
  - unfold record_of, str_of_Z. fold z. destruct (z <? 0)%Z; reflexivity.
  - rewrite Hval. apply N2Z.inj_abs_N.
Qed.
